(** * evolution-backend: the administration controller

    A shallow embedding of [src/controllers/adminController.js] and the
    properties of its authorization and cardinality rules.

    The controller is a set of request handlers over two document
    collections (users and locales).  Every handler reads the collections,
    answers early with an HTTP status when a check fails, and performs at
    most one write at its end.  The embedding follows that shape: a handler
    is a function from the collections and the request to a response and
    the collections after the request, and the early answers are threaded
    by a small control monad.

    What the sources do not contain is taken as follows.
    - The user schema ([models/User.js]): documents are records with the
      fields the controller reads and writes; queries are read at face
      value (a filter selects the documents whose fields match it), without
      any query middleware of the schema.  The [includeInactive] key and
      option that some queries carry address that middleware and select
      nothing by themselves; they are left out of the filters.
    - [req.user.puedeAdministrar], a method of the user schema, is a
      parameter of [updateUser].
    - The rendering of a populated locale document by [toString] (used by
      [getUserById] only) is a parameter, [inspectLocal].
    - The regular expression engine behind [$regex] is a parameter,
      [regexTest]. *)

From Stdlib Require Import String List Bool Arith Lia Permutation Sorted.
Import ListNotations.
Local Open Scope string_scope.
Local Open Scope list_scope.

(** ** Data model *)

(** ObjectIds are compared through their string rendering everywhere in the
    controller; they are modelled by that rendering. *)
Definition ObjectId : Type := string.

(** [const MAX_SUPER_ADMINS = 4] *)
Definition MAX_SUPER_ADMINS : nat := 4.

(** The roles the user schema admits. *)
Inductive Role : Type := usuario | admin | superAdmin.

Definition Role_eqb (a b : Role) : bool :=
  match a, b with
  | usuario, usuario | admin, admin | superAdmin, superAdmin => true
  | _, _ => false
  end.

(** A locale document, with the fields a [populate] projects. *)
Record Local : Type := mkLocal {
  local_id : ObjectId;
  local_nombre : string;
  local_direccion : string
}.

(** [ultimaModificacion: { usuario, fecha }] *)
Record Modificacion : Type := mkModificacion {
  mod_usuario : ObjectId;
  mod_fecha : nat
}.

(** The credential fields of a user document. *)
Record Credenciales : Type := mkCredenciales {
  password : string;
  intentosFallidos : nat;
  bloqueadoHasta : option nat;
  passwordResetToken : option string;
  passwordResetExpires : option nat
}.

(** A user document.  [local] is the field [deleteUser] reads; no handler of
    the controller writes it. *)
Record User : Type := mkUser {
  _id : ObjectId;
  nombre : string;
  email : string;
  cred : Credenciales;
  role : Role;
  telefono : option string;
  direccion : option string;
  organizacion : option string;
  locales : list ObjectId;
  localPrincipal : option ObjectId;
  local : option ObjectId;
  verificado : bool;
  activo : bool;
  enLinea : bool;
  esAdministradorLocal : bool;
  creadoPor : option ObjectId;
  ultimaModificacion : option Modificacion;
  createdAt : nat
}.

(** The two collections. *)
Record DB : Type := mkDB {
  db_users : list User;
  db_locales : list Local
}.

(** ** Requests *)

(** What the authentication layer attaches to a request: [req.userId],
    [req.userRole] and the [locales] of [req.user] (guarded by
    [req.user.locales && ...] throughout, hence optional), and the clock
    read by [Date.now()]. *)
Record Req : Type := mkReq {
  req_userId : ObjectId;
  req_userRole : Role;
  req_user_locales : option (list ObjectId);
  req_now : nat
}.

(** JavaScript truthiness of an optional string (absent and empty are falsy). *)
Definition truthy (o : option string) : bool :=
  match o with
  | Some s => negb (s =? "")
  | None => false
  end.

(** [xs && Array.isArray(xs) && xs.length > 0] *)
Definition noVacio {A : Type} (o : option (list A)) : bool :=
  match o with
  | Some (_ :: _) => true
  | _ => false
  end.

(** ** Queries *)

Inductive RoleCond : Type :=
| RoleEq (r : Role)      (* role: r *)
| RoleNe (r : Role).     (* role: { $ne: r } *)

Inductive LocalesCond : Type :=
| LocalesHas (l : ObjectId)        (* locales: l *)
| LocalesIn (ls : list ObjectId).  (* locales: { $in: ls } *)

(** A filter document over the user collection; an absent key constrains
    nothing. *)
Record Filter : Type := mkFilter {
  f_id : option ObjectId;
  f_email : option string;
  f_role : option RoleCond;
  f_activo : option bool;
  f_locales : option LocalesCond;
  f_local : option ObjectId
}.

Definition sinFiltro : Filter := mkFilter None None None None None None.

Definition inList (x : ObjectId) (xs : list ObjectId) : bool :=
  existsb (fun y => y =? x) xs.

Definition matchRole (c : RoleCond) (r : Role) : bool :=
  match c with
  | RoleEq x => Role_eqb r x
  | RoleNe x => negb (Role_eqb r x)
  end.

Definition matchLocales (c : LocalesCond) (ls : list ObjectId) : bool :=
  match c with
  | LocalesHas l => inList l ls
  | LocalesIn xs => existsb (fun l => inList l xs) ls
  end.

Definition onKey {A : Type} (o : option A) (p : A -> bool) : bool :=
  match o with
  | Some a => p a
  | None => true
  end.

Definition matches (f : Filter) (u : User) : bool :=
  onKey (f_id f) (fun i => _id u =? i) &&
  onKey (f_email f) (fun e => email u =? e) &&
  onKey (f_role f) (fun c => matchRole c (role u)) &&
  onKey (f_activo f) (fun b => Bool.eqb (activo u) b) &&
  onKey (f_locales f) (fun c => matchLocales c (locales u)) &&
  onKey (f_local f) (fun l => match local u with
                              | Some x => x =? l
                              | None => false
                              end).

(** [User.countDocuments(filter)] *)
Definition countDocuments (f : Filter) (db : DB) : nat :=
  length (filter (matches f) (db_users db)).

(** [User.findOne(filter)] *)
Definition findOne (f : Filter) (db : DB) : option User :=
  find (matches f) (db_users db).

(** [User.findById(id)] *)
Definition findById (id : ObjectId) (db : DB) : option User :=
  find (fun u => _id u =? id) (db_users db).

(** [Local.findById(id)] *)
Definition Local_findById (id : ObjectId) (db : DB) : option Local :=
  find (fun l => local_id l =? id) (db_locales db).

(** [.populate('locales', ...)]: every reference is replaced by the document
    it names; a reference that names no document is dropped. *)
Definition populate (db : DB) (ids : list ObjectId) : list Local :=
  flat_map (fun id => match Local_findById id db with
                      | Some l => [l]
                      | None => []
                      end) ids.

(** Replace the first document whose [_id] is [id] by its image under [f]
    (one document is written, as [findByIdAndUpdate] and [save] do). *)
Fixpoint updateOne (id : ObjectId) (f : User -> User) (us : list User) : list User :=
  match us with
  | [] => []
  | u :: rest => if _id u =? id then f u :: rest else u :: updateOne id f rest
  end.

Definition findByIdAndUpdate (id : ObjectId) (f : User -> User) (db : DB) : DB :=
  mkDB (updateOne id f (db_users db)) (db_locales db).

(** [doc.save()] of a document obtained from the collection. *)
Definition save (u : User) (db : DB) : DB :=
  findByIdAndUpdate (_id u) (fun _ => u) db.

(** [User.create(doc)] *)
Definition create (u : User) (db : DB) : DB :=
  mkDB (db_users db ++ [u]) (db_locales db).

(** ** Responses *)

Inductive Mensaje : Type :=
| UsuarioNoEncontrado
| NoPermisosVer
| LimiteCrearSuperAdmins
| NoPermisosCrearRol
| SoloPropiosLocales
| LocalNoExiste (id : ObjectId)
| EmailRegistrado
| UsuarioCreado
| LimiteTenerSuperAdmins
| NoEditarOtrosLocales
| DebeAsignarLocal
| NoPermisosAsignarSuperAdmin
| NoPermisosModificarSuperAdmin
| UsuarioActualizado
| ErrorActualizar
| SoloSuperAdminElimina
| NoEliminarUltimoSuperAdmin
| NoEliminarUnicoAdmin
| UsuarioEliminado
| NoPermisosEstado
| NoPermisosEstadoOtroLocal
| NoDesactivarUltimoSuperAdmin
| NoDesactivarUnicoAdmin (nombreLocal : string)
| UsuarioActivado
| UsuarioDesactivado
| IdLocalRequerido
| AdministradorNoEncontrado
| LocalNoEncontrado
| LocalYaAsignado
| LocalAsignado
| LocalNoAsignado
| NoEliminarUnicoLocal
| LocalEliminado
| NoPrincipalNoAsignado
| PrincipalEstablecido.

(** [pagination: { total, page, limit, pages }] *)
Record Pagination : Type := mkPagination {
  total : nat;
  page : nat;
  limit : nat;
  pages : nat
}.

Inductive Data : Type :=
| SinDatos
| DUser (u : User)
| DUsers (us : list User) (p : Pagination)
| DAdmin (adminId : ObjectId) (ls : list ObjectId) (principal : option ObjectId).

(** [res.status(s).json({ success, message, data })] *)
Record Res : Type := mkRes {
  status : nat;
  success : bool;
  message : option Mensaje;
  data : Data
}.

Definition fallo (s : nat) (m : Mensaje) : Res := mkRes s false (Some m) SinDatos.
Definition exito (s : nat) (m : option Mensaje) (d : Data) : Res := mkRes s true m d.

(** The failure kinds of the specification, read off the status and the
    message of a response. *)
Definition esForbidden (r : Res) : bool := Nat.eqb (status r) 403.

Definition esInvariantViolation (r : Res) : bool :=
  match message r with
  | Some LimiteCrearSuperAdmins | Some LimiteTenerSuperAdmins
  | Some NoEliminarUltimoSuperAdmin | Some NoEliminarUnicoAdmin
  | Some NoDesactivarUltimoSuperAdmin | Some (NoDesactivarUnicoAdmin _)
  | Some NoEliminarUnicoLocal | Some DebeAsignarLocal => Nat.eqb (status r) 400
  | _ => false
  end.

Definition esNotFound (r : Res) : bool :=
  match message r with
  | Some UsuarioNoEncontrado | Some AdministradorNoEncontrado => Nat.eqb (status r) 404
  | _ => false
  end.

(** ** Control: a handler answers early or goes on *)

Inductive Flow (A : Type) : Type :=
| Responde (r : Res)
| Sigue (a : A).
Arguments Responde {A} r.
Arguments Sigue {A} a.

Definition bind {A B : Type} (m : Flow A) (k : A -> Flow B) : Flow B :=
  match m with
  | Responde r => Responde r
  | Sigue a => k a
  end.

Declare Scope flow_scope.
Delimit Scope flow_scope with flow.
Notation "x <- m ;; k" := (bind m (fun x => k))
  (at level 61, m at next level, right associativity) : flow_scope.
Notation "m ;; k" := (bind m (fun _ => k))
  (at level 61, right associativity) : flow_scope.
Local Open Scope flow_scope.

(** [if (c) return res...] *)
Definition cuando (c : bool) (r : Res) : Flow unit :=
  if c then Responde r else Sigue tt.

(** The answer of a handler and the collections after it: an early answer
    leaves the collections as they were. *)
Definition responder (db : DB) (m : Flow (Res * DB)) : Res * DB :=
  match m with
  | Responde r => (r, db)
  | Sigue p => p
  end.

(** [for (const localId of ls) { if (!(await Local.findById(localId))) return 404 }] *)
Fixpoint verificarLocales (db : DB) (ls : list ObjectId) : Flow unit :=
  match ls with
  | [] => Sigue tt
  | localId :: rest =>
      match Local_findById localId db with
      | None => Responde (fallo 404 (LocalNoExiste localId))
      | Some _ => verificarLocales db rest
      end
  end.

(** ** Field updates on documents *)

Definition set_estado (a e : bool) (m : option Modificacion) (u : User) : User :=
  mkUser (_id u) (nombre u) (email u) (cred u) (role u) (telefono u) (direccion u)
         (organizacion u) (locales u) (localPrincipal u) (local u) (verificado u)
         a e (esAdministradorLocal u) (creadoPor u) m (createdAt u).

Definition set_locales (ls : list ObjectId) (u : User) : User :=
  mkUser (_id u) (nombre u) (email u) (cred u) (role u) (telefono u) (direccion u)
         (organizacion u) ls (localPrincipal u) (local u) (verificado u)
         (activo u) (enLinea u) (esAdministradorLocal u) (creadoPor u)
         (ultimaModificacion u) (createdAt u).

Definition set_localPrincipal (p : option ObjectId) (u : User) : User :=
  mkUser (_id u) (nombre u) (email u) (cred u) (role u) (telefono u) (direccion u)
         (organizacion u) (locales u) p (local u) (verificado u)
         (activo u) (enLinea u) (esAdministradorLocal u) (creadoPor u)
         (ultimaModificacion u) (createdAt u).

Definition set_esAdministradorLocal (b : bool) (u : User) : User :=
  mkUser (_id u) (nombre u) (email u) (cred u) (role u) (telefono u) (direccion u)
         (organizacion u) (locales u) (localPrincipal u) (local u) (verificado u)
         (activo u) (enLinea u) b (creadoPor u)
         (ultimaModificacion u) (createdAt u).

(** ** The body of an update request

    Every key is optional; [delete updateData.k] makes key [k] absent. *)

Record Perfil : Type := mkPerfil {
  p_nombre : option string;
  p_email : option string;
  p_telefono : option string;
  p_direccion : option string;
  p_organizacion : option string
}.

Record UpdateData : Type := mkUpdateData {
  u_perfil : Perfil;
  u_role : option Role;
  u_locales : option (list ObjectId);
  u_localPrincipal : option ObjectId;
  u_password : option string;
  u_intentosFallidos : option nat;
  u_bloqueadoHasta : option nat;
  u_passwordResetToken : option string;
  u_passwordResetExpires : option nat;
  u_esAdministradorLocal : option bool;
  u_ultimaModificacion : option Modificacion
}.

Definition delete_role (d : UpdateData) : UpdateData :=
  mkUpdateData (u_perfil d) None (u_locales d) (u_localPrincipal d) (u_password d)
    (u_intentosFallidos d) (u_bloqueadoHasta d) (u_passwordResetToken d)
    (u_passwordResetExpires d) (u_esAdministradorLocal d) (u_ultimaModificacion d).

Definition delete_locales (d : UpdateData) : UpdateData :=
  mkUpdateData (u_perfil d) (u_role d) None (u_localPrincipal d) (u_password d)
    (u_intentosFallidos d) (u_bloqueadoHasta d) (u_passwordResetToken d)
    (u_passwordResetExpires d) (u_esAdministradorLocal d) (u_ultimaModificacion d).

Definition put_localPrincipal (p : option ObjectId) (d : UpdateData) : UpdateData :=
  mkUpdateData (u_perfil d) (u_role d) (u_locales d) p (u_password d)
    (u_intentosFallidos d) (u_bloqueadoHasta d) (u_passwordResetToken d)
    (u_passwordResetExpires d) (u_esAdministradorLocal d) (u_ultimaModificacion d).

Definition delete_localPrincipal : UpdateData -> UpdateData := put_localPrincipal None.

Definition delete_password (d : UpdateData) : UpdateData :=
  mkUpdateData (u_perfil d) (u_role d) (u_locales d) (u_localPrincipal d) None
    (u_intentosFallidos d) (u_bloqueadoHasta d) (u_passwordResetToken d)
    (u_passwordResetExpires d) (u_esAdministradorLocal d) (u_ultimaModificacion d).

Definition delete_intentosFallidos (d : UpdateData) : UpdateData :=
  mkUpdateData (u_perfil d) (u_role d) (u_locales d) (u_localPrincipal d) (u_password d)
    None (u_bloqueadoHasta d) (u_passwordResetToken d)
    (u_passwordResetExpires d) (u_esAdministradorLocal d) (u_ultimaModificacion d).

Definition delete_bloqueadoHasta (d : UpdateData) : UpdateData :=
  mkUpdateData (u_perfil d) (u_role d) (u_locales d) (u_localPrincipal d) (u_password d)
    (u_intentosFallidos d) None (u_passwordResetToken d)
    (u_passwordResetExpires d) (u_esAdministradorLocal d) (u_ultimaModificacion d).

Definition delete_passwordResetToken (d : UpdateData) : UpdateData :=
  mkUpdateData (u_perfil d) (u_role d) (u_locales d) (u_localPrincipal d) (u_password d)
    (u_intentosFallidos d) (u_bloqueadoHasta d) None
    (u_passwordResetExpires d) (u_esAdministradorLocal d) (u_ultimaModificacion d).

Definition delete_passwordResetExpires (d : UpdateData) : UpdateData :=
  mkUpdateData (u_perfil d) (u_role d) (u_locales d) (u_localPrincipal d) (u_password d)
    (u_intentosFallidos d) (u_bloqueadoHasta d) (u_passwordResetToken d)
    None (u_esAdministradorLocal d) (u_ultimaModificacion d).

Definition put_esAdministradorLocal (b : bool) (d : UpdateData) : UpdateData :=
  mkUpdateData (u_perfil d) (u_role d) (u_locales d) (u_localPrincipal d) (u_password d)
    (u_intentosFallidos d) (u_bloqueadoHasta d) (u_passwordResetToken d)
    (u_passwordResetExpires d) (Some b) (u_ultimaModificacion d).

Definition put_ultimaModificacion (m : Modificacion) (d : UpdateData) : UpdateData :=
  mkUpdateData (u_perfil d) (u_role d) (u_locales d) (u_localPrincipal d) (u_password d)
    (u_intentosFallidos d) (u_bloqueadoHasta d) (u_passwordResetToken d)
    (u_passwordResetExpires d) (u_esAdministradorLocal d) (Some m).

(** The value of a key after [$set]: the body's when the key is present. *)
Definition opt {A : Type} (o : option A) (d : A) : A :=
  match o with
  | Some a => a
  | None => d
  end.

Definition orElse {A : Type} (o d : option A) : option A :=
  match o with
  | Some a => Some a
  | None => d
  end.

(** [{ $set: updateData }] on one document: every key present in the body
    overwrites the field, every absent key leaves it. *)
Definition applySet (d : UpdateData) (u : User) : User :=
  mkUser (_id u)
         (opt (p_nombre (u_perfil d)) (nombre u))
         (opt (p_email (u_perfil d)) (email u))
         (mkCredenciales
            (opt (u_password d) (password (cred u)))
            (opt (u_intentosFallidos d) (intentosFallidos (cred u)))
            (orElse (u_bloqueadoHasta d) (bloqueadoHasta (cred u)))
            (orElse (u_passwordResetToken d) (passwordResetToken (cred u)))
            (orElse (u_passwordResetExpires d) (passwordResetExpires (cred u))))
         (opt (u_role d) (role u))
         (orElse (p_telefono (u_perfil d)) (telefono u))
         (orElse (p_direccion (u_perfil d)) (direccion u))
         (orElse (p_organizacion (u_perfil d)) (organizacion u))
         (opt (u_locales d) (locales u))
         (orElse (u_localPrincipal d) (localPrincipal u))
         (local u)
         (verificado u)
         (activo u)
         (enLinea u)
         (opt (u_esAdministradorLocal d) (esAdministradorLocal u))
         (creadoPor u)
         (orElse (u_ultimaModificacion d) (ultimaModificacion u))
         (createdAt u).

(** ** Shared pieces of the handlers *)

(** [{ role: 'superAdmin' }] *)
Definition filtroSuperAdmins : Filter :=
  mkFilter None None (Some (RoleEq superAdmin)) None None None.

(** [{ role: 'superAdmin', activo: true }] *)
Definition filtroSuperAdminsActivos : Filter :=
  mkFilter None None (Some (RoleEq superAdmin)) (Some true) None None.

(** [{ role: 'admin', locales: l, activo: true }] *)
Definition filtroAdminsDeLocales (l : ObjectId) : Filter :=
  mkFilter None None (Some (RoleEq admin)) (Some true) (Some (LocalesHas l)) None.

(** [{ role: 'admin', local: l, activo: true }] *)
Definition filtroAdminsDeLocal (l : ObjectId) : Filter :=
  mkFilter None None (Some (RoleEq admin)) (Some true) None (Some l).

(** [{ _id: adminId, role: 'admin' }] *)
Definition filtroAdmin (adminId : ObjectId) : Filter :=
  mkFilter (Some adminId) None (Some (RoleEq admin)) None None None.

(** [{ email }] *)
Definition filtroEmail (e : string) : Filter :=
  mkFilter None (Some e) None None None None.

(** [const x = await ...; if (!x) return res...] *)
Definition buscar {A : Type} (o : option A) (r : Res) : Flow A :=
  match o with
  | Some a => Sigue a
  | None => Responde r
  end.

Definition esRol (o : option Role) (r : Role) : bool :=
  match o with
  | Some x => Role_eqb x r
  | None => false
  end.

(** [req.user.locales && req.user.locales.some(adminLocal => adminLocal.toString() === s)] *)
Definition enLocalesDelActor (req : Req) (s : string) : bool :=
  match req_user_locales req with
  | Some ls => existsb (fun adminLocal => adminLocal =? s) ls
  | None => false
  end.

(** ** getAllUsers *)

Record Query : Type := mkQuery {
  q_page : option nat;     (* parseInt(req.query.page), absent when NaN *)
  q_limit : option nat;    (* parseInt(req.query.limit), absent when NaN *)
  q_role : option Role;
  q_activo : option string;
  q_search : option string;
  q_local : option string
}.

(** [parseInt(x) || d] *)
Definition parseIntOr (o : option nat) (d : nat) : nat :=
  match o with
  | Some (S n) => S n
  | _ => d
  end.

(** The filter document [getAllUsers] builds, key by key. *)
Definition filtrosDe (req : Req) (q : Query) : Filter :=
  let f_role0 := match q_role q with
                 | Some r => Some (RoleEq r)
                 | None => None
                 end in
  let f_activo0 := match q_activo q with
                   | Some s => if s =? "true" then Some true
                               else if s =? "false" then Some false else None
                   | None => None
                   end in
  let f_locales0 := if truthy (q_local q)
                    then Some (LocalesHas (opt (q_local q) ""))
                    else None in
  match req_userRole req with
  | admin =>
      let f_locales1 := if noVacio (req_user_locales req)
                        then Some (LocalesIn (opt (req_user_locales req) []))
                        else f_locales0 in
      mkFilter None None (Some (RoleNe superAdmin)) f_activo0 f_locales1 None
  | _ => mkFilter None None f_role0 f_activo0 f_locales0 None
  end.

(** [.sort({ createdAt: -1 })] *)
Fixpoint insertar (u : User) (us : list User) : list User :=
  match us with
  | [] => [u]
  | v :: rest => if Nat.leb (createdAt v) (createdAt u)
                 then u :: v :: rest
                 else v :: insertar u rest
  end.

Definition sortCreatedDesc (us : list User) : list User :=
  fold_right insertar [] us.

(** [Math.ceil(total / limit)] for a positive [limit]. *)
Definition ceilDiv (t l : nat) : nat := (t + l - 1) / l.

Section Controller.

(** [req.user.puedeAdministrar(user)]: the method of the user schema, applied
    to the target document and its populated locales. *)
Variable puedeAdministrar : Req -> User -> list Local -> bool.

(** [local.toString()] of a populated locale document. *)
Variable inspectLocal : Local -> string.

(** [{ $regex: pattern, $options: 'i' }] applied to a field value. *)
Variable regexTest : string -> string -> bool.

(** [$or: [{ nombre: regex }, { email: regex }]], present when
    [req.query.search] is truthy. *)
Definition matchSearch (q : Query) (u : User) : bool :=
  if truthy (q_search q)
  then regexTest (opt (q_search q) "") (nombre u)
       || regexTest (opt (q_search q) "") (email u)
  else true.

Definition getAllUsers (db : DB) (req : Req) (q : Query) : Res * DB :=
  let page := parseIntOr (q_page q) 1 in
  let limit := parseIntOr (q_limit q) 10 in
  let skip := (page - 1) * limit in
  let filters := filtrosDe req q in
  let found := filter (fun u => matches filters u && matchSearch q u) (db_users db) in
  let total := length found in
  let users := firstn limit (skipn skip (sortCreatedDesc found)) in
  (exito 200 None (DUsers users (mkPagination total page limit (ceilDiv total limit))), db).

(** ** getUserById *)


(** ** createUser *)

Record CreateBody : Type := mkCreateBody {
  c_nombre : string;
  c_email : string;
  c_password : string;
  c_role : option Role;
  c_telefono : option string;
  c_direccion : option string;
  c_organizacion : option string;
  c_locales : option (list ObjectId)
}.

(** [req.body.locales = ls] *)
Definition put_c_locales (ls : option (list ObjectId)) (b : CreateBody) : CreateBody :=
  mkCreateBody (c_nombre b) (c_email b) (c_password b) (c_role b) (c_telefono b)
               (c_direccion b) (c_organizacion b) ls.

(** The document [User.create(userData)] stores: the keys of [userData], and
    the schema's defaults for the keys it lacks.  [locales] is the constant
    destructured from the body at the top of the handler. *)
Definition nuevoUsuario (nuevoId : ObjectId) (req : Req) (body : CreateBody)
    (locales : option (list ObjectId)) : User :=
  mkUser nuevoId (c_nombre body) (c_email body)
         (mkCredenciales (c_password body) 0 None None None)
         (opt (c_role body) usuario)
         (c_telefono body) (c_direccion body) (c_organizacion body)
         (if noVacio locales then opt locales [] else [])
         (if noVacio locales then hd_error (opt locales []) else None)
         None
         true true false false
         (Some (req_userId req))
         (Some (mkModificacion (req_userId req) (req_now req)))
         (req_now req).

(** The end of [createUser]: the document is stored, an administrator with
    locales is marked and saved again, and the answer is 201. *)
Definition crear (db : DB) (userData : User) : Res * DB :=
  let newUser := userData in
  let db1 := create newUser db in
  let marcar := Role_eqb (role newUser) admin
                && negb (Nat.eqb (length (locales newUser)) 0) in
  let newUser' := if marcar then set_esAdministradorLocal true newUser else newUser in
  let db2 := if marcar then save newUser' db1 else db1 in
  (exito 201 (Some UsuarioCreado) (DUser newUser'), db2).

Definition createUser (db : DB) (req : Req) (body0 : CreateBody)
    (nuevoId : ObjectId) : Res * DB :=
  (* const { nombre, email, password, role, ..., locales } = req.body *)
  let role0 := c_role body0 in
  let locales0 := c_locales body0 in
  responder db (
    cuando (esRol role0 superAdmin
            && Nat.leb MAX_SUPER_ADMINS (countDocuments filtroSuperAdmins db))
           (fallo 400 LimiteCrearSuperAdmins) ;;
    reqBody <- match req_userRole req with
            | admin =>
                cuando (match role0 with
                        | Some r => negb (Role_eqb r usuario)
                        | None => false
                        end) (fallo 403 NoPermisosCrearRol) ;;
                if noVacio locales0 then
                  cuando (negb (forallb (fun localId => enLocalesDelActor req localId)
                                        (opt locales0 [])))
                         (fallo 403 SoloPropiosLocales) ;;
                  Sigue body0
                else
                  (* req.body.locales = req.user.locales; the body is not
                     read again below *)
                  Sigue (put_c_locales (req_user_locales req) body0)
            | superAdmin =>
                (if noVacio locales0 then verificarLocales db (opt locales0 [])
                 else Sigue tt) ;;
                Sigue body0
            | usuario => Sigue body0
            end ;;
    cuando (match findOne (filtroEmail (c_email body0)) db with
            | Some _ => true
            | None => false
            end) (fallo 400 EmailRegistrado) ;;
    Sigue (crear db (nuevoUsuario nuevoId req body0 locales0))).


(** ** updateUser *)

(** The statements of [updateUser] between its permission checks and its
    write: the credential keys are deleted, the modification is stamped,
    and [esAdministradorLocal] and [localPrincipal] are derived.
    [userLocales] is the populated [user.locales] of the target. *)
Definition prepararSet (req : Req) (userLocales : list Local)
    (updateData1 : UpdateData) : UpdateData :=
  let updateData2 :=
    delete_passwordResetExpires (delete_passwordResetToken (delete_bloqueadoHasta
      (delete_intentosFallidos (delete_password updateData1)))) in
  let updateData3 :=
    put_ultimaModificacion (mkModificacion (req_userId req) (req_now req)) updateData2 in
  let updateData4 :=
    if esRol (u_role updateData3) admin
       && (noVacio (u_locales updateData3) || negb (Nat.eqb (length userLocales) 0))
    then put_esAdministradorLocal true updateData3
    else updateData3 in
  if noVacio (u_locales updateData4)
  then put_localPrincipal (hd_error (opt (u_locales updateData4) [])) updateData4
  else updateData4.

Definition updateUser (db : DB) (req : Req) (userId : ObjectId)
    (updateData0 : UpdateData) : Res * DB :=
  responder db (
    (if esRol (u_role updateData0) superAdmin then
       match findById userId db with
       | None =>
           (* [user.role] of [null] throws; the [catch] answers 500 *)
           Responde (fallo 500 ErrorActualizar)
       | Some user =>
           cuando (negb (Role_eqb (role user) superAdmin)
                   && Nat.leb MAX_SUPER_ADMINS (countDocuments filtroSuperAdmins db))
                  (fallo 400 LimiteTenerSuperAdmins)
       end
     else Sigue tt) ;;
    user <- buscar (findById userId db) (fallo 404 UsuarioNoEncontrado) ;;
    let userLocales := populate db (locales user) in
    updateData1 <- match req_userRole req with
                   | admin =>
                       cuando (negb (puedeAdministrar req user userLocales))
                              (fallo 403 NoEditarOtrosLocales) ;;
                       Sigue (delete_localPrincipal (delete_locales (delete_role updateData0)))
                   | superAdmin =>
                       cuando (esRol (u_role updateData0) admin
                               && negb (noVacio (u_locales updateData0))
                               && Nat.eqb (length userLocales) 0)
                              (fallo 400 DebeAsignarLocal) ;;
                       match u_locales updateData0 with
                       | Some ls => verificarLocales db ls
                       | None => Sigue tt
                       end ;;
                       Sigue updateData0
                   | usuario => Sigue updateData0
                   end ;;
    cuando (esRol (u_role updateData1) superAdmin
            && negb (Role_eqb (req_userRole req) superAdmin))
           (fallo 403 NoPermisosAsignarSuperAdmin) ;;
    cuando (Role_eqb (role user) superAdmin
            && negb (Role_eqb (req_userRole req) superAdmin))
           (fallo 403 NoPermisosModificarSuperAdmin) ;;
    let db' := findByIdAndUpdate userId
                 (applySet (prepararSet req userLocales updateData1)) db in
    Sigue (exito 200 (Some UsuarioActualizado)
                 (match findById userId db' with
                  | Some updatedUser => DUser updatedUser
                  | None => SinDatos
                  end), db')).

(** ** deleteUser *)

Definition deleteUser (db : DB) (req : Req) (userId : ObjectId) : Res * DB :=
  responder db (
    cuando (negb (Role_eqb (req_userRole req) superAdmin))
           (fallo 403 SoloSuperAdminElimina) ;;
    user <- buscar (findById userId db) (fallo 404 UsuarioNoEncontrado) ;;
    cuando (Role_eqb (role user) superAdmin
            && Nat.leb (countDocuments filtroSuperAdminsActivos db) 1)
           (fallo 400 NoEliminarUltimoSuperAdmin) ;;
    (* if (user.role === 'admin' && user.local) *)
    cuando (Role_eqb (role user) admin && truthy (local user)
            && Nat.leb (countDocuments (filtroAdminsDeLocal (opt (local user) "")) db) 1)
           (fallo 400 NoEliminarUnicoAdmin) ;;
    let db' := findByIdAndUpdate userId
                 (set_estado false false
                    (Some (mkModificacion (req_userId req) (req_now req)))) db in
    Sigue (exito 200 (Some UsuarioEliminado) SinDatos, db')).

(** ** toggleUserStatus *)

(** [for (const local of user.locales) { count admins; if (count <= 1) return 400 }] *)
Fixpoint verificarAdminsDeLocales (db : DB) (ls : list Local) : Flow unit :=
  match ls with
  | [] => Sigue tt
  | l :: rest =>
      if Nat.leb (countDocuments (filtroAdminsDeLocales (local_id l)) db) 1
      then Responde (fallo 400 (NoDesactivarUnicoAdmin (local_nombre l)))
      else verificarAdminsDeLocales db rest
  end.

Definition toggleUserStatus (db : DB) (req : Req) (userId : ObjectId)
    (activo0 : bool) : Res * DB :=
  responder db (
    user <- buscar (findById userId db) (fallo 404 UsuarioNoEncontrado) ;;
    let userLocales := populate db (locales user) in
    match req_userRole req with
    | admin =>
        cuando (Role_eqb (role user) superAdmin || Role_eqb (role user) admin)
               (fallo 403 NoPermisosEstado) ;;
        let tienePermisos :=
          existsb (fun l => enLocalesDelActor req (local_id l)) userLocales in
        cuando (negb tienePermisos) (fallo 403 NoPermisosEstadoOtroLocal)
    | _ => Sigue tt
    end ;;
    cuando (Role_eqb (role user) superAdmin && negb activo0
            && Nat.leb (countDocuments filtroSuperAdminsActivos db) 1)
           (fallo 400 NoDesactivarUltimoSuperAdmin) ;;
    (if Role_eqb (role user) admin && negb (Nat.eqb (length userLocales) 0)
        && negb activo0
     then verificarAdminsDeLocales db userLocales
     else Sigue tt) ;;
    let user' :=
      set_estado activo0 (if negb activo0 then false else enLinea user)
                 (Some (mkModificacion (req_userId req) (req_now req))) user in
    Sigue (exito 200 (Some (if activo0 then UsuarioActivado else UsuarioDesactivado))
                 SinDatos, save user' db)).

(** ** Locales of an administrator *)

Definition assignLocalToAdmin (db : DB) (adminId : ObjectId)
    (localId : option ObjectId) : Res * DB :=
  responder db (
    cuando (negb (truthy localId)) (fallo 400 IdLocalRequerido) ;;
    let localId := opt localId "" in
    admin0 <- buscar (findOne (filtroAdmin adminId) db) (fallo 404 AdministradorNoEncontrado) ;;
    _ <- buscar (Local_findById localId db) (fallo 404 LocalNoEncontrado) ;;
    cuando (inList localId (locales admin0)) (fallo 400 LocalYaAsignado) ;;
    (* admin.locales.push(localId) *)
    let admin1 := set_locales (locales admin0 ++ [localId]) admin0 in
    let admin2 := if Nat.eqb (length (locales admin1)) 1
                  then set_localPrincipal (Some localId) admin1
                  else admin1 in
    Sigue (exito 200 (Some LocalAsignado)
                 (DAdmin (_id admin2) (locales admin2) (localPrincipal admin2)),
           save admin2 db)).

Definition removeLocalFromAdmin (db : DB) (adminId localId : ObjectId) : Res * DB :=
  responder db (
    admin0 <- buscar (findOne (filtroAdmin adminId) db) (fallo 404 AdministradorNoEncontrado) ;;
    cuando (negb (inList localId (locales admin0))) (fallo 400 LocalNoAsignado) ;;
    cuando (Nat.eqb (length (locales admin0)) 1) (fallo 400 NoEliminarUnicoLocal) ;;
    (* admin.locales = admin.locales.filter(id => id.toString() !== localId) *)
    let admin1 := set_locales (filter (fun id => negb (id =? localId)) (locales admin0)) admin0 in
    let admin2 := if match localPrincipal admin1 with
                     | Some p => p =? localId
                     | None => false
                     end
                  then set_localPrincipal (hd_error (locales admin1)) admin1
                  else admin1 in
    Sigue (exito 200 (Some LocalEliminado)
                 (DAdmin (_id admin2) (locales admin2) (localPrincipal admin2)),
           save admin2 db)).

Definition setAdminPrimaryLocal (db : DB) (adminId localId : ObjectId) : Res * DB :=
  responder db (
    admin0 <- buscar (findOne (filtroAdmin adminId) db) (fallo 404 AdministradorNoEncontrado) ;;
    cuando (negb (inList localId (locales admin0))) (fallo 400 NoPrincipalNoAsignado) ;;
    let admin1 := set_localPrincipal (Some localId) admin0 in
    Sigue (exito 200 (Some PrincipalEstablecido)
                 (DAdmin (_id admin1) (locales admin1) (localPrincipal admin1)),
           save admin1 db)).

End Controller.

(** ** Passwords, bootstrap and statistics

    The handlers below answer with messages of their own. *)

Inductive Aviso : Type :=
| AvUsuarioNoEncontrado
| AvNoPermisosPassword
| AvNoPermisosPasswordOtroLocal
| AvPasswordRestablecida
| AvLimiteSuperAdmins
| AvSuperAdminCreado
| AvEstadisticasAdmins
| AvNoPermisosEstadisticas
| AvAdministradorNoEncontrado
| AvEstadisticasDetalladas.

(** [res.status(s).json({ success, message, data })] with data of type [D]. *)
Record Resp (D : Type) : Type := mkResp {
  r_status : nat;
  r_success : bool;
  r_message : Aviso;
  r_data : option D
}.
Arguments mkResp {D} _ _ _ _.
Arguments r_status {D} _.
Arguments r_success {D} _.
Arguments r_message {D} _.
Arguments r_data {D} _.

(** [user.password = p; user.intentosFallidos = 0;
     user.bloqueadoHasta = undefined; user.ultimaModificacion = m] *)
Definition set_password (p : string) (m : Modificacion) (u : User) : User :=
  mkUser (_id u) (nombre u) (email u)
         (mkCredenciales p 0 None (passwordResetToken (cred u))
                         (passwordResetExpires (cred u)))
         (role u) (telefono u) (direccion u) (organizacion u) (locales u)
         (localPrincipal u) (local u) (verificado u) (activo u) (enLinea u)
         (esAdministradorLocal u) (creadoPor u) (Some m) (createdAt u).

(** [user.locales.some(local => req.user.locales &&
     req.user.locales.some(adminLocal => adminLocal.toString() === local._id.toString()))]
    on the populated locales of [user]. *)
Definition comparteLocal (db : DB) (req : Req) (user : User) : bool :=
  existsb (fun l => enLocalesDelActor req (local_id l)) (populate db (locales user)).

(** *** resetUserPassword *)
Definition resetUserPassword (db : DB) (req : Req) (userId : ObjectId)
    (newPassword : string) : Resp unit * DB :=
  match findById userId db with
  | None => (mkResp 404 false AvUsuarioNoEncontrado None, db)
  | Some user =>
      if Role_eqb (req_userRole req) admin
         && (Role_eqb (role user) superAdmin || Role_eqb (role user) admin)
      then (mkResp 403 false AvNoPermisosPassword None, db)
      else if Role_eqb (req_userRole req) admin && negb (comparteLocal db req user)
      then (mkResp 403 false AvNoPermisosPasswordOtroLocal None, db)
      else
        let user' := set_password newPassword
                       (mkModificacion (req_userId req) (req_now req)) user in
        (mkResp 200 true AvPasswordRestablecida None, save user' db)
  end.

(** *** Statistics of the administrators *)

(** [{ role: 'usuario', locales: l }] *)
Definition filtroUsuariosDe (l : ObjectId) : Filter :=
  mkFilter None None (Some (RoleEq usuario)) None (Some (LocalesHas l)) None.

(** [{ role: 'usuario', locales: l, activo: true }] *)
Definition filtroUsuariosActivosDe (l : ObjectId) : Filter :=
  mkFilter None None (Some (RoleEq usuario)) (Some true) (Some (LocalesHas l)) None.


(** [.populate('localPrincipal', ...)] *)
Definition populatePrincipal (db : DB) (u : User) : option Local :=
  match localPrincipal u with
  | Some p => Local_findById p db
  | None => None
  end.

(** [sum] of a list of counts ([reduce((sum, x) => sum + x, 0)]). *)
Definition suma (xs : list nat) : nat := fold_left Nat.add xs 0.

(** *** The counts [getAllUsers] adds to its rows *)

(** [const localUserCounts = {}]: an object from locale identifiers to
    counts. *)
Definition Conteos : Type := list (string * nat).

(** [obj[k]] *)
Fixpoint leer (k : string) (m : Conteos) : option nat :=
  match m with
  | [] => None
  | (k', v) :: rest => if k' =? k then Some v else leer k rest
  end.

(** [obj[k] = v] *)
Fixpoint asignar (k : string) (v : nat) (m : Conteos) : Conteos :=
  match m with
  | [] => [(k, v)]
  | (k', v') :: rest => if k' =? k then (k, v) :: rest else (k', v') :: asignar k v rest
  end.

(** [!obj[k]]: the key is missing or its count is zero. *)
Definition falta (k : string) (m : Conteos) : bool :=
  match leer k m with
  | Some (S _) => false
  | _ => true
  end.

(** [[...new Set(xs)]]: the first occurrences, in order. *)
Fixpoint unicos (xs : list string) : list string :=
  match xs with
  | [] => []
  | x :: rest => x :: filter (fun y => negb (y =? x)) (unicos rest)
  end.

(** The object [localUserCounts] after the two loops of [getAllUsers]
    (lines 62 to 96), for the rows [users] of the page. *)
Definition localUserCounts (db : DB) (req : Req) (users : list User) : Conteos :=
  match req_userRole req with
  | usuario => []
  | _ =>
      let localIds :=
        unicos (flat_map (fun user => map local_id (populate db (locales user)))
                  (filter (fun user =>
                             negb (Nat.eqb (length (populate db (locales user))) 0)
                             && Role_eqb (role user) admin) users)) in
      let counts1 :=
        fold_left (fun m localId =>
                     asignar localId
                       (countDocuments (filtroUsuariosActivosDe localId) db) m)
                  localIds [] in
      if Role_eqb (req_userRole req) admin && noVacio (req_user_locales req)
      then fold_left (fun m adminLocal =>
                        if falta adminLocal m
                        then asignar adminLocal
                               (countDocuments (filtroUsuariosActivosDe adminLocal) db) m
                        else m)
                     (opt (req_user_locales req) []) counts1
      else counts1
  end.

(** The key [usuariosEnLocal] of a row: [null] unless the row is an
    administrator with locales, else the sum of
    [localUserCounts[localId] || 0] over them. *)
Definition usuariosEnLocal (db : DB) (counts : Conteos) (user : User) : option nat :=
  if Role_eqb (role user) admin
     && negb (Nat.eqb (length (populate db (locales user))) 0)
  then Some (suma (map (fun l => opt (leer (local_id l) counts) 0)
                       (populate db (locales user))))
  else None.




(** One entry of [localesStats] in [getAdminDetailStats]. *)
Record LocalDetalle : Type := mkLocalDetalle {
  ld_local : Local;
  ld_totalUsuarios : nat;
  ld_usuariosActivos : nat;
  ld_porcentajeActivos : nat;
  ld_ultimosUsuarios : list User
}.

(** [adminStats] of [getAdminDetailStats]. *)
Record AdminDetalle : Type := mkAdminDetalle {
  ad_admin : User;
  ad_totalLocales : nat;
  ad_totalUsuarios : nat;
  ad_localPrincipal : option Local;
  ad_locales : list LocalDetalle
}.

Section Estadisticas.

(** The field [ultimoAcceso] of a user document, which no handler of the
    controller writes. *)
Variable ultimoAcceso : User -> option nat.

(** [d = new Date(); d.setDate(d.getDate() - 30)], from the clock. *)
Variable haceTreintaDias : nat -> nat.

(** [Math.round((a / b) * 100)] in floating point. *)
Variable porcentaje : nat -> nat -> nat.




(** [ultimoAcceso: { $gte: desde }] *)
Definition accedioDesde (desde : nat) (u : User) : bool :=
  match ultimoAcceso u with
  | Some t => Nat.leb desde t
  | None => false
  end.

Definition localDetalle (db : DB) (req : Req) (l : Local) : LocalDetalle :=
  let deEsteLocal := filter (matches (filtroUsuariosDe (local_id l))) (db_users db) in
  let usuariosCount := length deEsteLocal in
  let ultimosUsuarios := firstn 5 (sortCreatedDesc deEsteLocal) in
  let treintaDiasAtras := haceTreintaDias (req_now req) in
  let usuariosActivos := length (filter (accedioDesde treintaDiasAtras) deEsteLocal) in
  mkLocalDetalle l usuariosCount usuariosActivos
    (if Nat.ltb 0 usuariosCount then porcentaje usuariosActivos usuariosCount else 0)
    ultimosUsuarios.

Definition getAdminDetailStats (db : DB) (req : Req) (adminId : ObjectId)
    : Resp AdminDetalle :=
  if Role_eqb (req_userRole req) admin && negb (req_userId req =? adminId)
  then mkResp 403 false AvNoPermisosEstadisticas None
  else
    match findOne (filtroAdmin adminId) db with
    | None => mkResp 404 false AvAdministradorNoEncontrado None
    | Some a =>
        let localesStats := map (localDetalle db req) (populate db (locales a)) in
        let totalUsuarios := suma (map ld_totalUsuarios localesStats) in
        mkResp 200 true AvEstadisticasDetalladas
          (Some (mkAdminDetalle a (length (populate db (locales a))) totalUsuarios
                                (populatePrincipal db a) localesStats))
    end.

(** *** initSuperAdmin *)

(** [User.crearSuperAdminInicial({ nombre, email, password })], a static
    method of the user schema. *)
Variable crearSuperAdminInicial : string -> string -> string -> DB -> DB.

(** The document [User.create({ nombre, email, password, role: 'superAdmin',
    verificado: true, activo: true })] stores, with the schema's defaults
    for the keys it lacks. *)
Definition superAdminAdicional (nuevoId : ObjectId) (nombre0 email0 password0 : string)
    (ahora : nat) : User :=
  mkUser nuevoId nombre0 email0 (mkCredenciales password0 0 None None None)
         superAdmin None None None [] None None true true false false None None ahora.

Definition initSuperAdmin (db : DB) (nombre0 email0 password0 : string)
    (nuevoId : ObjectId) (ahora : nat) : Resp unit * DB :=
  let superAdminCount := countDocuments filtroSuperAdmins db in
  if Nat.leb MAX_SUPER_ADMINS superAdminCount
  then (mkResp 400 false AvLimiteSuperAdmins None, db)
  else if Nat.eqb superAdminCount 0
  then (mkResp 201 true AvSuperAdminCreado None,
        crearSuperAdminInicial nombre0 email0 password0 db)
  else (mkResp 201 true AvSuperAdminCreado None,
        create (superAdminAdicional nuevoId nombre0 email0 password0 ahora) db).

End Estadisticas.

(** ** Predicates the statements use *)

(** The number of users holding the role [superAdmin], whatever their
    [activo] flag. *)
Definition superAdminsCount (db : DB) : nat :=
  length (filter (fun u => Role_eqb (role u) superAdmin) (db_users db)).

(** The number of users holding the role [superAdmin] with [activo = true]. *)
Definition superAdminsActivos (db : DB) : nat :=
  length (filter (fun u => Role_eqb (role u) superAdmin && activo u) (db_users db)).

(** The number of active administrators assigned to locale [l]. *)
Definition adminsActivosDe (l : ObjectId) (db : DB) : nat :=
  length (filter (fun u => Role_eqb (role u) admin && activo u && inList l (locales u))
                 (db_users db)).

(** The users whose role is not [superAdmin], in the order of the collection. *)
Definition noSuperAdmins (db : DB) : list User :=
  filter (fun u => negb (Role_eqb (role u) superAdmin)) (db_users db).

(** The administrator document [adminId], as the handlers of the locales
    look it up. *)
Definition adminDe (adminId : ObjectId) (db : DB) : option User :=
  findOne (filtroAdmin adminId) db.

(** Every reference of [ls] names a locale document. *)
Definition localesExisten (db : DB) (ls : list ObjectId) : bool :=
  forallb (fun l => match Local_findById l db with
                    | Some _ => true
                    | None => false
                    end) ls.

(** The [activo] flag of the user [userId], when there is one. *)
Definition activoDe (userId : ObjectId) (db : DB) : option bool :=
  option_map activo (findById userId db).

(** ** Sample collections *)

Definition cred0 : Credenciales := mkCredenciales "hash" 0 None None None.

Definition persona (id : ObjectId) (r : Role) (ls : list ObjectId) (act flag : bool) : User :=
  mkUser id id (id ++ "@evolution") cred0 r None None None ls (hd_error ls) None
         true act false flag None None 0.

Definition centro : Local := mkLocal "L1" "Centro" "Calle 1".
Definition norte : Local := mkLocal "L2" "Norte" "Calle 2".

Definition root1 : User := persona "root1" superAdmin [] true false.
Definition root2 : User := persona "root2" superAdmin [] true false.
Definition root3 : User := persona "root3" superAdmin [] true false.
Definition root4 : User := persona "root4" superAdmin [] true false.
Definition ana : User := persona "ana" admin ["L1"] true true.
Definition beto : User := persona "beto" admin ["L1"; "L2"] true true.
Definition carla : User := persona "carla" admin [] true false.
Definition ursula : User := persona "ursula" usuario ["L1"] true false.

(** Two super administrators, one administrator of L1, one user of L1. *)
Definition db_base : DB := mkDB [root1; root2; ana; ursula] [centro; norte].

(** The cap is reached: four super administrators. *)
Definition db_lleno : DB :=
  mkDB [root1; root2; root3; root4; ana; beto; ursula] [centro; norte].

(** One super administrator only. *)
Definition db_unico : DB := mkDB [root1; ana; beto; ursula] [centro; norte].

(** An administrator without locales. *)
Definition db_carla : DB := mkDB [root1; carla] [centro; norte].

(** An administrator of L2 only, next to the administrator of L1. *)
Definition dario : User := persona "dario" admin ["L2"] true true.
Definition db_norte : DB := mkDB [root1; ana; dario; ursula] [centro; norte].

Definition reqRoot : Req := mkReq "root1" superAdmin (Some []) 1000.
Definition reqAna : Req := mkReq "ana" admin (Some ["L1"]) 1000.
Definition reqSinLocales : Req := mkReq "carla" admin (Some []) 1000.

Definition sinPerfil : Perfil := mkPerfil None None None None None.
Definition sinCambios : UpdateData :=
  mkUpdateData sinPerfil None None None None None None None None None None.

(** Bodies of requests. *)
Definition conRol (r : Role) : UpdateData :=
  mkUpdateData sinPerfil (Some r) None None None None None None None None None.

Definition conLocales (ls : list ObjectId) : UpdateData :=
  mkUpdateData sinPerfil None (Some ls) None None None None None None None None.

Definition renombraYAsciende : UpdateData :=
  mkUpdateData (mkPerfil (Some "Ursula B.") None None None None) (Some superAdmin)
               None None None None None None None None None.

Definition renombraYRelocaliza : UpdateData :=
  mkUpdateData (mkPerfil (Some "Ursula B.") None None None None) (Some admin)
               (Some ["L2"]) (Some "L2") (Some "otra") (Some 0) None None None None None.

Definition asciendeConLocales : UpdateData :=
  mkUpdateData sinPerfil (Some admin) (Some ["L1"]) None None None None None None None None.

Definition altaSuperAdmin : CreateBody :=
  mkCreateBody "eva" "eva@evolution" "secreto" (Some superAdmin) None None None None.

Definition altaSinLocales : CreateBody :=
  mkCreateBody "ugo" "ugo@evolution" "secreto" None None None None None.

Definition altaAdmin : CreateBody :=
  mkCreateBody "dora" "dora@evolution" "secreto" (Some admin) None None None (Some ["L2"]).

Definition sinConsulta : Query := mkQuery None None None None None None.

(** Modelled from the spec: [puedeAdministrar] of [models/User.js], which
    the sources lack, after section 4.1 ([canMutate] requires [canView]: a
    [usuario] target that shares a locale with the actor).  It instantiates
    the parameter in the closed examples only. *)
Definition puedeAdministrar_spec (req : Req) (user : User) (ls : list Local) : bool :=
  Role_eqb (role user) usuario
  && existsb (fun l => enLocalesDelActor req (local_id l)) ls.


(** A pattern that matches the fields equal to it; an instance for the
    closed examples. *)
Definition regex_eq (pattern s : string) : bool := pattern =? s.

(** ** Invariants and views the statements use *)

(** A document with locales has its principal locale among them. *)
Definition principalEnLocales (u : User) : Prop :=
  locales u <> [] -> exists p, localPrincipal u = Some p /\ In p (locales u).

(** Every document of the user collection satisfies [P]. *)
Definition todos (P : User -> Prop) (db : DB) : Prop :=
  forall u, In u (db_users db) -> P u.

(** No two documents carry the same email. *)
Definition emailsUnicos (db : DB) : Prop := NoDup (map email (db_users db)).

(** Newest first. *)
Definition descendente (us : list User) : Prop :=
  Sorted (fun a b => createdAt b <= createdAt a) us.

(** The users a listing answers, and its pagination block. *)
Definition usersDe (r : Res) : list User :=
  match data r with
  | DUsers us _ => us
  | _ => []
  end.




(** The documents a listing selects: those that match the filter document
    and the search, in the order of the collection. *)
Definition encontrados (regexTest : string -> string -> bool) (db : DB) (req : Req)
    (q : Query) : list User :=
  filter (fun u => matches (filtrosDe req q) u && matchSearch regexTest q u)
         (db_users db).

(** Every count the table [m] holds is the count [f] of its key. *)
Definition conteosExactos (f : string -> nat) (m : Conteos) : Prop :=
  forall k v, leer k m = Some v -> v = f k.

(** The contribution of a document to a count. *)
Definition b2n (b : bool) : nat := if b then 1 else 0.

(** More sample data. *)
Definition eva : User := persona "eva" usuario ["L1"; "L2"] true false.
Definition db_stats : DB := mkDB [root1; beto; ursula; eva] [centro; norte].
Definition db_solo : DB := mkDB [root1; ursula] [centro; norte].
Definition reqBeto : Req := mkReq "beto" admin (Some ["L1"; "L2"]) 1000.
Definition reqUsuario : Req := mkReq "ursula" usuario (Some ["L1"]) 1000.
Definition altaDuplicada : CreateBody :=
  mkCreateBody "otra" "ursula@evolution" "secreto" None None None None None.

(** Instances of the parameters of the statistics for the closed examples. *)
Definition sinAcceso (u : User) : option nat := None.
Definition restaTreinta (ahora : nat) : nat := ahora - 30.
Definition porcentajeEntero (a b : nat) : nat := (200 * a + b) / (2 * b).
Definition crearInicial_ninguno (n e p : string) (db : DB) : DB := db.

(** * Properties *)

(** ** Queries and writes *)

Lemma Role_eqb_eq (a b : Role) : Role_eqb a b = true <-> a = b.
Proof. destruct a, b; cbn; split; congruence. Qed.

Lemma Role_eqb_neq (a b : Role) : Role_eqb a b = false <-> a <> b.
Proof. destruct a, b; cbn; split; congruence. Qed.

Lemma eqb_true_r (b : bool) : Bool.eqb b true = b.
Proof. destruct b; reflexivity. Qed.

Lemma count_superAdmins db : countDocuments filtroSuperAdmins db = superAdminsCount db.
Proof.
  unfold countDocuments, superAdminsCount. f_equal. apply filter_ext. intros u.
  unfold matches; cbn. now rewrite !andb_true_r.
Qed.

Lemma count_superAdminsActivos db :
  countDocuments filtroSuperAdminsActivos db = superAdminsActivos db.
Proof.
  unfold countDocuments, superAdminsActivos. f_equal. apply filter_ext. intros u.
  unfold matches; cbn. now rewrite !andb_true_r, eqb_true_r.
Qed.

Lemma count_adminsDeLocales l db :
  countDocuments (filtroAdminsDeLocales l) db = adminsActivosDe l db.
Proof.
  unfold countDocuments, adminsActivosDe. f_equal. apply filter_ext. intros u.
  unfold matches; cbn. now rewrite !andb_true_r, eqb_true_r.
Qed.

(** The super administrators are counted whether active or not. *)
Lemma superAdminsCount_split db :
  superAdminsCount db
  = superAdminsActivos db
    + length (filter (fun u => Role_eqb (role u) superAdmin && negb (activo u))
                     (db_users db)).
Proof.
  unfold superAdminsCount, superAdminsActivos.
  induction (db_users db) as [|u us IH]; cbn; [reflexivity|].
  destruct (Role_eqb (role u) superAdmin), (activo u); cbn; lia.
Qed.

Lemma find_updateOne id f us :
  (forall u, _id u = id -> _id (f u) = id) ->
  find (fun u => _id u =? id) (updateOne id f us)
  = option_map f (find (fun u => _id u =? id) us).
Proof.
  intros Hf. induction us as [|v rest IH]; cbn; [reflexivity|].
  destruct (_id v =? id) eqn:E; cbn.
  - apply String.eqb_eq in E. rewrite (Hf v E), String.eqb_refl. reflexivity.
  - rewrite E. exact IH.
Qed.

Lemma findById_update id f db :
  (forall u, _id u = id -> _id (f u) = id) ->
  findById id (findByIdAndUpdate id f db) = option_map f (findById id db).
Proof. intros; unfold findById, findByIdAndUpdate; cbn. now apply find_updateOne. Qed.

Lemma findById_id id db u : findById id db = Some u -> _id u = id.
Proof.
  unfold findById; intros H. apply find_some in H. now apply String.eqb_eq.
Qed.

(** A write that keeps the identifiers and a field [g] of every document
    keeps the [g] of every lookup. *)
Lemma find_updateOne_frame {A : Type} (g : User -> A) id id' f us :
  (forall u, _id (f u) = _id u) ->
  (forall u, g (f u) = g u) ->
  option_map g (find (fun u => _id u =? id') (updateOne id f us))
  = option_map g (find (fun u => _id u =? id') us).
Proof.
  intros Hi Hg. induction us as [|v rest IH]; cbn; [reflexivity|].
  destruct (_id v =? id) eqn:E; cbn.
  - rewrite Hi. destruct (_id v =? id'); cbn; [now rewrite Hg | reflexivity].
  - destruct (_id v =? id'); cbn; [reflexivity | exact IH].
Qed.

Lemma verificarLocales_ok db ls :
  localesExisten db ls = true -> verificarLocales db ls = Sigue tt.
Proof.
  induction ls as [|l rest IH]; cbn; [reflexivity|].
  destruct (Local_findById l db); cbn; [exact IH | discriminate].
Qed.

Lemma Local_findById_id l db x : Local_findById l db = Some x -> local_id x = l.
Proof.
  unfold Local_findById; intros H. apply find_some in H. now apply String.eqb_eq.
Qed.

(** Populating references that all exist keeps them, in order. *)
Lemma populate_ids db ls :
  localesExisten db ls = true -> map local_id (populate db ls) = ls.
Proof.
  unfold populate. induction ls as [|l rest IH]; cbn; [reflexivity|].
  destruct (Local_findById l db) eqn:E; cbn; [|discriminate].
  intros H. f_equal; [exact (Local_findById_id _ _ _ E) | exact (IH H)].
Qed.

(** ** The last active super administrator *)

Lemma deleteUser_superAdmin db req userId user :
  req_userRole req = superAdmin ->
  findById userId db = Some user ->
  role user = superAdmin ->
  deleteUser db req userId =
    if Nat.leb (superAdminsActivos db) 1
    then (fallo 400 NoEliminarUltimoSuperAdmin, db)
    else (exito 200 (Some UsuarioEliminado) SinDatos,
          findByIdAndUpdate userId
            (set_estado false false
               (Some (mkModificacion (req_userId req) (req_now req)))) db).
Proof.
  intros Hr Hf Hu. unfold deleteUser. rewrite Hr, Hf. cbn. rewrite Hu. cbn.
  rewrite count_superAdminsActivos.
  destruct (Nat.leb (superAdminsActivos db) 1); reflexivity.
Qed.

(** The permission block of [toggleUserStatus] lets every actor but an
    administrator through. *)
Lemma toggle_permisos_otros req user ls :
  req_userRole req <> admin ->
  match req_userRole req with
  | admin =>
      cuando (Role_eqb (role user) superAdmin || Role_eqb (role user) admin)
             (fallo 403 NoPermisosEstado) ;;
      cuando (negb (existsb (fun l => enLocalesDelActor req (local_id l)) ls))
             (fallo 403 NoPermisosEstadoOtroLocal)
  | _ => Sigue tt
  end = Sigue tt.
Proof. destruct (req_userRole req); congruence. Qed.

Lemma toggleUserStatus_superAdmin db req userId user :
  req_userRole req <> admin ->
  findById userId db = Some user ->
  role user = superAdmin ->
  toggleUserStatus db req userId false =
    if Nat.leb (superAdminsActivos db) 1
    then (fallo 400 NoDesactivarUltimoSuperAdmin, db)
    else (exito 200 (Some UsuarioDesactivado) SinDatos,
          save (set_estado false false
                  (Some (mkModificacion (req_userId req) (req_now req))) user) db).
Proof.
  intros Hr Hf Hu. unfold toggleUserStatus. rewrite Hf. cbn.
  rewrite (toggle_permisos_otros _ _ _ Hr). cbn. rewrite Hu; cbn.
  rewrite count_superAdminsActivos.
  destruct (Nat.leb (superAdminsActivos db) 1); reflexivity.
Qed.

Lemma activoDe_save userId db user a e m :
  findById userId db = Some user ->
  activoDe userId (save (set_estado a e m user) db) = Some a.
Proof.
  intros Hf. unfold activoDe, save. cbn [_id set_estado].
  pose proof (findById_id _ _ _ Hf) as Hi. rewrite Hi.
  rewrite findById_update, Hf by (intros; exact Hi). reflexivity.
Qed.

Lemma activoDe_update userId db user a e m :
  findById userId db = Some user ->
  activoDe userId (findByIdAndUpdate userId (set_estado a e m) db) = Some a.
Proof.
  intros Hf. unfold activoDe.
  rewrite findById_update, Hf by (intros; assumption). reflexivity.
Qed.

(** C5.  Deleting ([deleteUser], by a super administrator) or deactivating
    ([toggleUserStatus] with [activo = false], by an actor the permission
    block lets through) a user whose role is [superAdmin] succeeds exactly
    when at least two active super administrators exist before the request.
    Otherwise the request is answered 400 with the last-super-administrator
    message and the collections, hence the target's [activo] flag, are
    unchanged; when it succeeds the target ends inactive. *)
Theorem superAdmin_deactivation_guard db req userId user :
  findById userId db = Some user ->
  role user = superAdmin ->
  (req_userRole req = superAdmin ->
     (success (fst (deleteUser db req userId)) = true <-> 2 <= superAdminsActivos db)
     /\ (superAdminsActivos db < 2 ->
           deleteUser db req userId = (fallo 400 NoEliminarUltimoSuperAdmin, db))
     /\ (2 <= superAdminsActivos db ->
           activoDe userId (snd (deleteUser db req userId)) = Some false))
  /\
  (req_userRole req <> admin ->
     (success (fst (toggleUserStatus db req userId false)) = true
        <-> 2 <= superAdminsActivos db)
     /\ (superAdminsActivos db < 2 ->
           toggleUserStatus db req userId false
           = (fallo 400 NoDesactivarUltimoSuperAdmin, db))
     /\ (2 <= superAdminsActivos db ->
           activoDe userId (snd (toggleUserStatus db req userId false)) = Some false)).
Proof.
  intros Hf Hu. split; intros Hr.
  - rewrite (deleteUser_superAdmin _ _ _ _ Hr Hf Hu).
    destruct (Nat.leb_spec (superAdminsActivos db) 1) as [H|H]; cbn.
    + repeat split; intros; try reflexivity; try discriminate; lia.
    + repeat split; intros; try reflexivity; try lia.
      now apply (activoDe_update _ _ user).
  - rewrite (toggleUserStatus_superAdmin _ _ _ _ Hr Hf Hu).
    destruct (Nat.leb_spec (superAdminsActivos db) 1) as [H|H]; cbn.
    + repeat split; intros; try reflexivity; try discriminate; lia.
    + repeat split; intros; try reflexivity; try lia.
      now apply activoDe_save.
Qed.

Lemma superAdmin_deactivation_guard_witness :
  (success (fst (deleteUser db_base reqRoot "root2")) = true
     <-> 2 <= superAdminsActivos db_base)
  /\ activoDe "root2" (snd (deleteUser db_base reqRoot "root2")) = Some false
  /\ toggleUserStatus db_unico reqRoot "root1" false
     = (fallo 400 NoDesactivarUltimoSuperAdmin, db_unico).
Proof.
  destruct (superAdmin_deactivation_guard db_base reqRoot "root2" root2
              eq_refl eq_refl) as [Hd _].
  destruct (Hd eq_refl) as (H1 & _ & H3).
  destruct (superAdmin_deactivation_guard db_unico reqRoot "root1" root1
              eq_refl eq_refl) as [_ Ht].
  assert (Hne : req_userRole reqRoot <> admin) by discriminate.
  destruct (Ht Hne) as (_ & H2 & _).
  split; [exact H1|]. split; [apply H3; cbn; lia | apply H2; cbn; lia].
Defined.

(** ** The cap on super administrators *)

Lemma createUser_cap db req body nuevoId :
  c_role body = Some superAdmin ->
  MAX_SUPER_ADMINS <= superAdminsCount db ->
  createUser db req body nuevoId = (fallo 400 LimiteCrearSuperAdmins, db).
Proof.
  intros Hr Hc. unfold createUser. rewrite Hr, count_superAdmins.
  cbn -[MAX_SUPER_ADMINS]. apply Nat.leb_le in Hc. rewrite Hc. reflexivity.
Qed.


Lemma prepararSet_role req ls d : u_role (prepararSet req ls d) = u_role d.
Proof.
  unfold prepararSet; cbn.
  destruct (esRol (u_role d) admin && _); cbn;
    destruct (noVacio (u_locales d)); reflexivity.
Qed.

Section UpdateUser.

Variable puedeAdministrar : Req -> User -> list Local -> bool.

(** The cap check of [updateUser] comes first: it answers whatever the actor
    and whatever [puedeAdministrar] says. *)
Lemma updateUser_cap db req userId d user :
  u_role d = Some superAdmin ->
  findById userId db = Some user ->
  role user <> superAdmin ->
  MAX_SUPER_ADMINS <= superAdminsCount db ->
  updateUser puedeAdministrar db req userId d = (fallo 400 LimiteTenerSuperAdmins, db).
Proof.
  intros Hr Hf Hu Hc. unfold updateUser. rewrite Hr, Hf, count_superAdmins.
  apply Nat.leb_le in Hc. cbn -[MAX_SUPER_ADMINS]. rewrite Hc.
  destruct (role user); try congruence; reflexivity.
Qed.



End UpdateUser.


(** ** The last active administrator of a locale *)

Lemma verificarAdminsDeLocales_ok db ls :
  (forall l, In l ls -> 2 <= adminsActivosDe (local_id l) db) ->
  verificarAdminsDeLocales db ls = Sigue tt.
Proof.
  induction ls as [|l rest IH]; cbn; intros H; [reflexivity|].
  rewrite count_adminsDeLocales.
  destruct (Nat.leb_spec (adminsActivosDe (local_id l) db) 1) as [Hl|Hl].
  - specialize (H l (or_introl eq_refl)). lia.
  - apply IH. intros x Hx. apply H. now right.
Qed.

Lemma verificarAdminsDeLocales_rejects db ls :
  (exists l, In l ls /\ adminsActivosDe (local_id l) db < 2) ->
  exists n, verificarAdminsDeLocales db ls = Responde (fallo 400 (NoDesactivarUnicoAdmin n)).
Proof.
  induction ls as [|l rest IH]; cbn; intros (x & Hx & Hc); [contradiction|].
  rewrite count_adminsDeLocales.
  destruct (Nat.leb_spec (adminsActivosDe (local_id l) db) 1) as [Hl|Hl].
  - eexists; reflexivity.
  - destruct Hx as [->|Hx]; [lia|]. apply IH. now exists x.
Qed.

(** [toggleUserStatus] with [activo = false] on an administrator evaluates
    the guard for each of the target's locales: the request succeeds when
    every locale has two active administrators, and is answered 400, with
    the collections unchanged, as soon as one has fewer. *)
Lemma toggleUserStatus_admin_guard db req userId user :
  req_userRole req <> admin ->
  findById userId db = Some user ->
  role user = admin ->
  localesExisten db (locales user) = true ->
  ((forall l, In l (locales user) -> 2 <= adminsActivosDe l db) ->
     toggleUserStatus db req userId false
     = (exito 200 (Some UsuarioDesactivado) SinDatos,
        save (set_estado false false
                (Some (mkModificacion (req_userId req) (req_now req))) user) db))
  /\
  ((exists l, In l (locales user) /\ adminsActivosDe l db < 2) ->
     exists n, toggleUserStatus db req userId false
               = (fallo 400 (NoDesactivarUnicoAdmin n), db)).
Proof.
  intros Hr Hf Hu Hl. pose proof (populate_ids _ _ Hl) as Hp.
  unfold toggleUserStatus. rewrite Hf. cbn.
  rewrite (toggle_permisos_otros _ _ _ Hr). cbn. rewrite Hu; cbn.
  split.
  - intros Hall.
    destruct (populate db (locales user)) as [|x xs] eqn:E; [reflexivity|].
    cbn [length Nat.eqb negb]. rewrite verificarAdminsDeLocales_ok; [reflexivity|].
    intros l Hin. apply Hall. rewrite <- Hp. now apply in_map.
  - intros (l & Hin & Hc). rewrite <- Hp in Hin. apply in_map_iff in Hin.
    destruct Hin as (x & <- & Hx).
    destruct (populate db (locales user)) as [|y ys] eqn:E; [contradiction|].
    cbn [length Nat.eqb negb].
    destruct (verificarAdminsDeLocales_rejects db (y :: ys)) as [n Hn];
      [now exists x|].
    rewrite Hn. now exists n.
Qed.

(** [deleteUser] evaluates its administrator guard on the field [local]
    only: for an administrator without that field, which is every
    administrator the controller creates, the deletion goes through whatever
    the locales of the target. *)
Lemma deleteUser_admin_sin_local db req userId user :
  req_userRole req = superAdmin ->
  findById userId db = Some user ->
  role user = admin ->
  local user = None ->
  deleteUser db req userId =
    (exito 200 (Some UsuarioEliminado) SinDatos,
     findByIdAndUpdate userId
       (set_estado false false
          (Some (mkModificacion (req_userId req) (req_now req)))) db).
Proof.
  intros Hr Hf Hu Hn. unfold deleteUser. rewrite Hr, Hf. cbn.
  rewrite Hu, Hn. reflexivity.
Qed.

(** C1.  The guard of the last active administrator of a locale is evaluated
    by [toggleUserStatus] and not by [deleteUser].  In [db_base] the
    administrator [ana] serves the locale L1 and is its only active
    administrator.  Deactivating her is answered 400 and changes nothing;
    deleting her succeeds, she ends inactive and L1 is left without an
    active administrator. *)
Theorem deleteUser_last_admin_of_local :
  findById "ana" db_base = Some ana
  /\ role ana = admin /\ locales ana = ["L1"]
  /\ adminsActivosDe "L1" db_base = 1
  /\ toggleUserStatus db_base reqRoot "ana" false
     = (fallo 400 (NoDesactivarUnicoAdmin "Centro"), db_base)
  /\ fst (deleteUser db_base reqRoot "ana") = exito 200 (Some UsuarioEliminado) SinDatos
  /\ activoDe "ana" (snd (deleteUser db_base reqRoot "ana")) = Some false
  /\ adminsActivosDe "L1" (snd (deleteUser db_base reqRoot "ana")) = 0.
Proof. vm_compute. repeat split. Qed.


(** ** The shape of [createUser] *)

(** A creation either is refused, leaving the collections as they were, or
    stores the document built from the body as it was destructured. *)
Lemma createUser_cases db req body nuevoId :
  createUser db req body nuevoId = crear db (nuevoUsuario nuevoId req body (c_locales body))
  \/ exists r, createUser db req body nuevoId = (r, db) /\ success r = false.
Proof.
  unfold createUser.
  destruct (esRol (c_role body) superAdmin
            && Nat.leb MAX_SUPER_ADMINS (countDocuments filtroSuperAdmins db));
    cbn -[crear]; [right; eexists; split; reflexivity|].
  destruct (req_userRole req); cbn -[crear].
  - destruct (findOne (filtroEmail (c_email body)) db); cbn -[crear];
      [right; eexists; split; reflexivity | now left].
  - destruct (match c_role body with
              | Some r => negb (Role_eqb r usuario)
              | None => false
              end); cbn -[crear]; [right; eexists; split; reflexivity|].
    destruct (noVacio (c_locales body)); cbn -[crear].
    + destruct (forallb _ _); cbn -[crear]; [|right; eexists; split; reflexivity].
      destruct (findOne (filtroEmail (c_email body)) db); cbn -[crear];
        [right; eexists; split; reflexivity | now left].
    + destruct (findOne (filtroEmail (c_email body)) db); cbn -[crear];
        [right; eexists; split; reflexivity | now left].
  - destruct (noVacio (c_locales body)); cbn -[crear].
    + destruct (verificarLocales db (opt (c_locales body) [])) eqn:E; cbn -[crear];
        [right; exists r; split; [reflexivity|] |].
      * clear -E. induction (opt (c_locales body) []) as [|l ls IH]; cbn in E;
          [discriminate|].
        destruct (Local_findById l db); [now apply IH | now inversion E].
      * destruct (findOne (filtroEmail (c_email body)) db); cbn -[crear];
          [right; eexists; split; reflexivity | now left].
    + destruct (findOne (filtroEmail (c_email body)) db); cbn -[crear];
        [right; eexists; split; reflexivity | now left].
Qed.

Lemma In_updateOne id f us x :
  In x (updateOne id f us) -> In x us \/ exists v, In v us /\ x = f v.
Proof.
  induction us as [|v rest IH]; cbn; [tauto|].
  destruct (_id v =? id); cbn.
  - intros [<-|H]; [right; exists v; auto | auto].
  - intros [<-|H]; [auto|]. destruct (IH H) as [H'|(w & Hw & ->)]; [auto|].
    right; exists w; auto.
Qed.

(** The documents [createUser] stores never carry the field [local]. *)
Lemma createUser_sin_local db req body nuevoId u :
  In u (db_users (snd (createUser db req body nuevoId))) ->
  In u (db_users db) \/ local u = None.
Proof.
  destruct (createUser_cases db req body nuevoId) as [E|(r & E & _)]; rewrite E;
    [|now left].
  unfold crear. cbn [snd].
  set (nu := nuevoUsuario nuevoId req body (c_locales body)).
  destruct (Role_eqb (role nu) admin && _).
  - unfold save, findByIdAndUpdate. cbn [db_users].
    intros H. apply In_updateOne in H.
    destruct H as [H|(v & _ & ->)]; [|now right].
    cbn in H. apply in_app_iff in H. destruct H as [H|[<-|[]]]; [now left | now right].
  - cbn. intros H. apply in_app_iff in H.
    destruct H as [H|[<-|[]]]; [now left | now right].
Qed.

Lemma updateOne_fresh id f us u :
  find (fun v => _id v =? id) us = None ->
  _id u = id ->
  updateOne id f (us ++ [u]) = us ++ [f u].
Proof.
  intros Hn Hu. induction us as [|v rest IH]; cbn.
  - now rewrite Hu, String.eqb_refl.
  - cbn in Hn. destruct (_id v =? id); [discriminate|]. now rewrite IH.
Qed.

(** With a fresh identifier the stored document is the answered one. *)
Lemma crear_fresh db u :
  findById (_id u) db = None ->
  exists u',
    crear db u = (exito 201 (Some UsuarioCreado) (DUser u'), create u' db)
    /\ u' = (if Role_eqb (role u) admin && negb (Nat.eqb (length (locales u)) 0)
             then set_esAdministradorLocal true u else u).
Proof.
  intros Hf. unfold crear.
  destruct (Role_eqb (role u) admin && _); eexists; (split; [|reflexivity]);
    [|reflexivity].
  unfold save, findByIdAndUpdate, create. cbn [db_users db_locales _id set_esAdministradorLocal].
  now rewrite updateOne_fresh.
Qed.

(** The answered user carries the flag exactly when it is an administrator
    with locales, given that the document built from the body does not. *)
Lemma crear_flag db u0 u :
  esAdministradorLocal u0 = false ->
  fst (crear db u0) = exito 201 (Some UsuarioCreado) (DUser u) ->
  (esAdministradorLocal u = true <-> role u = admin /\ locales u <> []).
Proof.
  intros Hflag Hs. unfold crear in Hs. cbn [fst] in Hs. injection Hs as <-.
  destruct (Role_eqb (role u0) admin) eqn:Er; cbn [andb].
  - apply Role_eqb_eq in Er.
    destruct (locales u0) as [|l ls] eqn:El; cbn.
    + rewrite Hflag. split; [discriminate | intros [_ H]; congruence].
    + rewrite El. split; [intros _; split; [exact Er | discriminate] | reflexivity].
  - apply Role_eqb_neq in Er. rewrite Hflag. split; [discriminate|].
    intros [H _]. contradiction.
Qed.

(** ** Creation by an administrator *)

Lemma createUser_admin_rol db req body nuevoId r :
  req_userRole req = admin ->
  c_role body = Some r ->
  r <> usuario ->
  (r = superAdmin -> superAdminsCount db < MAX_SUPER_ADMINS) ->
  createUser db req body nuevoId = (fallo 403 NoPermisosCrearRol, db).
Proof.
  intros Ha Hr Hne Hc. unfold createUser. rewrite Ha, Hr, count_superAdmins.
  cbn -[MAX_SUPER_ADMINS].
  assert (E : Role_eqb r superAdmin
              && Nat.leb MAX_SUPER_ADMINS (superAdminsCount db) = false).
  { destruct r; try reflexivity. cbn -[MAX_SUPER_ADMINS].
    apply Nat.leb_gt. now apply Hc. }
  rewrite E. destruct r; [congruence | reflexivity | reflexivity].
Qed.

Lemma createUser_admin_usuario db req body nuevoId :
  req_userRole req = admin ->
  c_role body = None \/ c_role body = Some usuario ->
  createUser db req body nuevoId =
    if noVacio (c_locales body)
       && negb (forallb (fun localId => enLocalesDelActor req localId)
                        (opt (c_locales body) []))
    then (fallo 403 SoloPropiosLocales, db)
    else if match findOne (filtroEmail (c_email body)) db with
            | Some _ => true
            | None => false
            end
         then (fallo 400 EmailRegistrado, db)
         else crear db (nuevoUsuario nuevoId req body (c_locales body)).
Proof.
  intros Ha Hr. unfold createUser. rewrite Ha.
  assert (E1 : esRol (c_role body) superAdmin = false)
    by (destruct Hr as [-> | ->]; reflexivity).
  assert (E2 : match c_role body with
               | Some r => negb (Role_eqb r usuario)
               | None => false
               end = false) by (destruct Hr as [-> | ->]; reflexivity).
  rewrite E1, E2. cbn -[crear].
  destruct (noVacio (c_locales body)); cbn -[crear].
  - destruct (forallb _ _); cbn -[crear]; [|reflexivity].
    destruct (findOne _ db); reflexivity.
  - destruct (findOne _ db); reflexivity.
Qed.

(** The default of [createUser] for an administrator who names no locales
    is written to the request body and not read again: the document is
    stored without locales. *)
Lemma createUser_admin_sin_locales db req body nuevoId :
  req_userRole req = admin ->
  c_role body = None \/ c_role body = Some usuario ->
  noVacio (c_locales body) = false ->
  findOne (filtroEmail (c_email body)) db = None ->
  createUser db req body nuevoId
  = crear db (nuevoUsuario nuevoId req body (c_locales body))
  /\ locales (nuevoUsuario nuevoId req body (c_locales body)) = []
  /\ localPrincipal (nuevoUsuario nuevoId req body (c_locales body)) = None.
Proof.
  intros Ha Hr Hl He. rewrite (createUser_admin_usuario _ _ _ _ Ha Hr), Hl, He.
  cbn. rewrite Hl. auto.
Qed.

Example createUser_admin_sin_locales_ana :
  req_user_locales reqAna = Some ["L1"]
  /\ fst (createUser db_base reqAna altaSinLocales "ugo")
     = exito 201 (Some UsuarioCreado)
             (DUser (nuevoUsuario "ugo" reqAna altaSinLocales None))
  /\ option_map locales (findById "ugo" (snd (createUser db_base reqAna altaSinLocales "ugo")))
     = Some [].
Proof. vm_compute. repeat split. Qed.

(** C3, as amended.  For a creation by an administrator: a role other than
    [usuario] is answered 403, unless the role is [superAdmin] and the cap
    is reached (the cap check comes first and answers 400); for the role
    [usuario] or none, locales that are named must all be locales of the
    actor, else the answer is 403, and when they are the document is stored
    with them; and a request that names no locales is not refused on that
    account: with a free email it is answered 201. *)
Theorem createUser_by_admin db req body nuevoId :
  req_userRole req = admin ->
  (forall r, c_role body = Some r -> r <> usuario ->
     (r = superAdmin -> superAdminsCount db < MAX_SUPER_ADMINS) ->
     createUser db req body nuevoId = (fallo 403 NoPermisosCrearRol, db))
  /\
  (c_role body = None \/ c_role body = Some usuario ->
     (noVacio (c_locales body) = true ->
        (forallb (fun localId => enLocalesDelActor req localId)
                 (opt (c_locales body) []) = false ->
           createUser db req body nuevoId = (fallo 403 SoloPropiosLocales, db))
        /\
        (forallb (fun localId => enLocalesDelActor req localId)
                 (opt (c_locales body) []) = true ->
         findOne (filtroEmail (c_email body)) db = None ->
           createUser db req body nuevoId
           = crear db (nuevoUsuario nuevoId req body (c_locales body))
           /\ locales (nuevoUsuario nuevoId req body (c_locales body))
              = opt (c_locales body) []))
     /\
     (noVacio (c_locales body) = false ->
      findOne (filtroEmail (c_email body)) db = None ->
        status (fst (createUser db req body nuevoId)) = 201
        /\ success (fst (createUser db req body nuevoId)) = true)).
Proof.
  intros Ha. split.
  - intros r Hr Hne Hc. now apply createUser_admin_rol with (r := r).
  - intros Hr. rewrite (createUser_admin_usuario _ _ _ _ Ha Hr). split.
    + intros Hl. rewrite Hl. split.
      * intros ->. reflexivity.
      * intros -> ->. cbn -[crear]. split; [reflexivity|]. cbn. now rewrite Hl.
    + intros -> ->. cbn -[crear]. unfold crear.
      destruct (Role_eqb _ admin && _); split; reflexivity.
Qed.

Lemma createUser_by_admin_witness :
  createUser db_base reqAna altaAdmin "dora" = (fallo 403 NoPermisosCrearRol, db_base)
  /\ status (fst (createUser db_base reqAna altaSinLocales "ugo")) = 201.
Proof.
  destruct (createUser_by_admin db_base reqAna altaAdmin "dora" eq_refl) as [H1 _].
  destruct (createUser_by_admin db_base reqAna altaSinLocales "ugo" eq_refl) as [_ H2].
  destruct (H2 (or_introl eq_refl)) as [_ H3].
  destruct (H3 eq_refl eq_refl) as [H4 _].
  split; [|exact H4].
  apply (H1 admin eq_refl); [discriminate | discriminate].
Defined.

(** C3 as stated fails: an administrator asking for a [superAdmin] while
    four exist is answered 400 by the cap check, not 403. *)
Lemma createUser_by_admin_cap_first :
  req_userRole reqAna = admin
  /\ c_role altaSuperAdmin = Some superAdmin
  /\ createUser db_lleno reqAna altaSuperAdmin "eva"
     = (fallo 400 LimiteCrearSuperAdmins, db_lleno)
  /\ esForbidden (fst (createUser db_lleno reqAna altaSuperAdmin "eva")) = false.
Proof. vm_compute. repeat split. Qed.

(** ** Updates *)

(** The keys an administrator may not set, deleted from the body. *)
Lemma prepararSet_restringido req ls d :
  prepararSet req ls (delete_localPrincipal (delete_locales (delete_role d)))
  = mkUpdateData (u_perfil d) None None None None None None None None
                 (u_esAdministradorLocal d)
                 (Some (mkModificacion (req_userId req) (req_now req))).
Proof. reflexivity. Qed.

(** The credential keys are absent from what [updateUser] writes. *)
Lemma prepararSet_sin_credenciales req ls d :
  u_password (prepararSet req ls d) = None
  /\ u_intentosFallidos (prepararSet req ls d) = None
  /\ u_bloqueadoHasta (prepararSet req ls d) = None
  /\ u_passwordResetToken (prepararSet req ls d) = None
  /\ u_passwordResetExpires (prepararSet req ls d) = None.
Proof.
  unfold prepararSet; cbn.
  destruct (esRol (u_role d) admin && _); cbn;
    destruct (noVacio (u_locales d)); cbn; repeat split.
Qed.

Lemma applySet_cred d u :
  u_password d = None ->
  u_intentosFallidos d = None ->
  u_bloqueadoHasta d = None ->
  u_passwordResetToken d = None ->
  u_passwordResetExpires d = None ->
  cred (applySet d u) = cred u.
Proof.
  intros H1 H2 H3 H4 H5. unfold applySet; cbn. rewrite H1, H2, H3, H4, H5; cbn.
  now destruct (cred u).
Qed.

Lemma prepararSet_flag req ls d :
  u_role d = Some admin ->
  noVacio (u_locales d) = true \/ ls <> [] ->
  u_esAdministradorLocal (prepararSet req ls d) = Some true.
Proof.
  intros Hr Hl. unfold prepararSet; cbn. rewrite Hr; cbn.
  assert (Hc : noVacio (u_locales d) || negb (Nat.eqb (length ls) 0) = true).
  { destruct Hl as [Hl | Hl]; [now rewrite Hl|].
    destruct ls; [contradiction|]. apply orb_true_r. }
  rewrite Hc. cbn. destruct (noVacio (u_locales d)); reflexivity.
Qed.

Lemma prepararSet_flag_keep req ls d :
  u_esAdministradorLocal d = None ->
  u_esAdministradorLocal (prepararSet req ls d) = None
  \/ u_esAdministradorLocal (prepararSet req ls d) = Some true.
Proof.
  intros Hn. unfold prepararSet; cbn.
  destruct (esRol (u_role d) admin && _); cbn;
    destruct (noVacio (u_locales d)); cbn; auto.
Qed.

Section Updates.

Variable puedeAdministrar : Req -> User -> list Local -> bool.

(** Simplification that keeps the prepared body and the store operations
    folded. *)
Ltac paso := cbn -[prepararSet findById findByIdAndUpdate].

(** An update either is refused, leaving the collections as they were, or
    writes, on the target, the body prepared by [prepararSet]: the body of
    the request, or for an administrator that body without the keys [role],
    [locales] and [localPrincipal]. *)
Lemma updateUser_cases db req userId d :
  (exists r, updateUser puedeAdministrar db req userId d = (r, db) /\ success r = false)
  \/
  (exists user d1,
     findById userId db = Some user
     /\ (d1 = d \/ (req_userRole req = admin
                    /\ d1 = delete_localPrincipal (delete_locales (delete_role d))))
     /\ updateUser puedeAdministrar db req userId d
        = (exito 200 (Some UsuarioActualizado)
             (DUser (applySet (prepararSet req (populate db (locales user)) d1) user)),
           findByIdAndUpdate userId
             (applySet (prepararSet req (populate db (locales user)) d1)) db)).
Proof.
  unfold updateUser.
  destruct (findById userId db) as [user|] eqn:Hf.
  2:{ left. destruct (esRol (u_role d) superAdmin); cbn; eexists; split; reflexivity. }
  assert (W : forall d1,
    findById userId
      (findByIdAndUpdate userId
         (applySet (prepararSet req (populate db (locales user)) d1)) db)
    = Some (applySet (prepararSet req (populate db (locales user)) d1) user)).
  { intros d1. rewrite findById_update, Hf by (intros; assumption). reflexivity. }
  match goal with
  | |- context [bind ?m _] =>
      assert (Hm : m = Sigue tt \/ m = Responde (fallo 400 LimiteTenerSuperAdmins))
  end.
  { destruct (esRol (u_role d) superAdmin); [|now left].
    destruct (negb _ && _); cbn; [now right | now left]. }
  destruct Hm as [-> | ->]; [|left; eexists; split; reflexivity].
  paso.
  destruct (req_userRole req) eqn:Ha; paso.
  - destruct (esRol (u_role d) superAdmin);
      paso;
      [left; eexists; split; reflexivity|].
    destruct (Role_eqb (role user) superAdmin);
      paso;
      [left; eexists; split; reflexivity|].
    right. exists user, d. rewrite W. auto.
  - destruct (puedeAdministrar req user (populate db (locales user)));
      paso;
      [|left; eexists; split; reflexivity].
    destruct (Role_eqb (role user) superAdmin);
      paso;
      [left; eexists; split; reflexivity|].
    right. exists user, (delete_localPrincipal (delete_locales (delete_role d))).
    rewrite W. auto.
  - destruct (esRol (u_role d) admin && negb (noVacio (u_locales d)) && _);
      paso;
      [left; eexists; split; reflexivity|].
    destruct (match u_locales d with
              | Some ls => verificarLocales db ls
              | None => Sigue tt
              end) as [r|[]] eqn:V;
      paso.
    + left. exists r. split; [reflexivity|].
      destruct (u_locales d) as [ls|]; [|discriminate]. clear -V.
      induction ls as [|l ls IH]; cbn in V; [discriminate|].
      destruct (Local_findById l db); [now apply IH | now inversion V].
    + rewrite !andb_false_r. paso.
      right. exists user, d. rewrite W. auto.
Qed.

(** An update by an administrator, when the cap check does not fire. *)
Lemma updateUser_admin db req userId d user :
  req_userRole req = admin ->
  findById userId db = Some user ->
  (u_role d <> Some superAdmin \/ role user = superAdmin
   \/ superAdminsCount db < MAX_SUPER_ADMINS) ->
  updateUser puedeAdministrar db req userId d =
    if negb (puedeAdministrar req user (populate db (locales user)))
    then (fallo 403 NoEditarOtrosLocales, db)
    else if Role_eqb (role user) superAdmin
         then (fallo 403 NoPermisosModificarSuperAdmin, db)
         else
           let d' := prepararSet req (populate db (locales user))
                       (delete_localPrincipal (delete_locales (delete_role d))) in
           (exito 200 (Some UsuarioActualizado) (DUser (applySet d' user)),
            findByIdAndUpdate userId (applySet d') db).
Proof.
  intros Ha Hf Hc. unfold updateUser. rewrite Hf, Ha, count_superAdmins.
  match goal with
  | |- context [bind ?m _] => assert (Hm : m = Sigue tt)
  end.
  { destruct (esRol (u_role d) superAdmin) eqn:Er; [|reflexivity].
    destruct Hc as [Hc|[Hc|Hc]].
    - exfalso. apply Hc. destruct (u_role d) as [[]|]; try discriminate. reflexivity.
    - now rewrite Hc.
    - apply Nat.leb_gt in Hc. rewrite Hc, andb_false_r. reflexivity. }
  rewrite Hm. paso.
  destruct (puedeAdministrar req user (populate db (locales user)));
    paso; [|reflexivity].
  destruct (Role_eqb (role user) superAdmin);
    paso; [reflexivity|].
  rewrite findById_update, Hf by (intros; assumption). reflexivity.
Qed.

End Updates.

(** ** What an administrator may see and change *)

Section Policy.

Variable puedeAdministrar : Req -> User -> list Local -> bool.
Variable inspectLocal : Local -> string.



(** C10, as amended.  When the body of an update gives the role
    [superAdmin], the target is looked up first; if it exists and is not a
    super administrator and four users hold the role, the answer is the cap
    violation, before any permission check: whoever the actor is and
    whatever [puedeAdministrar] says, and the collections are unchanged. *)
Theorem updateUser_cap_before_permissions db req userId d user :
  u_role d = Some superAdmin ->
  findById userId db = Some user ->
  role user <> superAdmin ->
  MAX_SUPER_ADMINS <= superAdminsCount db ->
  updateUser puedeAdministrar db req userId d = (fallo 400 LimiteTenerSuperAdmins, db)
  /\ esInvariantViolation (fst (updateUser puedeAdministrar db req userId d)) = true
  /\ esNotFound (fst (updateUser puedeAdministrar db req userId d)) = false
  /\ esForbidden (fst (updateUser puedeAdministrar db req userId d)) = false.
Proof.
  intros Hr Hf Hu Hc.
  rewrite (updateUser_cap puedeAdministrar _ req _ _ _ Hr Hf Hu Hc).
  repeat split.
Qed.

(** C6, as amended.  An update by an administrator on a target that
    [puedeAdministrar] accepts and that is not a super administrator goes
    through with the keys [role], [locales] and [localPrincipal] of its body
    dropped and its other keys applied, unless the body asks for the role
    [superAdmin] while the cap is reached (then the cap check has already
    answered 400).  And whatever the actor, the body and the answer, an
    update leaves the credential fields of every document as they were. *)
Theorem updateUser_strips db req userId d :
  (forall user,
     req_userRole req = admin ->
     findById userId db = Some user ->
     puedeAdministrar req user (populate db (locales user)) = true ->
     role user <> superAdmin ->
     u_role d <> Some superAdmin \/ superAdminsCount db < MAX_SUPER_ADMINS ->
     exists user',
       fst (updateUser puedeAdministrar db req userId d)
       = exito 200 (Some UsuarioActualizado) (DUser user')
       /\ findById userId (snd (updateUser puedeAdministrar db req userId d)) = Some user'
       /\ role user' = role user
       /\ locales user' = locales user
       /\ localPrincipal user' = localPrincipal user
       /\ nombre user' = opt (p_nombre (u_perfil d)) (nombre user)
       /\ email user' = opt (p_email (u_perfil d)) (email user)
       /\ telefono user' = orElse (p_telefono (u_perfil d)) (telefono user)
       /\ direccion user' = orElse (p_direccion (u_perfil d)) (direccion user)
       /\ organizacion user' = orElse (p_organizacion (u_perfil d)) (organizacion user))
  /\
  (forall id,
     option_map cred (findById id (snd (updateUser puedeAdministrar db req userId d)))
     = option_map cred (findById id db)).
Proof.
  split.
  - intros user Ha Hf Hp Hu Hc.
    rewrite (updateUser_admin puedeAdministrar _ _ _ d _ Ha Hf)
      by (destruct Hc; [left | right; right]; assumption).
    rewrite Hp. cbn [negb].
    assert (E : Role_eqb (role user) superAdmin = false)
      by (destruct (role user); try reflexivity; congruence).
    rewrite E, prepararSet_restringido. cbn [fst snd].
    eexists. split; [reflexivity|].
    rewrite findById_update, Hf by (intros; assumption).
    repeat split.
  - intros id.
    destruct (updateUser_cases puedeAdministrar db req userId d)
      as [(r & -> & _) | (user & d1 & Hf & _ & ->)]; [reflexivity|].
    cbn [snd]. unfold findById, findByIdAndUpdate. cbn [db_users].
    apply find_updateOne_frame; intros u; [reflexivity|].
    destruct (prepararSet_sin_credenciales req (populate db (locales user)) d1)
      as (H1 & H2 & H3 & H4 & H5).
    now apply applySet_cred.
Qed.

(** ** The flag [esAdministradorLocal] *)

(** C8, as amended.  The user [createUser] answers carries the flag exactly
    when its role is [admin] and its locales are not empty, and with a fresh
    identifier that user is the document stored.  [updateUser] sets the
    flag when the body gives the role [admin], the actor is not an
    administrator, and the body's locales or the populated locales of the
    target are not empty; and an update whose body does not carry the flag
    never takes it from true to false. *)
Theorem esAdministradorLocal_maintained db req :
  (forall body nuevoId u,
     fst (createUser db req body nuevoId) = exito 201 (Some UsuarioCreado) (DUser u) ->
     (esAdministradorLocal u = true <-> role u = admin /\ locales u <> [])
     /\ (findById nuevoId db = None ->
           snd (createUser db req body nuevoId) = create u db))
  /\
  (forall userId d user user',
     findById userId db = Some user ->
     fst (updateUser puedeAdministrar db req userId d)
     = exito 200 (Some UsuarioActualizado) (DUser user') ->
     findById userId (snd (updateUser puedeAdministrar db req userId d)) = Some user'
     /\ (req_userRole req <> admin ->
         u_role d = Some admin ->
         noVacio (u_locales d) = true \/ populate db (locales user) <> [] ->
           esAdministradorLocal user' = true)
     /\ (u_esAdministradorLocal d = None ->
         esAdministradorLocal user = true ->
           esAdministradorLocal user' = true)).
Proof.
  split.
  - intros body nuevoId u Hs.
    destruct (createUser_cases db req body nuevoId) as [E|(r & E & Hr)];
      rewrite E in *; [|cbn in Hs; subst r; discriminate].
    set (nu := nuevoUsuario nuevoId req body (c_locales body)) in *.
    assert (Hflag : esAdministradorLocal nu = false) by reflexivity.
    assert (Hid : _id nu = nuevoId) by reflexivity.
    split.
    + exact (crear_flag db nu u Hflag Hs).
    + intros Hn. rewrite <- Hid in Hn.
      destruct (crear_fresh db nu Hn) as (u' & Hc & _).
      rewrite Hc in Hs |- *. cbn in Hs. injection Hs as <-. reflexivity.
  - intros userId d user user' Hf Hs.
    destruct (updateUser_cases puedeAdministrar db req userId d)
      as [(r & E & Hr) | (user0 & d1 & Hf0 & Hd & E)];
      rewrite E in *; [cbn in Hs; subst r; discriminate|].
    rewrite Hf in Hf0. injection Hf0 as <-.
    cbn [fst] in Hs. injection Hs as <-. cbn [snd].
    split; [rewrite findById_update, Hf by (intros; assumption); reflexivity|].
    split.
    + intros Ha Hr Hl. destruct Hd as [-> | [Ha' _]]; [|contradiction].
      cbn [applySet esAdministradorLocal].
      now rewrite (prepararSet_flag req _ _ Hr Hl).
    + intros Hn Ht.
      assert (Hn1 : u_esAdministradorLocal d1 = None)
        by (destruct Hd as [-> | [_ ->]]; exact Hn).
      cbn [applySet esAdministradorLocal].
      destruct (prepararSet_flag_keep req (populate db (locales user)) d1 Hn1)
        as [-> | ->]; [exact Ht | reflexivity].
Qed.

End Policy.



Lemma updateUser_cap_before_permissions_witness :
  updateUser puedeAdministrar_spec db_lleno reqAna "ursula" (conRol superAdmin)
  = (fallo 400 LimiteTenerSuperAdmins, db_lleno).
Proof.
  assert (Hu : role ursula <> superAdmin) by discriminate.
  assert (Hc : MAX_SUPER_ADMINS <= superAdminsCount db_lleno) by (vm_compute; lia).
  exact (proj1 (updateUser_cap_before_permissions puedeAdministrar_spec
                  db_lleno reqAna "ursula" (conRol superAdmin) ursula
                  eq_refl eq_refl Hu Hc)).
Defined.

(** C10 as stated fails: with the cap reached and a target that matches no
    user, the lookup inside the cap check yields nothing to read the role
    of, and the answer is 500, not the cap violation. *)
Lemma updateUser_cap_missing_target :
  MAX_SUPER_ADMINS <= superAdminsCount db_lleno
  /\ findById "nadie" db_lleno = None
  /\ u_role (conRol superAdmin) = Some superAdmin
  /\ updateUser puedeAdministrar_spec db_lleno reqRoot "nadie" (conRol superAdmin)
     = (fallo 500 ErrorActualizar, db_lleno)
  /\ esInvariantViolation
       (fst (updateUser puedeAdministrar_spec db_lleno reqRoot "nadie"
                        (conRol superAdmin))) = false.
Proof. split; [vm_compute; lia | vm_compute; repeat split]. Qed.

Lemma updateUser_strips_witness :
  exists user',
    fst (updateUser puedeAdministrar_spec db_base reqAna "ursula" renombraYRelocaliza)
    = exito 200 (Some UsuarioActualizado) (DUser user')
    /\ role user' = usuario
    /\ locales user' = ["L1"]
    /\ localPrincipal user' = Some "L1"
    /\ nombre user' = "Ursula B."
    /\ cred user' = cred0.
Proof.
  destruct (updateUser_strips puedeAdministrar_spec db_base reqAna "ursula"
              renombraYRelocaliza) as [H1 H2].
  assert (Hu : role ursula <> superAdmin) by discriminate.
  assert (Hd : u_role renombraYRelocaliza <> Some superAdmin
               \/ superAdminsCount db_base < MAX_SUPER_ADMINS) by (left; discriminate).
  destruct (H1 ursula eq_refl eq_refl eq_refl Hu Hd)
    as (user' & E1 & E2 & E3 & E4 & E5 & E6 & _).
  specialize (H2 "ursula"). rewrite E2 in H2.
  exists user'. repeat split; try assumption.
  cbn in H2. now injection H2.
Defined.

(** C6 as stated fails: with four super administrators, an administrator's
    update of a user he may administer, with the role [superAdmin] in its
    body, is answered 400 and nothing is applied. *)
Lemma updateUser_rejected_not_stripped :
  req_userRole reqAna = admin
  /\ findById "ursula" db_lleno = Some ursula
  /\ puedeAdministrar_spec reqAna ursula (populate db_lleno (locales ursula)) = true
  /\ updateUser puedeAdministrar_spec db_lleno reqAna "ursula" renombraYAsciende
     = (fallo 400 LimiteTenerSuperAdmins, db_lleno)
  /\ success (fst (updateUser puedeAdministrar_spec db_lleno reqAna "ursula"
                               renombraYAsciende)) = false.
Proof. vm_compute. repeat split. Qed.

Lemma esAdministradorLocal_maintained_witness :
  (exists u,
     fst (createUser db_base reqRoot altaAdmin "dora")
     = exito 201 (Some UsuarioCreado) (DUser u)
     /\ (esAdministradorLocal u = true <-> role u = admin /\ locales u <> []))
  /\
  (exists user',
     findById "carla" (snd (updateUser puedeAdministrar_spec db_carla reqRoot "carla"
                                       asciendeConLocales)) = Some user'
     /\ esAdministradorLocal user' = true).
Proof.
  destruct (esAdministradorLocal_maintained puedeAdministrar_spec db_base reqRoot)
    as [Hc _].
  destruct (esAdministradorLocal_maintained puedeAdministrar_spec db_carla reqRoot)
    as [_ Hu].
  split.
  - eexists. split; [vm_compute; reflexivity|].
    apply (Hc altaAdmin "dora"). vm_compute. reflexivity.
  - eexists.
    assert (Ha : req_userRole reqRoot <> admin) by discriminate.
    destruct (Hu "carla" asciendeConLocales carla _ eq_refl eq_refl) as (E1 & E2 & _).
    split; [exact E1|]. apply E2; [exact Ha | reflexivity | left; reflexivity].
Defined.

(** C8 as stated fails.  The administrator [ana] of L1 carries the flag;
    after an update that gives her the role [usuario] she still carries it,
    and so she does after an update that empties her locales.  Conversely
    the administrator [carla], who has no locales and no flag, is assigned
    L1 and still has no flag. *)
Lemma esAdministradorLocal_not_maintained :
  (role ana = admin /\ locales ana = ["L1"] /\ esAdministradorLocal ana = true)
  /\ option_map (fun u => (role u, locales u, esAdministradorLocal u))
       (findById "ana" (snd (updateUser puedeAdministrar_spec db_base reqRoot "ana"
                                        (conRol usuario))))
     = Some (usuario, ["L1"], true)
  /\ option_map (fun u => (role u, locales u, esAdministradorLocal u))
       (findById "ana" (snd (updateUser puedeAdministrar_spec db_base reqRoot "ana"
                                        (conLocales []))))
     = Some (admin, [], true)
  /\ option_map (fun u => (role u, locales u, esAdministradorLocal u))
       (findById "carla" (snd (assignLocalToAdmin db_carla "carla" (Some "L1"))))
     = Some (admin, ["L1"], false).
Proof. vm_compute. repeat split. Qed.

(** ** Locales of an administrator *)

Lemma matches_filtroAdmin id u :
  matches (filtroAdmin id) u = (_id u =? id) && Role_eqb (role u) admin.
Proof. unfold matches; cbn. now rewrite !andb_true_r. Qed.

Lemma adminDe_inv adminId db a :
  adminDe adminId db = Some a -> _id a = adminId /\ role a = admin.
Proof.
  unfold adminDe, findOne. intros H. apply find_some in H. destruct H as [_ H].
  rewrite matches_filtroAdmin in H. apply andb_prop in H. destruct H as [H1 H2].
  split; [now apply String.eqb_eq | now apply Role_eqb_eq].
Qed.

(** Saving an administrator document under its own identifier and role
    makes it the document the next lookup finds. *)
Lemma adminDe_save adminId db a a' :
  adminDe adminId db = Some a ->
  _id a' = adminId ->
  role a' = admin ->
  adminDe adminId (save a' db) = Some a'.
Proof.
  unfold adminDe, findOne, save, findByIdAndUpdate. cbn [db_users].
  intros Hf Hi Hr. rewrite Hi. revert Hf.
  induction (db_users db) as [|v rest IH]; cbn; [discriminate|].
  rewrite !matches_filtroAdmin.
  destruct (_id v =? adminId) eqn:E; cbn.
  - intros _. now rewrite matches_filtroAdmin, Hi, Hr, String.eqb_refl.
  - rewrite matches_filtroAdmin, E. cbn. exact IH.
Qed.

Lemma truthy_Some s : s <> "" -> truthy (Some s) = true.
Proof. intros H. cbn. apply String.eqb_neq in H. now rewrite H. Qed.

Lemma assignLocalToAdmin_ok db adminId a X :
  adminDe adminId db = Some a ->
  X <> "" ->
  Local_findById X db <> None ->
  inList X (locales a) = false ->
  assignLocalToAdmin db adminId (Some X) =
    let a1 := set_locales (locales a ++ [X]) a in
    let a2 := if Nat.eqb (length (locales a1)) 1
              then set_localPrincipal (Some X) a1 else a1 in
    (exito 200 (Some LocalAsignado) (DAdmin (_id a2) (locales a2) (localPrincipal a2)),
     save a2 db).
Proof.
  intros Hf Hx Hl Hin. unfold assignLocalToAdmin, adminDe in *.
  rewrite (truthy_Some _ Hx). cbn [negb cuando bind opt]. rewrite Hf. cbn [buscar bind].
  destruct (Local_findById X db); [|contradiction]. cbn [buscar bind].
  rewrite Hin. reflexivity.
Qed.

Lemma removeLocalFromAdmin_ok db adminId a X :
  adminDe adminId db = Some a ->
  inList X (locales a) = true ->
  length (locales a) <> 1 ->
  removeLocalFromAdmin db adminId X =
    let a1 := set_locales (filter (fun id => negb (id =? X)) (locales a)) a in
    let a2 := if match localPrincipal a1 with
                 | Some p => p =? X
                 | None => false
                 end
              then set_localPrincipal (hd_error (locales a1)) a1 else a1 in
    (exito 200 (Some LocalEliminado) (DAdmin (_id a2) (locales a2) (localPrincipal a2)),
     save a2 db).
Proof.
  intros Hf Hin Hn. unfold removeLocalFromAdmin, adminDe in *.
  rewrite Hf. cbn [buscar bind]. rewrite Hin. cbn [negb cuando bind].
  apply Nat.eqb_neq in Hn. rewrite Hn. reflexivity.
Qed.

Lemma removeLocalFromAdmin_unico db adminId a X :
  adminDe adminId db = Some a ->
  locales a = [X] ->
  removeLocalFromAdmin db adminId X = (fallo 400 NoEliminarUnicoLocal, db).
Proof.
  intros Hf Hl. unfold removeLocalFromAdmin, adminDe in *.
  rewrite Hf. cbn [buscar bind]. rewrite Hl. cbn. now rewrite String.eqb_refl.
Qed.

(** C7.  Let an administrator have no locales, and let X and Y be two
    distinct locales that exist.  Assigning X makes X the principal locale,
    and removing X then is refused, X being the only locale.  Assigning Y
    after X leaves X principal, and removing X then makes Y, the first of
    the remaining locales, principal. *)
Theorem locales_round_trip db adminId a X Y :
  adminDe adminId db = Some a ->
  locales a = [] ->
  X <> "" -> Y <> "" -> X <> Y ->
  Local_findById X db <> None ->
  Local_findById Y db <> None ->
  let db1 := snd (assignLocalToAdmin db adminId (Some X)) in
  let db2 := snd (assignLocalToAdmin db1 adminId (Some Y)) in
  let db3 := snd (removeLocalFromAdmin db2 adminId X) in
  fst (assignLocalToAdmin db adminId (Some X))
  = exito 200 (Some LocalAsignado) (DAdmin adminId [X] (Some X))
  /\ option_map localPrincipal (adminDe adminId db1) = Some (Some X)
  /\ removeLocalFromAdmin db1 adminId X = (fallo 400 NoEliminarUnicoLocal, db1)
  /\ fst (assignLocalToAdmin db1 adminId (Some Y))
     = exito 200 (Some LocalAsignado) (DAdmin adminId [X; Y] (Some X))
  /\ option_map localPrincipal (adminDe adminId db2) = Some (Some X)
  /\ fst (removeLocalFromAdmin db2 adminId X)
     = exito 200 (Some LocalEliminado) (DAdmin adminId [Y] (Some Y))
  /\ option_map localPrincipal (adminDe adminId db3) = Some (Some Y)
  /\ option_map locales (adminDe adminId db3) = Some [Y].
Proof.
  intros Hf Hl Hx Hy Hxy HX HY.
  destruct (adminDe_inv _ _ _ Hf) as [Hid Hrole].
  (* first assignment *)
  pose proof (assignLocalToAdmin_ok db adminId a X Hf Hx HX) as E1.
  rewrite Hl in E1. specialize (E1 eq_refl). cbn in E1. rewrite Hid in E1.
  set (a1 := set_localPrincipal (Some X) (set_locales [X] a)) in *.
  assert (Hf1 : adminDe adminId (save a1 db) = Some a1)
    by (apply adminDe_save with (a := a); assumption).
  (* second assignment *)
  assert (HnXY : inList Y (locales a1) = false).
  { cbn. apply String.eqb_neq in Hxy. now rewrite Hxy. }
  pose proof (assignLocalToAdmin_ok (save a1 db) adminId a1 Y Hf1 Hy HY HnXY) as E2.
  cbn in E2. rewrite Hid in E2.
  set (a2 := set_locales [X; Y] a1) in *.
  assert (Hf2 : adminDe adminId (save a2 (save a1 db)) = Some a2)
    by (apply adminDe_save with (a := a1); assumption).
  (* removal of X *)
  assert (HinX : inList X (locales a2) = true) by (cbn; now rewrite String.eqb_refl).
  assert (Hlen : length (locales a2) <> 1) by (cbn; lia).
  pose proof (removeLocalFromAdmin_ok (save a2 (save a1 db)) adminId a2 X
                Hf2 HinX Hlen) as E3.
  cbn in E3. rewrite String.eqb_refl in E3.
  assert (Hyx : (Y =? X) = false) by (apply String.eqb_neq; congruence).
  rewrite Hyx in E3. cbn in E3. rewrite Hid in E3.
  set (a3 := set_localPrincipal (Some Y) (set_locales [Y] a2)) in *.
  assert (Hf3 : adminDe adminId (save a3 (save a2 (save a1 db))) = Some a3)
    by (apply adminDe_save with (a := a2); assumption).
  assert (D1 : snd (assignLocalToAdmin db adminId (Some X)) = save a1 db)
    by (now rewrite E1).
  assert (D2 : snd (assignLocalToAdmin (save a1 db) adminId (Some Y))
               = save a2 (save a1 db)) by (now rewrite E2).
  assert (D3 : snd (removeLocalFromAdmin (save a2 (save a1 db)) adminId X)
               = save a3 (save a2 (save a1 db))) by (now rewrite E3).
  cbn zeta. rewrite D1, D2, D3, E1, E2, E3, Hf1, Hf2, Hf3.
  repeat split.
  now apply removeLocalFromAdmin_unico with (a := a1).
Qed.

Lemma locales_round_trip_witness :
  fst (assignLocalToAdmin db_carla "carla" (Some "L1"))
  = exito 200 (Some LocalAsignado) (DAdmin "carla" ["L1"] (Some "L1"))
  /\ fst (removeLocalFromAdmin
            (snd (assignLocalToAdmin
                    (snd (assignLocalToAdmin db_carla "carla" (Some "L1")))
                    "carla" (Some "L2")))
            "carla" "L1")
     = exito 200 (Some LocalEliminado) (DAdmin "carla" ["L2"] (Some "L2")).
Proof.
  assert (H1 : "L1" <> "") by discriminate.
  assert (H2 : "L2" <> "") by discriminate.
  assert (H3 : "L1" <> "L2") by discriminate.
  assert (H4 : Local_findById "L1" db_carla <> None) by discriminate.
  assert (H5 : Local_findById "L2" db_carla <> None) by discriminate.
  destruct (locales_round_trip db_carla "carla" carla "L1" "L2"
              eq_refl eq_refl H1 H2 H3 H4 H5) as (E1 & _ & _ & _ & _ & E6 & _).
  split; [exact E1 | exact E6].
Defined.

(** ** The list an administrator without locales receives *)

Lemma insertar_perm u us : Permutation (insertar u us) (u :: us).
Proof.
  induction us as [|v rest IH]; cbn; [reflexivity|].
  destruct (Nat.leb (createdAt v) (createdAt u)); [reflexivity|].
  rewrite IH. apply perm_swap.
Qed.

Lemma sortCreatedDesc_perm us : Permutation (sortCreatedDesc us) us.
Proof.
  induction us as [|u rest IH]; cbn; [reflexivity|].
  rewrite insertar_perm. now apply perm_skip.
Qed.

(** The filter of an administrator whose [locales] are empty or absent
    carries no restriction by the actor's locales: its [locales] key is the
    one of the query string, if any. *)
Lemma filtrosDe_admin_sin_locales req q :
  req_userRole req = admin ->
  noVacio (req_user_locales req) = false ->
  f_role (filtrosDe req q) = Some (RoleNe superAdmin)
  /\ f_locales (filtrosDe req q)
     = (if truthy (q_local q) then Some (LocalesHas (opt (q_local q) "")) else None).
Proof. intros Ha Hl. unfold filtrosDe. rewrite Ha, Hl. split; reflexivity. Qed.

Section Listing.

Variable regexTest : string -> string -> bool.

(** C9.  In [getAllUsers], for an actor whose role is [admin] and whose
    locales are empty or absent, the filter carries no restriction by
    locale.  With no filter in the query string the request counts every
    user that is not a super administrator and answers them, newest first,
    page by page; a first page that is long enough holds them all. *)
Theorem getAllUsers_admin_sin_locales db req q :
  req_userRole req = admin ->
  noVacio (req_user_locales req) = false ->
  q_activo q = None ->
  truthy (q_search q) = false ->
  truthy (q_local q) = false ->
  let page := parseIntOr (q_page q) 1 in
  let limit := parseIntOr (q_limit q) 10 in
  f_locales (filtrosDe req q) = None
  /\ exists us,
       getAllUsers regexTest db req q
       = (exito 200 None
            (DUsers us (mkPagination (length (noSuperAdmins db)) page limit
                                     (ceilDiv (length (noSuperAdmins db)) limit))),
          db)
       /\ us = firstn limit (skipn ((page - 1) * limit)
                                   (sortCreatedDesc (noSuperAdmins db)))
       /\ (page = 1 -> length (noSuperAdmins db) <= limit ->
             Permutation us (noSuperAdmins db)).
Proof.
  intros Ha Hl Hact Hs Hloc page limit.
  destruct (filtrosDe_admin_sin_locales req q Ha Hl) as [_ Hfl].
  rewrite Hloc in Hfl. split; [exact Hfl|].
  assert (Hfound :
    filter (fun u => matches (filtrosDe req q) u && matchSearch regexTest q u)
           (db_users db) = noSuperAdmins db).
  { unfold noSuperAdmins. apply filter_ext. intros u.
    unfold matchSearch, filtrosDe. rewrite Ha, Hl, Hact, Hs, Hloc.
    unfold matches; cbn. now rewrite !andb_true_r. }
  eexists. split; [|split; [reflexivity|]].
  - unfold getAllUsers. fold page limit. rewrite Hfound. reflexivity.
  - intros Hp Hlen. rewrite Hp. cbn [Nat.sub Nat.mul skipn].
    rewrite firstn_all2
      by (now rewrite (Permutation_length (sortCreatedDesc_perm _))).
    apply sortCreatedDesc_perm.
Qed.

End Listing.

Lemma getAllUsers_admin_sin_locales_witness :
  exists us,
    getAllUsers regex_eq db_norte reqSinLocales sinConsulta
    = (exito 200 None (DUsers us (mkPagination 3 1 10 1)), db_norte)
    /\ Permutation us [ana; dario; ursula].
Proof.
  destruct (getAllUsers_admin_sin_locales regex_eq db_norte reqSinLocales sinConsulta
              eq_refl eq_refl eq_refl eq_refl eq_refl) as (_ & us & E & _ & P).
  exists us. split; [exact E|]. apply P; [reflexivity | vm_compute; lia].
Defined.

(** * Further properties of the handlers *)

(** ** Writes to one document *)

Lemma find_updateOne_other id id' f us :
  id <> id' ->
  (forall u, _id u = id' -> _id (f u) = id') ->
  find (fun u => _id u =? id) (updateOne id' f us)
  = find (fun u => _id u =? id) us.
Proof.
  intros Hne Hf. induction us as [|v rest IH]; cbn; [reflexivity|].
  destruct (_id v =? id') eqn:E; cbn.
  - apply String.eqb_eq in E.
    assert (E1 : (_id (f v) =? id) = false)
      by (apply String.eqb_neq; rewrite (Hf v E); congruence).
    assert (E2 : (_id v =? id) = false)
      by (apply String.eqb_neq; rewrite E; congruence).
    now rewrite E1, E2.
  - destruct (_id v =? id); [reflexivity | exact IH].
Qed.

Lemma findById_update_other id id' f db :
  id <> id' ->
  (forall u, _id u = id' -> _id (f u) = id') ->
  findById id (findByIdAndUpdate id' f db) = findById id db.
Proof. intros; unfold findById, findByIdAndUpdate; cbn. now apply find_updateOne_other. Qed.

Lemma length_updateOne id f us : length (updateOne id f us) = length us.
Proof.
  induction us as [|v rest IH]; cbn; [reflexivity|].
  destruct (_id v =? id); cbn; congruence.
Qed.

(** Counting after a write: the document written is the one a lookup by
    identifier finds, and the count moves by its contribution only. *)
Lemma count_updateOne (P : User -> bool) id f us :
  length (filter P (updateOne id f us)) + b2n (match find (fun u => _id u =? id) us with
                                               | Some u => P u
                                               | None => false
                                               end)
  = length (filter P us) + b2n (match find (fun u => _id u =? id) us with
                                | Some u => P (f u)
                                | None => false
                                end).
Proof.
  induction us as [|v rest IH]; cbn; [reflexivity|].
  destruct (_id v =? id) eqn:E; cbn.
  - destruct (P v), (P (f v)); cbn; lia.
  - destruct (P v); cbn; lia.
Qed.

(** ** resetUserPassword *)

Lemma Role_eqb_refl r : Role_eqb r r = true.
Proof. now destruct r. Qed.

(** X1.  An administrator resets the password of the users of his locales and
    of nobody else: the request succeeds exactly when the target is a
    [usuario] that shares an existing locale with the actor, and is
    answered 403, with nothing written, otherwise. *)
Theorem resetUserPassword_admin_policy db req userId user p :
  req_userRole req = admin ->
  findById userId db = Some user ->
  (r_success (fst (resetUserPassword db req userId p)) = true
     <-> role user = usuario /\ comparteLocal db req user = true)
  /\ (r_success (fst (resetUserPassword db req userId p)) = false ->
        r_status (fst (resetUserPassword db req userId p)) = 403
        /\ snd (resetUserPassword db req userId p) = db).
Proof.
  intros Ha Hf. unfold resetUserPassword. rewrite Hf, Ha. cbn [Role_eqb andb].
  destruct (role user) eqn:Hr; cbn [Role_eqb orb].
  - destruct (comparteLocal db req user); cbn.
    + split; [tauto | discriminate].
    + split; [split; [discriminate | intros [_ H]; discriminate] | auto].
  - cbn. split; [split; [discriminate | intros [H _]; discriminate] | auto].
  - cbn. split; [split; [discriminate | intros [H _]; discriminate] | auto].
Qed.

Lemma resetUserPassword_admin_policy_witness :
  r_success (fst (resetUserPassword db_base reqAna "ursula" "nueva")) = true
  /\ r_status (fst (resetUserPassword db_norte reqAna "dario" "nueva")) = 403.
Proof.
  destruct (resetUserPassword_admin_policy db_base reqAna "ursula" ursula "nueva"
              eq_refl eq_refl) as [H1 _].
  destruct (resetUserPassword_admin_policy db_norte reqAna "dario" dario "nueva"
              eq_refl eq_refl) as [_ H2].
  split; [apply H1; split; reflexivity | apply H2; reflexivity].
Defined.

(** X2.  A successful reset writes the new password, clears the failed attempts
    and the lock, stamps the modification, and touches nothing else: the
    reset token and its expiry, the role, the locales and the status of the
    target stay, and so does every other document. *)
Theorem resetUserPassword_effect db req userId user p :
  findById userId db = Some user ->
  r_success (fst (resetUserPassword db req userId p)) = true ->
  (exists user',
     findById userId (snd (resetUserPassword db req userId p)) = Some user'
     /\ cred user' = mkCredenciales p 0 None (passwordResetToken (cred user))
                                    (passwordResetExpires (cred user))
     /\ ultimaModificacion user'
        = Some (mkModificacion (req_userId req) (req_now req))
     /\ role user' = role user /\ locales user' = locales user
     /\ localPrincipal user' = localPrincipal user
     /\ activo user' = activo user /\ enLinea user' = enLinea user
     /\ email user' = email user)
  /\ (forall id, id <> userId ->
        findById id (snd (resetUserPassword db req userId p)) = findById id db)
  /\ length (db_users (snd (resetUserPassword db req userId p))) = length (db_users db).
Proof.
  intros Hf. pose proof (findById_id _ _ _ Hf) as Hi.
  unfold resetUserPassword. rewrite Hf.
  destruct (Role_eqb (req_userRole req) admin && _); [discriminate|].
  destruct (Role_eqb (req_userRole req) admin && _); [discriminate|].
  intros _. cbn [fst snd]. unfold save. cbn [_id set_password]. rewrite Hi.
  split; [|split].
  - eexists. rewrite findById_update, Hf by (intros; exact Hi).
    split; [reflexivity|]. repeat split.
  - intros id Hne. apply findById_update_other; [exact Hne | intros; exact Hi].
  - cbn. apply length_updateOne.
Qed.

Lemma resetUserPassword_effect_witness :
  exists user',
    findById "ursula" (snd (resetUserPassword db_base reqRoot "ursula" "nueva")) = Some user'
    /\ cred user' = mkCredenciales "nueva" 0 None None None
    /\ role user' = usuario.
Proof.
  destruct (resetUserPassword_effect db_base reqRoot "ursula" ursula "nueva"
              eq_refl eq_refl) as [(u & H1 & H2 & _ & H3 & _) _].
  exists u. split; [exact H1|]. split; [exact H2 | exact H3].
Defined.

(** ** The shapes of toggleUserStatus and deleteUser *)

Lemma verificarAdminsDeLocales_fallo db ls r :
  verificarAdminsDeLocales db ls = Responde r -> success r = false.
Proof.
  induction ls as [|l rest IH]; cbn; [discriminate|].
  destruct (Nat.leb _ 1); [now intros [= <-] | exact IH].
Qed.

(** A status change either is refused, leaving the collections as they
    were, or saves the target with its new status; it goes through for an
    administrator only on a [usuario] of his locales, and takes an active
    flag from a super administrator only when two are active. *)
Lemma toggleUserStatus_cases db req userId b :
  (exists r, toggleUserStatus db req userId b = (r, db) /\ success r = false)
  \/
  (exists user,
     findById userId db = Some user
     /\ toggleUserStatus db req userId b
        = (exito 200 (Some (if b then UsuarioActivado else UsuarioDesactivado)) SinDatos,
           save (set_estado b (if negb b then false else enLinea user)
                   (Some (mkModificacion (req_userId req) (req_now req))) user) db)
     /\ (role user = superAdmin -> b = false -> 2 <= superAdminsActivos db)
     /\ (req_userRole req = admin ->
           role user = usuario /\ comparteLocal db req user = true)).
Proof.
  unfold toggleUserStatus.
  destruct (findById userId db) as [user|] eqn:Hf; cbn [buscar bind];
    [|left; eexists; split; reflexivity].
  match goal with
  | |- context [bind ?m _] =>
      assert (Hm : (exists r, m = Responde r /\ success r = false)
                   \/ (m = Sigue tt
                       /\ (req_userRole req = admin ->
                             role user = usuario /\ comparteLocal db req user = true)))
  end.
  { destruct (req_userRole req); [right; split; [reflexivity | discriminate] | |
                                   right; split; [reflexivity | discriminate]].
    destruct (role user); cbn;
      [|left; eexists; split; reflexivity | left; eexists; split; reflexivity].
    fold (comparteLocal db req user).
    destruct (comparteLocal db req user); cbn;
      [right; auto | left; eexists; split; reflexivity]. }
  destruct Hm as [(r & -> & Hr) | (-> & Hadm)];
    [left; exists r; split; [reflexivity | exact Hr]|].
  cbn [bind]. rewrite count_superAdminsActivos.
  destruct (Role_eqb (role user) superAdmin && negb b
            && Nat.leb (superAdminsActivos db) 1) eqn:G; cbn [cuando bind];
    [left; eexists; split; reflexivity|].
  match goal with
  | |- context [bind ?m _] => destruct m as [r|[]] eqn:V
  end; cbn [bind responder].
  - left. exists r. split; [reflexivity|].
    destruct (Role_eqb (role user) admin && _ && negb b); [|discriminate].
    now apply verificarAdminsDeLocales_fallo in V.
  - right. exists user. split; [reflexivity|]. split; [reflexivity|].
    split; [|exact Hadm].
    intros Hr ->. rewrite Hr in G. cbn in G.
    apply Nat.leb_gt in G. lia.
Qed.

(** A deletion either is refused, leaving the collections as they were, or
    writes the inactive status on the target; it takes a super
    administrator away only when two are active. *)
Lemma deleteUser_cases db req userId :
  (exists r, deleteUser db req userId = (r, db) /\ success r = false)
  \/
  (exists user,
     req_userRole req = superAdmin
     /\ findById userId db = Some user
     /\ deleteUser db req userId
        = (exito 200 (Some UsuarioEliminado) SinDatos,
           findByIdAndUpdate userId
             (set_estado false false
                (Some (mkModificacion (req_userId req) (req_now req)))) db)
     /\ (role user = superAdmin -> 2 <= superAdminsActivos db)).
Proof.
  unfold deleteUser.
  destruct (Role_eqb (req_userRole req) superAdmin) eqn:Ha; cbn [negb cuando bind];
    [|left; eexists; split; reflexivity].
  apply Role_eqb_eq in Ha.
  destruct (findById userId db) as [user|] eqn:Hf; cbn [buscar bind];
    [|left; eexists; split; reflexivity].
  rewrite count_superAdminsActivos.
  destruct (Role_eqb (role user) superAdmin && Nat.leb (superAdminsActivos db) 1) eqn:G;
    cbn [cuando bind]; [left; eexists; split; reflexivity|].
  destruct (Role_eqb (role user) admin && truthy (local user) && _);
    cbn [cuando bind responder]; [left; eexists; split; reflexivity|].
  right. exists user. repeat split; try assumption.
  intros Hr. rewrite Hr in G. cbn in G. apply Nat.leb_gt in G. lia.
Qed.

(** ** The last active super administrator, as an invariant *)

Lemma superAdminsActivos_write db userId user f :
  findById userId db = Some user ->
  superAdminsActivos (findByIdAndUpdate userId f db)
  + b2n (Role_eqb (role user) superAdmin && activo user)
  = superAdminsActivos db
    + b2n (Role_eqb (role (f user)) superAdmin && activo (f user)).
Proof.
  intros Hf. unfold superAdminsActivos, findByIdAndUpdate. cbn [db_users].
  pose proof (count_updateOne (fun u => Role_eqb (role u) superAdmin && activo u)
                userId f (db_users db)) as H.
  unfold findById in Hf. rewrite Hf in H. exact H.
Qed.



(** ** Status changes by an administrator, and reactivation *)

(** X4.  An administrator changes the status of the users of his locales and of
    nobody else: whatever the new status, the request succeeds exactly when
    the target is a [usuario] that shares an existing locale with the actor,
    and is answered 403, with nothing written, otherwise. *)
Theorem toggleUserStatus_admin_policy db req userId user b :
  req_userRole req = admin ->
  findById userId db = Some user ->
  (success (fst (toggleUserStatus db req userId b)) = true
     <-> role user = usuario /\ comparteLocal db req user = true)
  /\ (success (fst (toggleUserStatus db req userId b)) = false ->
        status (fst (toggleUserStatus db req userId b)) = 403
        /\ snd (toggleUserStatus db req userId b) = db).
Proof.
  intros Ha Hf. unfold toggleUserStatus. rewrite Hf, Ha. cbn [buscar bind].
  fold (comparteLocal db req user).
  destruct (role user) eqn:Hr; cbn.
  - destruct (comparteLocal db req user); cbn.
    + split; [tauto | discriminate].
    + split; [split; [discriminate | intros [_ H]; discriminate] | auto].
  - split; [split; [discriminate | intros [H _]; discriminate] | auto].
  - split; [split; [discriminate | intros [H _]; discriminate] | auto].
Qed.

Lemma toggleUserStatus_admin_policy_witness :
  success (fst (toggleUserStatus db_base reqAna "ursula" false)) = true
  /\ status (fst (toggleUserStatus db_norte reqAna "dario" true)) = 403.
Proof.
  destruct (toggleUserStatus_admin_policy db_base reqAna "ursula" ursula false
              eq_refl eq_refl) as [H1 _].
  destruct (toggleUserStatus_admin_policy db_norte reqAna "dario" dario true
              eq_refl eq_refl) as [_ H2].
  split; [apply H1; split; reflexivity | apply H2; reflexivity].
Defined.

(** X5.  Activation carries no guard: for an actor that is not an administrator
    it succeeds on every user that exists.  After a deactivation it gives
    the user back as it was, except that the user is off line and the
    modification is stamped anew; no other document is touched by the two
    requests. *)
Theorem toggleUserStatus_reactivate db req req' userId user :
  req_userRole req' <> admin ->
  findById userId db = Some user ->
  success (fst (toggleUserStatus db req userId false)) = true ->
  let db1 := snd (toggleUserStatus db req userId false) in
  let db2 := snd (toggleUserStatus db1 req' userId true) in
  success (fst (toggleUserStatus db1 req' userId true)) = true
  /\ findById userId db2
     = Some (set_estado true false
               (Some (mkModificacion (req_userId req') (req_now req'))) user)
  /\ (forall id, id <> userId -> findById id db2 = findById id db).
Proof.
  intros Ha' Hf Hs db1 db2. pose proof (findById_id _ _ _ Hf) as Hi.
  destruct (toggleUserStatus_cases db req userId false)
    as [(r & E & Hr) | (user0 & Hf0 & E & _)].
  { rewrite E in Hs. cbn in Hs. congruence. }
  rewrite Hf in Hf0. injection Hf0 as <-.
  set (user1 := set_estado false false
                  (Some (mkModificacion (req_userId req) (req_now req))) user) in *.
  assert (E1 : db1 = save user1 db) by (unfold db1; now rewrite E).
  assert (Hf1 : findById userId db1 = Some user1).
  { rewrite E1. unfold save. cbn [_id user1 set_estado]. rewrite Hi.
    rewrite findById_update, Hf by (intros; exact Hi). reflexivity. }
  assert (E2 : toggleUserStatus db1 req' userId true
               = (exito 200 (Some UsuarioActivado) SinDatos,
                  save (set_estado true (enLinea user1)
                          (Some (mkModificacion (req_userId req') (req_now req')))
                          user1) db1)).
  { unfold toggleUserStatus. rewrite Hf1. cbn [buscar bind].
    rewrite (toggle_permisos_otros _ _ _ Ha'). cbn [bind].
    rewrite !andb_false_r. reflexivity. }
  unfold db2. rewrite E2. cbn [fst snd]. split; [reflexivity|].
  unfold save. cbn [_id set_estado user1]. rewrite Hi. split.
  - rewrite findById_update, Hf1 by (intros; exact Hi). reflexivity.
  - intros id Hne.
    rewrite findById_update_other by (try exact Hne; intros; exact Hi).
    rewrite E1. unfold save. cbn [_id set_estado user1]. rewrite Hi.
    apply findById_update_other; [exact Hne | intros; exact Hi].
Qed.

Lemma toggleUserStatus_reactivate_witness :
  success (fst (toggleUserStatus
                  (snd (toggleUserStatus db_base reqRoot "ursula" false))
                  reqRoot "ursula" true)) = true.
Proof.
  assert (Ha : req_userRole reqRoot <> admin) by discriminate.
  exact (proj1 (toggleUserStatus_reactivate db_base reqRoot reqRoot "ursula" ursula
                  Ha eq_refl eq_refl)).
Defined.

(** ** deleteUser is a soft delete *)

(** X6.  A successful deletion removes nothing: the collection keeps its length,
    the target is still found under its identifier with its role, locales,
    principal locale, email and credentials, inactive and off line, and
    every other document is as it was. *)
Theorem deleteUser_soft db req userId :
  success (fst (deleteUser db req userId)) = true ->
  length (db_users (snd (deleteUser db req userId))) = length (db_users db)
  /\ (exists user user',
        findById userId db = Some user
        /\ findById userId (snd (deleteUser db req userId)) = Some user'
        /\ activo user' = false /\ enLinea user' = false
        /\ role user' = role user /\ locales user' = locales user
        /\ localPrincipal user' = localPrincipal user
        /\ email user' = email user /\ cred user' = cred user)
  /\ (forall id, id <> userId ->
        findById id (snd (deleteUser db req userId)) = findById id db).
Proof.
  intros Hs.
  destruct (deleteUser_cases db req userId)
    as [(r & E & Hr) | (user & _ & Hf & E & _)].
  { rewrite E in Hs. cbn in Hs. congruence. }
  rewrite E. cbn [snd]. split; [|split].
  - cbn. apply length_updateOne.
  - exists user. eexists. split; [exact Hf|].
    rewrite findById_update, Hf by (intros; assumption).
    split; [reflexivity|]. repeat split.
  - intros id Hne. apply findById_update_other; [exact Hne | intros; assumption].
Qed.

Lemma deleteUser_soft_witness :
  length (db_users (snd (deleteUser db_base reqRoot "ursula"))) = length (db_users db_base).
Proof. exact (proj1 (deleteUser_soft db_base reqRoot "ursula" eq_refl)). Defined.

(** ** The cap on super administrators, as an invariant *)

Lemma superAdminsCount_write db userId user f :
  findById userId db = Some user ->
  superAdminsCount (findByIdAndUpdate userId f db)
  + b2n (Role_eqb (role user) superAdmin)
  = superAdminsCount db + b2n (Role_eqb (role (f user)) superAdmin).
Proof.
  intros Hf. unfold superAdminsCount, findByIdAndUpdate. cbn [db_users].
  pose proof (count_updateOne (fun u => Role_eqb (role u) superAdmin)
                userId f (db_users db)) as H.
  unfold findById in Hf. rewrite Hf in H. exact H.
Qed.

Lemma superAdminsCount_write_le db id f :
  (forall u, Role_eqb (role (f u)) superAdmin = false) ->
  superAdminsCount (findByIdAndUpdate id f db) <= superAdminsCount db.
Proof.
  intros Hf. unfold superAdminsCount, findByIdAndUpdate. cbn [db_users].
  pose proof (count_updateOne (fun u => Role_eqb (role u) superAdmin)
                id f (db_users db)) as H.
  destruct (find (fun u => _id u =? id) (db_users db)) as [u|];
    [rewrite Hf in H|]; cbn [b2n] in H; lia.
Qed.

Lemma superAdminsCount_create db u :
  superAdminsCount (create u db)
  = superAdminsCount db + b2n (Role_eqb (role u) superAdmin).
Proof.
  unfold superAdminsCount, create. cbn [db_users].
  rewrite filter_app, length_app. cbn.
  destruct (Role_eqb (role u) superAdmin); reflexivity.
Qed.

Lemma superAdminsCount_crear db u :
  superAdminsCount (snd (crear db u))
  <= superAdminsCount db + b2n (Role_eqb (role u) superAdmin).
Proof.
  unfold crear. cbn [snd].
  destruct (Role_eqb (role u) admin) eqn:Er; cbn [andb].
  - destruct (negb _).
    + unfold save. rewrite <- superAdminsCount_create.
      apply superAdminsCount_write_le. intros _. cbn.
      apply Role_eqb_eq in Er. now rewrite Er.
    + now rewrite superAdminsCount_create.
  - now rewrite superAdminsCount_create.
Qed.

Section CapInvariant.

Variable puedeAdministrar : Req -> User -> list Local -> bool.
Variable crearSuperAdminInicial : string -> string -> string -> DB -> DB.

(** X7.  No creation and no update takes the number of super administrators
    above four, whoever asks and whatever the body: from a state within
    the cap, [createUser] and [updateUser] lead to a state within the cap,
    and so does [initSuperAdmin] once a super administrator exists. *)
Theorem superAdmin_cap_kept db req :
  superAdminsCount db <= MAX_SUPER_ADMINS ->
  (forall body nuevoId,
     superAdminsCount (snd (createUser db req body nuevoId)) <= MAX_SUPER_ADMINS)
  /\ (forall userId d,
        superAdminsCount (snd (updateUser puedeAdministrar db req userId d))
        <= MAX_SUPER_ADMINS)
  /\ (forall n e p nuevoId ahora,
        1 <= superAdminsCount db ->
        superAdminsCount (snd (initSuperAdmin crearSuperAdminInicial db n e p nuevoId ahora))
        <= MAX_SUPER_ADMINS).
Proof.
  intros Hcap. split; [|split].
  - intros body nuevoId.
    destruct (Nat.le_gt_cases MAX_SUPER_ADMINS (superAdminsCount db)) as [Hc|Hc].
    + destruct (c_role body) as [[]|] eqn:Hr.
      3:{ now rewrite (createUser_cap _ _ _ _ Hr Hc). }
      all: destruct (createUser_cases db req body nuevoId) as [E|(r & E & _)];
        rewrite E; [|exact Hcap].
      all: etransitivity; [apply superAdminsCount_crear|]; cbn; rewrite Hr; cbn; lia.
    + destruct (createUser_cases db req body nuevoId) as [E|(r & E & _)];
        rewrite E; [|exact Hcap].
      etransitivity; [apply superAdminsCount_crear|].
      destruct (Role_eqb _ superAdmin); cbn [b2n]; lia.
  - intros userId d.
    destruct (updateUser_cases puedeAdministrar db req userId d)
      as [(r & E & _) | (user & d1 & Hf & Hd & E)]; rewrite E; [exact Hcap|].
    cbn [snd].
    pose proof (superAdminsCount_write db userId user
                  (applySet (prepararSet req (populate db (locales user)) d1)) Hf) as W.
    cbn [applySet role] in W. rewrite prepararSet_role in W.
    destruct (Role_eqb (role user) superAdmin) eqn:Eu; cbn [b2n] in W.
    + destruct (Role_eqb (opt (u_role d1) (role user)) superAdmin); cbn [b2n] in W; lia.
    + destruct (Role_eqb (opt (u_role d1) (role user)) superAdmin) eqn:En;
        cbn [b2n] in W; [|lia].
      destruct (Nat.le_gt_cases MAX_SUPER_ADMINS (superAdminsCount db)) as [Hc|Hc]; [|lia].
      exfalso.
      assert (Hr1 : u_role d1 = Some superAdmin).
      { destruct (u_role d1) as [r1|]; cbn in En; [|congruence].
        apply Role_eqb_eq in En. now subst. }
      assert (Hr : u_role d = Some superAdmin).
      { destruct Hd as [-> | [_ ->]]; [exact Hr1 | discriminate]. }
      apply Role_eqb_neq in Eu.
      rewrite (updateUser_cap puedeAdministrar _ req _ _ _ Hr Hf Eu Hc) in E.
      discriminate.
  - intros n e p nuevoId ahora H1. unfold initSuperAdmin.
    rewrite count_superAdmins.
    destruct (Nat.leb_spec MAX_SUPER_ADMINS (superAdminsCount db)) as [Hc|Hc];
      [exact Hcap|].
    destruct (Nat.eqb_spec (superAdminsCount db) 0) as [H0|H0]; [lia|].
    cbn [snd]. rewrite superAdminsCount_create. cbn. lia.
Qed.

End CapInvariant.

Lemma superAdmin_cap_kept_witness :
  superAdminsCount (snd (createUser db_lleno reqRoot altaSuperAdmin "eva"))
  <= MAX_SUPER_ADMINS
  /\ superAdminsCount
       (snd (initSuperAdmin crearInicial_ninguno db_base "eva" "eva@evolution"
                            "secreto" "eva" 1000))
     <= MAX_SUPER_ADMINS.
Proof.
  assert (H : superAdminsCount db_lleno <= MAX_SUPER_ADMINS) by (vm_compute; lia).
  assert (H' : superAdminsCount db_base <= MAX_SUPER_ADMINS) by (vm_compute; lia).
  assert (H1 : 1 <= superAdminsCount db_base) by (vm_compute; lia).
  split.
  - exact (proj1 (superAdmin_cap_kept puedeAdministrar_spec crearInicial_ninguno
                    db_lleno reqRoot H) altaSuperAdmin "eva").
  - exact (proj2 (proj2 (superAdmin_cap_kept puedeAdministrar_spec crearInicial_ninguno
                           db_base reqRoot H'))
                 "eva" "eva@evolution" "secreto" "eva" 1000 H1).
Defined.

(** ** Updates by a super administrator *)

Lemma prepararSet_stamp req ls d :
  u_ultimaModificacion (prepararSet req ls d)
  = Some (mkModificacion (req_userId req) (req_now req)).
Proof.
  unfold prepararSet; cbn.
  destruct (esRol (u_role d) admin && _); cbn;
    destruct (noVacio (u_locales d)); reflexivity.
Qed.

Lemma prepararSet_locales req ls d : u_locales (prepararSet req ls d) = u_locales d.
Proof.
  unfold prepararSet; cbn.
  destruct (esRol (u_role d) admin && _); cbn;
    destruct (noVacio (u_locales d)); reflexivity.
Qed.

Lemma prepararSet_principal req ls d :
  noVacio (u_locales d) = true ->
  u_localPrincipal (prepararSet req ls d) = hd_error (opt (u_locales d) []).
Proof.
  intros Hl. unfold prepararSet; cbn.
  destruct (esRol (u_role d) admin && _); cbn; rewrite Hl; reflexivity.
Qed.

Section SuperAdminUpdates.

Variable puedeAdministrar : Req -> User -> list Local -> bool.

(** An update by a super administrator that passes the cap check, names a
    locale when it makes an administrator, and names existing locales only,
    goes through. *)
Lemma updateUser_superAdmin_ok db req userId d user :
  req_userRole req = superAdmin ->
  findById userId db = Some user ->
  (u_role d = Some superAdmin ->
     role user = superAdmin \/ superAdminsCount db < MAX_SUPER_ADMINS) ->
  (u_role d = Some admin ->
     noVacio (u_locales d) = true \/ populate db (locales user) <> []) ->
  localesExisten db (opt (u_locales d) []) = true ->
  updateUser puedeAdministrar db req userId d =
    (exito 200 (Some UsuarioActualizado)
       (DUser (applySet (prepararSet req (populate db (locales user)) d) user)),
     findByIdAndUpdate userId
       (applySet (prepararSet req (populate db (locales user)) d)) db).
Proof.
  intros Ha Hf Hc Hl He. unfold updateUser. rewrite Hf, count_superAdmins, Ha.
  match goal with
  | |- context [bind ?m _] => assert (Hm : m = Sigue tt)
  end.
  { destruct (esRol (u_role d) superAdmin) eqn:Er; [|reflexivity].
    assert (Hr : u_role d = Some superAdmin)
      by (destruct (u_role d) as [[]|]; try discriminate; reflexivity).
    destruct (Hc Hr) as [H|H]; [now rewrite H|].
    apply Nat.leb_gt in H. now rewrite H, andb_false_r. }
  rewrite Hm. cbn -[prepararSet findById findByIdAndUpdate].
  assert (G : esRol (u_role d) admin && negb (noVacio (u_locales d))
              && Nat.eqb (length (populate db (locales user))) 0 = false).
  { destruct (esRol (u_role d) admin) eqn:Er; [|reflexivity].
    assert (Hr : u_role d = Some admin)
      by (destruct (u_role d) as [[]|]; try discriminate; reflexivity).
    destruct (Hl Hr) as [H|H]; [now rewrite H|].
    destruct (populate db (locales user)); [contradiction|]. apply andb_false_r. }
  rewrite G. cbn -[prepararSet findById findByIdAndUpdate].
  assert (V : match u_locales d with
              | Some ls => verificarLocales db ls
              | None => Sigue tt
              end = Sigue tt).
  { destruct (u_locales d); [|reflexivity]. now apply verificarLocales_ok. }
  rewrite V. cbn -[prepararSet findById findByIdAndUpdate].
  rewrite !andb_false_r. cbn -[prepararSet findById findByIdAndUpdate].
  rewrite findById_update, Hf by (intros; assumption). reflexivity.
Qed.

(** X8.  [updateUser] carries no guard of the last super administrator: a super
    administrator's update that gives another role to a super administrator
    succeeds whatever their number, and one fewer user holds the role
    afterwards (one fewer active one, if the target was active). *)
Theorem updateUser_demotes_superAdmin db req userId d user r :
  req_userRole req = superAdmin ->
  findById userId db = Some user ->
  role user = superAdmin ->
  u_role d = Some r ->
  r <> superAdmin ->
  (r = admin -> noVacio (u_locales d) = true \/ populate db (locales user) <> []) ->
  localesExisten db (opt (u_locales d) []) = true ->
  success (fst (updateUser puedeAdministrar db req userId d)) = true
  /\ option_map role (findById userId (snd (updateUser puedeAdministrar db req userId d)))
     = Some r
  /\ superAdminsCount (snd (updateUser puedeAdministrar db req userId d)) + 1
     = superAdminsCount db
  /\ (activo user = true ->
        superAdminsActivos (snd (updateUser puedeAdministrar db req userId d)) + 1
        = superAdminsActivos db).
Proof.
  intros Ha Hf Hu Hr Hne Hl He.
  assert (Hc1 : u_role d = Some superAdmin ->
                role user = superAdmin \/ superAdminsCount db < MAX_SUPER_ADMINS)
    by (intros _; now left).
  assert (Hc2 : u_role d = Some admin ->
                noVacio (u_locales d) = true \/ populate db (locales user) <> [])
    by (rewrite Hr; intros [= ->]; now apply Hl).
  rewrite (updateUser_superAdmin_ok db req userId d user Ha Hf Hc1 Hc2 He).
  cbn [fst snd success exito]. split; [reflexivity|]. split; [|split].
  - rewrite findById_update, Hf by (intros; assumption).
    cbn [option_map applySet role]. now rewrite prepararSet_role, Hr.
  - pose proof (superAdminsCount_write db userId user
                  (applySet (prepararSet req (populate db (locales user)) d)) Hf) as W.
    cbn [applySet role] in W. rewrite prepararSet_role, Hr, Hu in W. cbn [opt] in W.
    apply Role_eqb_neq in Hne. rewrite Hne in W. cbn [b2n Role_eqb andb] in W. lia.
  - intros Hact.
    pose proof (superAdminsActivos_write db userId user
                  (applySet (prepararSet req (populate db (locales user)) d)) Hf) as W.
    cbn [applySet role activo] in W. rewrite prepararSet_role, Hr, Hu, Hact in W.
    cbn [opt] in W. apply Role_eqb_neq in Hne. rewrite Hne in W. cbn [b2n Role_eqb andb] in W. lia.
Qed.

(** X9.  Making an administrator needs a locale: a super administrator's update
    with the role [admin], no locale in its body and none on the target is
    answered 400 and writes nothing; with existing locales in its body it
    goes through, and the target ends an administrator of those locales,
    the first of them principal, and flagged. *)
Theorem updateUser_admin_needs_local db req userId d user :
  req_userRole req = superAdmin ->
  findById userId db = Some user ->
  u_role d = Some admin ->
  (noVacio (u_locales d) = false ->
   populate db (locales user) = [] ->
     updateUser puedeAdministrar db req userId d = (fallo 400 DebeAsignarLocal, db))
  /\
  (noVacio (u_locales d) = true ->
   localesExisten db (opt (u_locales d) []) = true ->
     exists user',
       findById userId (snd (updateUser puedeAdministrar db req userId d)) = Some user'
       /\ role user' = admin
       /\ locales user' = opt (u_locales d) []
       /\ localPrincipal user' = hd_error (opt (u_locales d) [])
       /\ esAdministradorLocal user' = true).
Proof.
  intros Ha Hf Hr. split.
  - intros Hl Hp. unfold updateUser. rewrite Hf, Ha, Hr.
    cbn [esRol Role_eqb bind buscar]. rewrite Hl, Hp. reflexivity.
  - intros Hl He.
    assert (Hc1 : u_role d = Some superAdmin ->
                  role user = superAdmin \/ superAdminsCount db < MAX_SUPER_ADMINS)
      by (rewrite Hr; discriminate).
    assert (Hc2 : u_role d = Some admin ->
                  noVacio (u_locales d) = true \/ populate db (locales user) <> [])
      by (intros _; now left).
    rewrite (updateUser_superAdmin_ok db req userId d user Ha Hf Hc1 Hc2 He).
    cbn [snd]. eexists. rewrite findById_update, Hf by (intros; assumption).
    split; [reflexivity|].
    cbn [applySet role locales localPrincipal esAdministradorLocal].
    rewrite prepararSet_role, Hr, prepararSet_locales, (prepararSet_principal _ _ _ Hl),
      (prepararSet_flag req _ _ Hr (or_introl Hl)).
    destruct (u_locales d) as [[|l ls]|]; try discriminate. repeat split.
Qed.

(** X10.  An update that goes through writes one document: the collection keeps
    its length, every other document is as it was, and the target carries
    the actor and the clock as its last modification, whatever the body
    said about it. *)
Theorem updateUser_frame db req userId d :
  success (fst (updateUser puedeAdministrar db req userId d)) = true ->
  length (db_users (snd (updateUser puedeAdministrar db req userId d)))
  = length (db_users db)
  /\ (forall id, id <> userId ->
        findById id (snd (updateUser puedeAdministrar db req userId d)) = findById id db)
  /\ option_map ultimaModificacion
       (findById userId (snd (updateUser puedeAdministrar db req userId d)))
     = Some (Some (mkModificacion (req_userId req) (req_now req))).
Proof.
  intros Hs.
  destruct (updateUser_cases puedeAdministrar db req userId d)
    as [(r & E & Hr) | (user & d1 & Hf & _ & E)].
  { rewrite E in Hs. cbn in Hs. congruence. }
  rewrite E. cbn [snd]. split; [|split].
  - cbn. apply length_updateOne.
  - intros id Hne. apply findById_update_other; [exact Hne | intros; assumption].
  - rewrite findById_update, Hf by (intros; assumption).
    cbn [option_map applySet ultimaModificacion]. now rewrite prepararSet_stamp.
Qed.

End SuperAdminUpdates.

Lemma updateUser_demotes_superAdmin_witness :
  superAdminsCount (snd (updateUser puedeAdministrar_spec db_unico reqRoot "root1"
                                    (conRol usuario))) + 1
  = superAdminsCount db_unico
  /\ superAdminsActivos (snd (updateUser puedeAdministrar_spec db_unico reqRoot "root1"
                                         (conRol usuario))) + 1
     = superAdminsActivos db_unico.
Proof.
  assert (Hne : usuario <> superAdmin) by discriminate.
  assert (Hl : usuario = admin ->
               noVacio (u_locales (conRol usuario)) = true
               \/ populate db_unico (locales root1) <> []) by discriminate.
  destruct (updateUser_demotes_superAdmin puedeAdministrar_spec db_unico reqRoot
              "root1" (conRol usuario) root1 usuario
              eq_refl eq_refl eq_refl eq_refl Hne Hl eq_refl) as (_ & _ & H3 & H4).
  split; [exact H3 | apply H4; reflexivity].
Defined.

Lemma updateUser_admin_needs_local_witness :
  updateUser puedeAdministrar_spec db_carla reqRoot "carla" (conRol admin)
  = (fallo 400 DebeAsignarLocal, db_carla)
  /\ exists user',
       findById "carla" (snd (updateUser puedeAdministrar_spec db_carla reqRoot "carla"
                                         asciendeConLocales)) = Some user'
       /\ locales user' = ["L1"] /\ localPrincipal user' = Some "L1".
Proof.
  destruct (updateUser_admin_needs_local puedeAdministrar_spec db_carla reqRoot
              "carla" (conRol admin) carla eq_refl eq_refl eq_refl) as [H1 _].
  destruct (updateUser_admin_needs_local puedeAdministrar_spec db_carla reqRoot
              "carla" asciendeConLocales carla eq_refl eq_refl eq_refl) as [_ H2].
  split; [apply H1; reflexivity|].
  destruct (H2 eq_refl eq_refl) as (u & E1 & _ & E3 & E4 & _).
  exists u. split; [exact E1|]. split; [exact E3 | exact E4].
Defined.

Lemma updateUser_frame_witness :
  length (db_users (snd (updateUser puedeAdministrar_spec db_base reqAna "ursula"
                                    renombraYRelocaliza)))
  = length (db_users db_base).
Proof.
  exact (proj1 (updateUser_frame puedeAdministrar_spec db_base reqAna "ursula"
                  renombraYRelocaliza eq_refl)).
Defined.

(** ** The locales of an administrator: shapes and invariants *)

Lemma inList_In x ls : inList x ls = true <-> In x ls.
Proof.
  unfold inList. rewrite existsb_exists. split.
  - intros (y & Hy & E). apply String.eqb_eq in E. now subst.
  - intros H. exists x. split; [exact H | apply String.eqb_refl].
Qed.

Lemma inList_not_In x ls : inList x ls = false <-> ~ In x ls.
Proof.
  rewrite <- inList_In. destruct (inList x ls); split; congruence.
Qed.

Lemma assignLocalToAdmin_cases db adminId X :
  (exists r, assignLocalToAdmin db adminId X = (r, db) /\ success r = false)
  \/
  (exists a x,
     adminDe adminId db = Some a /\ X = Some x /\ x <> ""
     /\ ~ In x (locales a) /\ Local_findById x db <> None
     /\ assignLocalToAdmin db adminId X =
        let a1 := set_locales (locales a ++ [x]) a in
        let a2 := if Nat.eqb (length (locales a1)) 1
                  then set_localPrincipal (Some x) a1 else a1 in
        (exito 200 (Some LocalAsignado) (DAdmin (_id a2) (locales a2) (localPrincipal a2)),
         save a2 db)).
Proof.
  unfold ObjectId in *.
  destruct X as [x|]; [|left; eexists; split; reflexivity].
  destruct (String.eqb_spec x "") as [->|Hx]; [left; eexists; split; reflexivity|].
  destruct (adminDe adminId db) as [a|] eqn:Hf.
  2:{ left. eexists. split; [|shelve].
      unfold assignLocalToAdmin, adminDe in *. rewrite (truthy_Some _ Hx), Hf.
      reflexivity. Unshelve. reflexivity. }
  destruct (Local_findById x db) as [l|] eqn:Hl.
  2:{ left. eexists. split; [|shelve].
      unfold assignLocalToAdmin, adminDe in *. rewrite (truthy_Some _ Hx), Hf.
      cbn. rewrite Hl. reflexivity. Unshelve. reflexivity. }
  destruct (inList x (locales a)) eqn:Hin.
  { left. eexists. split; [|shelve].
    unfold assignLocalToAdmin, adminDe in *. rewrite (truthy_Some _ Hx), Hf.
    cbn. rewrite Hl. cbn. rewrite Hin. reflexivity. Unshelve. reflexivity. }
  right. exists a, x. split; [reflexivity|]. split; [reflexivity|]. split; [exact Hx|].
  split; [now apply inList_not_In|]. split; [congruence|].
  apply assignLocalToAdmin_ok; [exact Hf | exact Hx | congruence | exact Hin].
Qed.

Lemma removeLocalFromAdmin_cases db adminId X :
  (exists r, removeLocalFromAdmin db adminId X = (r, db) /\ success r = false)
  \/
  (exists a,
     adminDe adminId db = Some a /\ In X (locales a) /\ length (locales a) <> 1
     /\ removeLocalFromAdmin db adminId X =
        let a1 := set_locales (filter (fun id => negb (id =? X)) (locales a)) a in
        let a2 := if match localPrincipal a1 with
                     | Some p => p =? X
                     | None => false
                     end
                  then set_localPrincipal (hd_error (locales a1)) a1 else a1 in
        (exito 200 (Some LocalEliminado) (DAdmin (_id a2) (locales a2) (localPrincipal a2)),
         save a2 db)).
Proof.
  destruct (adminDe adminId db) as [a|] eqn:Hf.
  2:{ left. eexists. split; [|shelve].
      unfold removeLocalFromAdmin, adminDe in *. rewrite Hf. reflexivity.
      Unshelve. reflexivity. }
  destruct (inList X (locales a)) eqn:Hin.
  2:{ left. eexists. split; [|shelve].
      unfold removeLocalFromAdmin, adminDe in *. rewrite Hf. cbn. rewrite Hin.
      reflexivity. Unshelve. reflexivity. }
  destruct (Nat.eqb_spec (length (locales a)) 1) as [H1|H1].
  { left. eexists. split; [|shelve].
    unfold removeLocalFromAdmin, adminDe in *. rewrite Hf. cbn. rewrite Hin. cbn.
    apply Nat.eqb_eq in H1. rewrite H1. reflexivity. Unshelve. reflexivity. }
  right. exists a. split; [reflexivity|]. split; [now apply inList_In|].
  split; [exact H1|]. now apply removeLocalFromAdmin_ok.
Qed.

Lemma setAdminPrimaryLocal_cases db adminId X :
  (exists r, setAdminPrimaryLocal db adminId X = (r, db) /\ success r = false)
  \/
  (exists a,
     adminDe adminId db = Some a /\ In X (locales a)
     /\ setAdminPrimaryLocal db adminId X =
        (exito 200 (Some PrincipalEstablecido)
               (DAdmin (_id a) (locales a) (Some X)),
         save (set_localPrincipal (Some X) a) db)).
Proof.
  unfold setAdminPrimaryLocal, adminDe.
  destruct (findOne (filtroAdmin adminId) db) as [a|] eqn:Hf; cbn;
    [|left; eexists; split; reflexivity].
  destruct (inList X (locales a)) eqn:Hin; cbn;
    [|left; eexists; split; reflexivity].
  right. exists a. split; [reflexivity|]. split; [now apply inList_In | reflexivity].
Qed.

(** A property of every document survives a write of one document that
    has it. *)
Lemma todos_save (P : User -> Prop) a db :
  todos P db -> P a -> todos P (save a db).
Proof.
  intros Hall Ha u Hu. unfold save, findByIdAndUpdate in Hu. cbn [db_users] in Hu.
  apply In_updateOne in Hu. destruct Hu as [Hu | (v & _ & ->)]; [now apply Hall | exact Ha].
Qed.

Lemma todos_update (P : User -> Prop) id f db :
  todos P db -> (forall u, P u -> P (f u)) -> todos P (findByIdAndUpdate id f db).
Proof.
  intros Hall Hf u Hu. unfold findByIdAndUpdate in Hu. cbn [db_users] in Hu.
  apply In_updateOne in Hu.
  destruct Hu as [Hu | (v & Hv & ->)]; [now apply Hall | apply Hf; now apply Hall].
Qed.

Lemma adminDe_In adminId db a : adminDe adminId db = Some a -> In a (db_users db).
Proof. unfold adminDe, findOne. intros H. now apply find_some in H. Qed.

(** X11.  The three handlers of the locales keep, on every document, the
    principal locale among the locales: assignment, removal and the choice
    of the principal locale lead from a collection where every document
    with locales has its principal locale among them to another one. *)
Theorem locales_principal_kept db adminId :
  todos principalEnLocales db ->
  (forall X, todos principalEnLocales (snd (assignLocalToAdmin db adminId X)))
  /\ (forall X, todos principalEnLocales (snd (removeLocalFromAdmin db adminId X)))
  /\ (forall X, todos principalEnLocales (snd (setAdminPrimaryLocal db adminId X))).
Proof.
  intros Hall. split; [|split]; intros X.
  - destruct (assignLocalToAdmin_cases db adminId X)
      as [(r & -> & _) | (a & x & Hf & _ & _ & Hnin & _ & ->)]; [exact Hall|].
    cbn [snd]. apply todos_save; [exact Hall|].
    pose proof (Hall a (adminDe_In _ _ _ Hf)) as Ha. intros _.
    destruct (locales a) as [|l0 ls0] eqn:El.
    + cbn. exists x. split; [reflexivity | now left].
    + cbn [set_locales locales length app].
      replace (Nat.eqb (S (length (ls0 ++ [x]))) 1) with false
        by (symmetry; apply Nat.eqb_neq; rewrite length_app; cbn; lia).
      cbn [locales localPrincipal set_locales].
      destruct Ha as (p & Hp & Hin); [rewrite El; discriminate|].
      exists p. split; [exact Hp|]. rewrite El in Hin.
      change (In p ((l0 :: ls0) ++ [x])). apply in_or_app. now left.
  - destruct (removeLocalFromAdmin_cases db adminId X)
      as [(r & -> & _) | (a & Hf & Hin & _ & ->)]; [exact Hall|].
    cbn [snd]. apply todos_save; [exact Hall|].
    pose proof (Hall a (adminDe_In _ _ _ Hf)) as Ha.
    destruct Ha as (p & Hp & Hinp); [intros E; rewrite E in Hin; contradiction|].
    cbn [set_locales localPrincipal]. rewrite Hp.
    destruct (String.eqb_spec p X) as [->|Hne].
    + cbn [set_localPrincipal set_locales locales localPrincipal]. intros Hnz.
      destruct (filter (fun id => negb (id =? X)) (locales a)) as [|y ys];
        [contradiction|].
      exists y. split; [reflexivity | now left].
    + cbn [set_locales locales localPrincipal]. intros _.
      exists p. split; [exact Hp|]. apply filter_In. split; [exact Hinp|].
      apply String.eqb_neq in Hne. now rewrite Hne.
  - destruct (setAdminPrimaryLocal_cases db adminId X)
      as [(r & -> & _) | (a & Hf & Hin & ->)]; [exact Hall|].
    cbn [snd]. apply todos_save; [exact Hall|]. intros _.
    exists X. split; [reflexivity | exact Hin].
Qed.

Lemma todos_principal_db_base : todos principalEnLocales db_base.
Proof.
  intros u [<-|[<-|[<-|[<-|[]]]]]; intros H; cbn in *;
    try contradiction; eexists; (split; [reflexivity | now left]).
Qed.

Lemma locales_principal_kept_witness :
  todos principalEnLocales (snd (assignLocalToAdmin db_base "ana" (Some "L2")))
  /\ todos principalEnLocales (snd (setAdminPrimaryLocal db_base "ana" "L1")).
Proof.
  destruct (locales_principal_kept db_base "ana" todos_principal_db_base) as (H1 & _ & H3).
  split; [apply H1 | apply H3].
Defined.

(** ** The principal locale through the life of a user *)

Section PrincipalLifecycle.

Variable puedeAdministrar : Req -> User -> list Local -> bool.

Ltac paso := cbn -[prepararSet findById findByIdAndUpdate].

(** The body an update writes is the body received, or for an
    administrator that body without [role], [locales] and
    [localPrincipal]. *)
Lemma updateUser_written db req userId d :
  (exists r, updateUser puedeAdministrar db req userId d = (r, db) /\ success r = false)
  \/
  (exists user,
     findById userId db = Some user
     /\ updateUser puedeAdministrar db req userId d
        = let d1 := if Role_eqb (req_userRole req) admin
                    then delete_localPrincipal (delete_locales (delete_role d))
                    else d in
          (exito 200 (Some UsuarioActualizado)
             (DUser (applySet (prepararSet req (populate db (locales user)) d1) user)),
           findByIdAndUpdate userId
             (applySet (prepararSet req (populate db (locales user)) d1)) db)).
Proof.
  unfold updateUser.
  destruct (findById userId db) as [user|] eqn:Hf.
  2:{ left. destruct (esRol (u_role d) superAdmin); cbn; eexists; split; reflexivity. }
  assert (W : forall d1,
    findById userId
      (findByIdAndUpdate userId
         (applySet (prepararSet req (populate db (locales user)) d1)) db)
    = Some (applySet (prepararSet req (populate db (locales user)) d1) user)).
  { intros d1. rewrite findById_update, Hf by (intros; assumption). reflexivity. }
  match goal with
  | |- context [bind ?m _] =>
      assert (Hm : m = Sigue tt \/ m = Responde (fallo 400 LimiteTenerSuperAdmins))
  end.
  { destruct (esRol (u_role d) superAdmin); [|now left].
    destruct (negb _ && _); cbn; [now right | now left]. }
  destruct Hm as [-> | ->]; [|left; eexists; split; reflexivity].
  paso.
  destruct (req_userRole req) eqn:Ha; paso.
  - destruct (esRol (u_role d) superAdmin); paso;
      [left; eexists; split; reflexivity|].
    destruct (Role_eqb (role user) superAdmin); paso;
      [left; eexists; split; reflexivity|].
    right. exists user. rewrite W. auto.
  - destruct (puedeAdministrar req user (populate db (locales user))); paso;
      [|left; eexists; split; reflexivity].
    destruct (Role_eqb (role user) superAdmin); paso;
      [left; eexists; split; reflexivity|].
    right. exists user. rewrite W. auto.
  - destruct (esRol (u_role d) admin && negb (noVacio (u_locales d)) && _); paso;
      [left; eexists; split; reflexivity|].
    destruct (match u_locales d with
              | Some ls => verificarLocales db ls
              | None => Sigue tt
              end) as [r|[]] eqn:V; paso.
    + left. exists r. split; [reflexivity|].
      destruct (u_locales d) as [ls|]; [|discriminate]. clear -V.
      induction ls as [|l ls IH]; cbn in V; [discriminate|].
      destruct (Local_findById l db); [now apply IH | now inversion V].
    + rewrite !andb_false_r. paso.
      right. exists user. rewrite W. auto.
Qed.

Lemma applySet_principal req ls d u :
  u_localPrincipal d = None \/ u_locales d <> None ->
  principalEnLocales u ->
  principalEnLocales (applySet (prepararSet req ls d) u).
Proof.
  intros Hd Hu. unfold principalEnLocales.
  cbn [applySet locales localPrincipal]. rewrite prepararSet_locales.
  destruct (u_locales d) as [[|l rest]|] eqn:El; cbn [opt].
  - congruence.
  - intros _. rewrite prepararSet_principal by (rewrite El; reflexivity).
    rewrite El. cbn. exists l. split; [reflexivity | now left].
  - destruct Hd as [Hd | Hd]; [|congruence].
    assert (E : u_localPrincipal (prepararSet req ls d) = None).
    { unfold prepararSet; cbn.
      destruct (esRol (u_role d) admin && _); cbn; rewrite El; cbn; exact Hd. }
    rewrite E. exact Hu.
Qed.

(** X12.  The handlers of the life of a user keep, on every document, the
    principal locale among the locales: a creation stores a document whose
    principal locale is the first of its locales; deletion, status change
    and password reset touch neither field; and an update keeps the
    property unless its body names a principal locale and no locales (the
    body of an administrator never does, both keys being dropped). *)
Theorem lifecycle_principal_kept db req :
  todos principalEnLocales db ->
  (forall body nuevoId,
     todos principalEnLocales (snd (createUser db req body nuevoId)))
  /\ (forall userId, todos principalEnLocales (snd (deleteUser db req userId)))
  /\ (forall userId b, todos principalEnLocales (snd (toggleUserStatus db req userId b)))
  /\ (forall userId p, todos principalEnLocales (snd (resetUserPassword db req userId p)))
  /\ (forall userId d,
        u_localPrincipal d = None \/ u_locales d <> None \/ req_userRole req = admin ->
        todos principalEnLocales (snd (updateUser puedeAdministrar db req userId d))).
Proof.
  intros Hall. split; [|split; [|split; [|split]]].
  - intros body nuevoId.
    destruct (createUser_cases db req body nuevoId) as [-> | (r & -> & _)];
      [|exact Hall].
    set (nu := nuevoUsuario nuevoId req body (c_locales body)).
    assert (H : principalEnLocales nu).
    { unfold principalEnLocales, nu. cbn.
      destruct (c_locales body) as [[|l ls]|]; cbn; try congruence.
      intros _. exists l. split; [reflexivity | now left]. }
    assert (Hc : todos principalEnLocales (create nu db)).
    { intros u Hu. cbn in Hu. apply in_app_iff in Hu.
      destruct Hu as [Hu | [<- | []]]; [now apply Hall | exact H]. }
    unfold crear. cbn [snd]. fold nu.
    destruct (Role_eqb (role nu) admin && _); [|exact Hc].
    apply todos_save; [exact Hc | exact H].
  - intros userId.
    destruct (deleteUser_cases db req userId) as [(r & -> & _) | (user & _ & _ & -> & _)];
      [exact Hall|].
    cbn [snd]. apply todos_update; [exact Hall|]. intros u Hu. exact Hu.
  - intros userId b.
    destruct (toggleUserStatus_cases db req userId b)
      as [(r & -> & _) | (user & Hf & -> & _)]; [exact Hall|].
    cbn [snd]. apply todos_save; [exact Hall|].
    assert (Hin : In user (db_users db))
      by (unfold findById in Hf; now apply find_some in Hf).
    exact (Hall user Hin).
  - intros userId p. unfold resetUserPassword.
    destruct (findById userId db) as [user|] eqn:Hf; [|exact Hall].
    destruct (Role_eqb (req_userRole req) admin && _); [exact Hall|].
    destruct (Role_eqb (req_userRole req) admin && _); [exact Hall|].
    cbn [snd]. apply todos_save; [exact Hall|].
    assert (Hin : In user (db_users db))
      by (unfold findById in Hf; now apply find_some in Hf).
    exact (Hall user Hin).
  - intros userId d Hd.
    destruct (updateUser_written db req userId d)
      as [(r & -> & _) | (user & Hf & ->)]; [exact Hall|].
    cbn [snd]. apply todos_update; [exact Hall|]. intros u Hu.
    apply applySet_principal; [|exact Hu].
    destruct (Role_eqb (req_userRole req) admin) eqn:Ea; [now left|].
    destruct Hd as [H | [H | H]]; [now left | now right|].
    rewrite H in Ea. discriminate.
Qed.

End PrincipalLifecycle.

Lemma lifecycle_principal_kept_witness :
  todos principalEnLocales (snd (createUser db_base reqRoot altaAdmin "dora"))
  /\ todos principalEnLocales
       (snd (updateUser puedeAdministrar_spec db_base reqRoot "ursula" asciendeConLocales)).
Proof.
  destruct (lifecycle_principal_kept puedeAdministrar_spec db_base reqRoot
              todos_principal_db_base) as (H1 & _ & _ & _ & H5).
  split; [apply H1 | apply H5; right; left; discriminate].
Defined.

(** ** Removal leaves a locale; assignment and removal undo each other *)

Lemma filter_distinto_length X ls :
  NoDup ls -> In X ls ->
  length (filter (fun id => negb (id =? X)) ls) + 1 = length ls.
Proof.
  induction ls as [|y rest IH]; cbn; [contradiction|].
  intros Hnd [->|Hin]; inversion Hnd as [|? ? Hny Hnd']; subst.
  - rewrite String.eqb_refl. cbn.
    assert (E : filter (fun id => negb (id =? X)) rest = rest).
    { clear -Hny. induction rest as [|z r IHr]; cbn; [reflexivity|].
      destruct (String.eqb_spec z X) as [->|Hz]; cbn.
      - exfalso. apply Hny. now left.
      - f_equal. apply IHr. intros H. apply Hny. now right. }
    rewrite E. lia.
  - destruct (String.eqb_spec y X) as [->|Hy]; [contradiction|]. cbn.
    rewrite <- (IH Hnd' Hin). lia.
Qed.

Lemma filter_distinto_id X ls :
  ~ In X ls -> filter (fun id => negb (id =? X)) ls = ls.
Proof.
  induction ls as [|z r IH]; cbn; [reflexivity|]. intros Hn.
  destruct (String.eqb_spec z X) as [->|Hz]; cbn.
  - exfalso. apply Hn. now left.
  - f_equal. apply IH. intros H. apply Hn. now right.
Qed.

(** X13.  On locales without repetition, an assignment keeps them without
    repetition, and a removal that goes through takes exactly the locale
    named and leaves at least one: the administrator is never left without
    a locale. *)
Theorem locales_never_emptied db adminId a :
  adminDe adminId db = Some a ->
  NoDup (locales a) ->
  (forall X a',
     adminDe adminId (snd (assignLocalToAdmin db adminId X)) = Some a' ->
     NoDup (locales a') /\ length (locales a) <= length (locales a'))
  /\
  (forall X,
     success (fst (removeLocalFromAdmin db adminId X)) = true ->
     exists a',
       adminDe adminId (snd (removeLocalFromAdmin db adminId X)) = Some a'
       /\ NoDup (locales a')
       /\ ~ In X (locales a')
       /\ length (locales a') + 1 = length (locales a)
       /\ locales a' <> []).
Proof.
  intros Hf Hnd. destruct (adminDe_inv _ _ _ Hf) as [Hid Hrole]. split.
  - intros X a' Ha'.
    destruct (assignLocalToAdmin_cases db adminId X)
      as [(r & E & _) | (a0 & x & Hf0 & _ & _ & Hnin & _ & E)]; rewrite E in Ha'.
    + cbn in Ha'. rewrite Hf in Ha'. injection Ha' as <-. auto.
    + rewrite Hf in Hf0. injection Hf0 as <-. cbn [snd] in Ha'.
      set (a2 := if Nat.eqb (length (locales (set_locales (locales a ++ [x]) a))) 1
                 then set_localPrincipal (Some x) (set_locales (locales a ++ [x]) a)
                 else set_locales (locales a ++ [x]) a) in *.
      assert (Hl2 : locales a2 = locales a ++ [x])
        by (unfold a2; destruct (Nat.eqb _ 1); reflexivity).
      assert (Hi2 : _id a2 = adminId)
        by (unfold a2; destruct (Nat.eqb _ 1); exact Hid).
      assert (Hr2 : role a2 = admin)
        by (unfold a2; destruct (Nat.eqb _ 1); exact Hrole).
      rewrite (adminDe_save _ _ _ _ Hf Hi2 Hr2) in Ha'. injection Ha' as <-.
      rewrite Hl2. split.
      * apply NoDup_app; [exact Hnd | repeat constructor; intros [] |].
        intros y Hy [<-|[]]. contradiction.
      * rewrite length_app. lia.
  - intros X Hs.
    destruct (removeLocalFromAdmin_cases db adminId X)
      as [(r & E & Hr) | (a0 & Hf0 & Hin & Hlen & E)]; rewrite E in *.
    { cbn in Hs. congruence. }
    rewrite Hf in Hf0. injection Hf0 as <-. cbn [snd].
    set (a1 := set_locales (filter (fun id => negb (id =? X)) (locales a)) a) in *.
    set (a2 := if match localPrincipal a1 with
                  | Some p => p =? X
                  | None => false
                  end
               then set_localPrincipal (hd_error (locales a1)) a1 else a1) in *.
    assert (Hl2 : locales a2 = filter (fun id => negb (id =? X)) (locales a))
      by (unfold a2; destruct (match localPrincipal a1 with Some _ => _ | None => _ end);
          reflexivity).
    assert (Hi2 : _id a2 = adminId)
      by (unfold a2; destruct (match localPrincipal a1 with Some _ => _ | None => _ end);
          exact Hid).
    assert (Hr2 : role a2 = admin)
      by (unfold a2; destruct (match localPrincipal a1 with Some _ => _ | None => _ end);
          exact Hrole).
    exists a2. split; [now apply adminDe_save with (a := a)|].
    rewrite Hl2. pose proof (filter_distinto_length X _ Hnd Hin) as Hlen'.
    split; [now apply NoDup_filter|]. split; [|split; [exact Hlen'|]].
    + intros H. apply filter_In in H. destruct H as [_ H].
      rewrite String.eqb_refl in H. discriminate.
    + intros E0. rewrite E0 in Hlen'. cbn in Hlen'. exact (Hlen (eq_sym Hlen')).
Qed.

Lemma locales_never_emptied_witness :
  exists a',
    adminDe "beto" (snd (removeLocalFromAdmin db_lleno "beto" "L1")) = Some a'
    /\ locales a' <> [].
Proof.
  assert (Hnd : NoDup (locales beto)).
  { repeat constructor; cbn; intuition discriminate. }
  destruct (locales_never_emptied db_lleno "beto" beto eq_refl Hnd) as [_ H].
  destruct (H "L1" eq_refl) as (a' & H1 & _ & _ & _ & H5).
  exists a'. split; [exact H1 | exact H5].
Defined.

(** X14.  Assigning a new locale to an administrator that has locales, and
    removing it again, gives the administrator back as it was; and the
    same locale is not assigned twice: the second request is answered 400
    and writes nothing. *)
Theorem assign_remove_round_trip db adminId a X :
  adminDe adminId db = Some a ->
  locales a <> [] ->
  ~ In X (locales a) ->
  localPrincipal a <> Some X ->
  X <> "" ->
  Local_findById X db <> None ->
  let db1 := snd (assignLocalToAdmin db adminId (Some X)) in
  success (fst (assignLocalToAdmin db adminId (Some X))) = true
  /\ assignLocalToAdmin db1 adminId (Some X) = (fallo 400 LocalYaAsignado, db1)
  /\ success (fst (removeLocalFromAdmin db1 adminId X)) = true
  /\ adminDe adminId (snd (removeLocalFromAdmin db1 adminId X)) = Some a.
Proof.
  intros Hf Hne Hnin Hp Hx HX db1. unfold ObjectId in *.
  destruct (adminDe_inv _ _ _ Hf) as [Hid Hrole].
  pose proof (assignLocalToAdmin_ok db adminId a X Hf Hx HX
                (proj2 (inList_not_In _ _) Hnin)) as E1.
  assert (Hlen : Nat.eqb (length (locales a ++ [X])) 1 = false).
  { apply Nat.eqb_neq. rewrite length_app. cbn.
    destruct (locales a); [contradiction | cbn; lia]. }
  cbn zeta in E1. cbn [locales set_locales] in E1. rewrite Hlen in E1.
  set (a1 := set_locales (locales a ++ [X]) a) in *.
  assert (D1 : db1 = save a1 db) by (unfold db1; now rewrite E1).
  assert (Hf1 : adminDe adminId db1 = Some a1)
    by (rewrite D1; now apply adminDe_save with (a := a)).
  split; [now rewrite E1|]. split; [|].
  - unfold assignLocalToAdmin. unfold ObjectId in *. rewrite (truthy_Some _ Hx).
    unfold adminDe in Hf1. cbn [negb cuando bind opt]. rewrite Hf1. cbn [buscar bind].
    assert (HX1 : Local_findById X db1 <> None) by (rewrite D1; exact HX).
    destruct (Local_findById X db1); [|contradiction]. cbn [buscar bind].
    assert (Hin1 : inList X (locales a1) = true).
    { apply inList_In. cbn. apply in_or_app. right. now left. }
    rewrite Hin1. reflexivity.
  - assert (Hin1 : inList X (locales a1) = true).
    { apply inList_In. cbn. apply in_or_app. right. now left. }
    assert (Hlen1 : length (locales a1) <> 1) by (now apply Nat.eqb_neq).
    pose proof (removeLocalFromAdmin_ok db1 adminId a1 X Hf1 Hin1 Hlen1) as E2.
    unfold ObjectId in E2. cbn zeta in E2. cbn [locales localPrincipal set_locales a1] in E2.
    unfold ObjectId in E2. rewrite filter_app, (filter_distinto_id _ _ Hnin) in E2. cbn [filter] in E2.
    rewrite String.eqb_refl in E2. cbn [negb] in E2. rewrite app_nil_r in E2.
    assert (Hpx : match localPrincipal a with
                  | Some p => p =? X
                  | None => false
                  end = false).
    { destruct (localPrincipal a) as [p|]; [|reflexivity].
      apply String.eqb_neq. intros ->. now apply Hp. }
    unfold ObjectId in *. rewrite Hpx in E2.
    assert (Ea : set_locales (locales a) a1 = a) by (destruct a; reflexivity).
    rewrite Ea in E2. rewrite E2. cbn [fst snd]. split; [reflexivity|].
    apply adminDe_save with (a := a1); assumption.
Qed.

Lemma assign_remove_round_trip_witness :
  adminDe "ana" (snd (removeLocalFromAdmin
                        (snd (assignLocalToAdmin db_base "ana" (Some "L2"))) "ana" "L2"))
  = Some ana.
Proof.
  assert (H1 : locales ana <> []) by discriminate.
  assert (H2 : ~ In "L2" (locales ana)) by (cbn; intuition discriminate).
  assert (H3 : localPrincipal ana <> Some "L2") by discriminate.
  assert (H4 : "L2" <> "") by discriminate.
  assert (H5 : Local_findById "L2" db_base <> None) by discriminate.
  exact (proj2 (proj2 (proj2 (assign_remove_round_trip db_base "ana" ana "L2"
                                eq_refl H1 H2 H3 H4 H5)))).
Defined.

(** ** setAdminPrimaryLocal *)

(** X15.  The principal locale is chosen among the locales assigned: the request
    succeeds exactly when the locale is one of the administrator's, then
    makes it principal and leaves the locales as they are; otherwise it is
    answered 400 and writes nothing.  Asking twice changes nothing more. *)
Theorem setAdminPrimaryLocal_spec db adminId a X :
  adminDe adminId db = Some a ->
  (success (fst (setAdminPrimaryLocal db adminId X)) = true <-> In X (locales a))
  /\ (~ In X (locales a) ->
        setAdminPrimaryLocal db adminId X = (fallo 400 NoPrincipalNoAsignado, db))
  /\ (In X (locales a) ->
        let db1 := snd (setAdminPrimaryLocal db adminId X) in
        adminDe adminId db1 = Some (set_localPrincipal (Some X) a)
        /\ adminDe adminId (snd (setAdminPrimaryLocal db1 adminId X))
           = Some (set_localPrincipal (Some X) a)).
Proof.
  intros Hf. destruct (adminDe_inv _ _ _ Hf) as [Hid Hrole].
  assert (E : setAdminPrimaryLocal db adminId X
              = if inList X (locales a)
                then (exito 200 (Some PrincipalEstablecido)
                            (DAdmin (_id a) (locales a) (Some X)),
                      save (set_localPrincipal (Some X) a) db)
                else (fallo 400 NoPrincipalNoAsignado, db)).
  { unfold setAdminPrimaryLocal. unfold adminDe in Hf. rewrite Hf. cbn [buscar bind].
    destruct (inList X (locales a)); reflexivity. }
  split; [|split].
  - rewrite E, <- inList_In. destruct (inList X (locales a)); cbn; split; congruence.
  - intros Hn. apply inList_not_In in Hn. now rewrite E, Hn.
  - intros Hin db1. apply inList_In in Hin.
    assert (D1 : db1 = save (set_localPrincipal (Some X) a) db)
      by (unfold db1; now rewrite E, Hin).
    assert (Hf1 : adminDe adminId db1 = Some (set_localPrincipal (Some X) a))
      by (rewrite D1; now apply adminDe_save with (a := a)).
    split; [exact Hf1|].
    unfold setAdminPrimaryLocal. unfold adminDe in Hf1. rewrite Hf1. cbn [buscar bind].
    cbn [locales set_localPrincipal]. rewrite Hin. cbn [negb cuando bind responder snd].
    fold (adminDe adminId (save (set_localPrincipal (Some X) (set_localPrincipal (Some X) a)) db1)).
    apply adminDe_save with (a := set_localPrincipal (Some X) a);
      [exact Hf1 | exact Hid | exact Hrole].
Qed.

Lemma setAdminPrimaryLocal_spec_witness :
  adminDe "beto" (snd (setAdminPrimaryLocal db_lleno "beto" "L2"))
  = Some (set_localPrincipal (Some "L2") beto)
  /\ setAdminPrimaryLocal db_base "ana" "L2" = (fallo 400 NoPrincipalNoAsignado, db_base).
Proof.
  destruct (setAdminPrimaryLocal_spec db_lleno "beto" beto "L2" eq_refl) as (_ & _ & H3).
  destruct (setAdminPrimaryLocal_spec db_base "ana" ana "L2" eq_refl) as (_ & H2 & _).
  split.
  - apply H3. cbn. auto.
  - apply H2. cbn. intuition discriminate.
Defined.

(** ** Listings *)

Lemma insertar_sorted u us : descendente us -> descendente (insertar u us).
Proof.
  unfold descendente. induction us as [|v rest IH]; cbn; intros Hs.
  - repeat constructor.
  - destruct (Nat.leb_spec (createdAt v) (createdAt u)) as [Hle|Hgt].
    + constructor; [exact Hs | constructor; exact Hle].
    + inversion Hs as [|? ? Hs' Hhd]; subst. constructor; [now apply IH|].
      destruct rest as [|w rest']; cbn.
      * constructor. lia.
      * destruct (Nat.leb (createdAt w) (createdAt u)); constructor;
          [lia | now inversion Hhd].
Qed.

Lemma sortCreatedDesc_sorted us : descendente (sortCreatedDesc us).
Proof.
  induction us as [|u rest IH]; cbn; [constructor | now apply insertar_sorted].
Qed.


Lemma descendente_firstn n us : descendente us -> descendente (firstn n us).
Proof.
  unfold descendente. revert us. induction n as [|n IH]; intros us Hs; [constructor|].
  destruct us as [|u rest]; [constructor|]. cbn.
  inversion Hs as [|? ? Hs' Hhd]; subst. constructor; [now apply IH|].
  destruct rest as [|v rest']; destruct n; cbn; constructor. now inversion Hhd.
Qed.

Lemma In_firstn {A : Type} n (l : list A) x : In x (firstn n l) -> In x l.
Proof.
  revert l. induction n as [|n IH]; intros [|y rest]; cbn; try tauto.
  intros [->|H]; [now left | right; now apply IH].
Qed.

Lemma In_skipn {A : Type} n (l : list A) x : In x (skipn n l) -> In x l.
Proof.
  revert l. induction n as [|n IH]; intros [|y rest]; cbn; try tauto.
  intros H. right. now apply IH.
Qed.





Section Listings.

Variable regexTest : string -> string -> bool.

Lemma getAllUsers_eq db req q :
  getAllUsers regexTest db req q =
  (exito 200 None
     (DUsers (firstn (parseIntOr (q_limit q) 10)
                (skipn ((parseIntOr (q_page q) 1 - 1) * parseIntOr (q_limit q) 10)
                       (sortCreatedDesc (encontrados regexTest db req q))))
             (mkPagination (length (encontrados regexTest db req q))
                (parseIntOr (q_page q) 1) (parseIntOr (q_limit q) 10)
                (ceilDiv (length (encontrados regexTest db req q))
                         (parseIntOr (q_limit q) 10)))),
   db).
Proof. reflexivity. Qed.

Lemma usersDe_encontrados db req q u :
  In u (usersDe (fst (getAllUsers regexTest db req q))) ->
  In u (encontrados regexTest db req q).
Proof.
  rewrite getAllUsers_eq. cbn [fst usersDe data exito].
  intros Hu. apply In_firstn, In_skipn in Hu.
  now apply (Permutation_in _ (sortCreatedDesc_perm _)) in Hu.
Qed.



(** X18.  Whatever the query string, an administrator is never shown a super
    administrator; and an administrator with locales is only shown users
    that hold one of his locales. *)
Theorem getAllUsers_admin_scope db req q u :
  req_userRole req = admin ->
  In u (usersDe (fst (getAllUsers regexTest db req q))) ->
  role u <> superAdmin
  /\ (noVacio (req_user_locales req) = true ->
        exists l, In l (locales u) /\ enLocalesDelActor req l = true).
Proof.
  intros Ha Hu.
  apply usersDe_encontrados in Hu. unfold encontrados in Hu. apply filter_In in Hu.
  destruct Hu as [_ Hm]. apply andb_prop in Hm. destruct Hm as [Hm _].
  unfold filtrosDe in Hm. rewrite Ha in Hm. unfold matches in Hm. cbn in Hm.
  rewrite !andb_true_r in Hm.
  apply andb_prop in Hm. destruct Hm as [Hm Hloc].
  apply andb_prop in Hm. destruct Hm as [Hrole _].
  split.
  - apply Role_eqb_neq. now destruct (Role_eqb (role u) superAdmin).
  - intros Hl. rewrite Hl in Hloc. cbn in Hloc.
    apply existsb_exists in Hloc. destruct Hloc as (l & Hl1 & Hl2).
    exists l. split; [exact Hl1|].
    unfold enLocalesDelActor. destruct (req_user_locales req) as [ls|]; [|discriminate].
    cbn in Hl2. unfold inList in Hl2.
    apply existsb_exists in Hl2. destruct Hl2 as (y & Hy & E).
    apply existsb_exists. exists y. split; [exact Hy | exact E].
Qed.

End Listings.

Lemma getAllUsers_admin_scope_witness :
  role ursula <> superAdmin
  /\ exists l, In l (locales ursula) /\ enLocalesDelActor reqAna l = true.
Proof.
  assert (Hin : In ursula (usersDe (fst (getAllUsers regex_eq db_lleno reqAna sinConsulta))))
    by (vm_compute; tauto).
  destruct (getAllUsers_admin_scope regex_eq db_lleno reqAna sinConsulta ursula
              eq_refl Hin) as [H1 H2].
  split; [exact H1 | apply H2; reflexivity].
Defined.

(** ** Creation: emails and locales *)

Lemma matches_filtroEmail e u : matches (filtroEmail e) u = (email u =? e).
Proof. unfold matches; cbn. now rewrite !andb_true_r. Qed.

Lemma createUser_email_taken db req body nuevoId x :
  findOne (filtroEmail (c_email body)) db = Some x ->
  exists r, createUser db req body nuevoId = (r, db) /\ success r = false.
Proof.
  intros He. unfold createUser.
  destruct (esRol (c_role body) superAdmin
            && Nat.leb MAX_SUPER_ADMINS (countDocuments filtroSuperAdmins db));
    cbn -[crear]; [eexists; split; reflexivity|].
  destruct (req_userRole req); cbn -[crear].
  - rewrite He. cbn. eexists; split; reflexivity.
  - destruct (match c_role body with
              | Some r => negb (Role_eqb r usuario)
              | None => false
              end); cbn -[crear]; [eexists; split; reflexivity|].
    destruct (noVacio (c_locales body)); cbn -[crear].
    + destruct (forallb _ _); cbn -[crear]; [|eexists; split; reflexivity].
      rewrite He. cbn. eexists; split; reflexivity.
    + rewrite He. cbn. eexists; split; reflexivity.
  - destruct (noVacio (c_locales body)); cbn -[crear].
    + destruct (verificarLocales db (opt (c_locales body) [])) eqn:E; cbn -[crear].
      * exists r. split; [reflexivity|].
        clear -E. induction (opt (c_locales body) []) as [|l ls IH]; cbn in E;
          [discriminate|].
        destruct (Local_findById l db); [now apply IH | now inversion E].
      * rewrite He. cbn. eexists; split; reflexivity.
    + rewrite He. cbn. eexists; split; reflexivity.
Qed.

(** X19.  [createUser] never stores a second document under an email: from a
    collection where emails are unique, a creation (under a fresh
    identifier) leads to a collection where they are. *)
Theorem createUser_emails_unicos db req body nuevoId :
  emailsUnicos db ->
  findById nuevoId db = None ->
  emailsUnicos (snd (createUser db req body nuevoId)).
Proof.
  intros Hu Hid.
  destruct (findOne (filtroEmail (c_email body)) db) as [x|] eqn:He.
  { destruct (createUser_email_taken db req body nuevoId x He) as (r & -> & _).
    exact Hu. }
  destruct (createUser_cases db req body nuevoId) as [-> | (r & -> & _)]; [|exact Hu].
  set (nu := nuevoUsuario nuevoId req body (c_locales body)).
  assert (Hn : findById (_id nu) db = None) by exact Hid.
  destruct (crear_fresh db nu Hn) as (u' & -> & Eu). cbn [snd].
  assert (Hem : email u' = c_email body).
  { rewrite Eu. destruct (Role_eqb (role nu) admin && _); reflexivity. }
  unfold emailsUnicos, create in *. cbn [db_users]. rewrite map_app. cbn [map].
  apply NoDup_app; [exact Hu | repeat constructor; intros [] |].
  intros e Hin [<-|[]]. rewrite Hem in Hin. apply in_map_iff in Hin.
  destruct Hin as (v & Hv & Hin).
  unfold findOne in He. pose proof (find_none _ _ He v Hin) as Hf.
  rewrite matches_filtroEmail, Hv, String.eqb_refl in Hf. discriminate.
Qed.

Lemma createUser_emails_unicos_witness :
  emailsUnicos (snd (createUser db_solo reqRoot altaAdmin "dora"))
  /\ emailsUnicos (snd (createUser db_solo reqRoot altaDuplicada "otra")).
Proof.
  assert (Hu : emailsUnicos db_solo).
  { unfold emailsUnicos. cbn. repeat constructor; cbn; intuition discriminate. }
  split; apply createUser_emails_unicos; try exact Hu; reflexivity.
Defined.


Section LocalesMustExist.

Variable puedeAdministrar : Req -> User -> list Local -> bool.


End LocalesMustExist.


(** ** Statistics *)





Lemma matches_filtroUsuariosDe l u :
  matches (filtroUsuariosDe l) u = Role_eqb (role u) usuario && inList l (locales u).
Proof. unfold matches; cbn. now rewrite !andb_true_r. Qed.



Section Stats.

Variable ultimoAcceso : User -> option nat.
Variable haceTreintaDias : nat -> nat.
Variable porcentaje : nat -> nat -> nat.


(** X22.  [getAdminDetailStats] shows an administrator his own statistics only;
    and in what it answers, for each locale the users active in the last
    thirty days are among the users counted, the latest users are at most
    five users of the locale, newest first, and the total is the sum over
    the locales. *)
Theorem getAdminDetailStats_spec db req adminId :
  (req_userRole req = admin -> req_userId req <> adminId ->
     r_status (getAdminDetailStats ultimoAcceso haceTreintaDias porcentaje db req adminId)
     = 403)
  /\
  (forall det,
     r_data (getAdminDetailStats ultimoAcceso haceTreintaDias porcentaje db req adminId)
     = Some det ->
     (req_userRole req = admin -> req_userId req = adminId)
     /\ adminDe adminId db = Some (ad_admin det)
     /\ ad_totalUsuarios det = suma (map ld_totalUsuarios (ad_locales det))
     /\ map ld_local (ad_locales det) = populate db (locales (ad_admin det))
     /\ forall ld, In ld (ad_locales det) ->
          ld_usuariosActivos ld <= ld_totalUsuarios ld
          /\ length (ld_ultimosUsuarios ld) <= 5
          /\ descendente (ld_ultimosUsuarios ld)
          /\ (ld_totalUsuarios ld = 0 -> ld_porcentajeActivos ld = 0)
          /\ forall u, In u (ld_ultimosUsuarios ld) ->
               In u (db_users db) /\ role u = usuario
               /\ In (local_id (ld_local ld)) (locales u)).
Proof.
  unfold getAdminDetailStats, adminDe. split.
  - intros Ha Hne. rewrite Ha. apply String.eqb_neq in Hne. rewrite Hne. reflexivity.
  - intros det.
    destruct (Role_eqb (req_userRole req) admin && negb (req_userId req =? adminId)) eqn:G;
      [discriminate|].
    destruct (findOne (filtroAdmin adminId) db) as [a|] eqn:Hf; [|discriminate].
    cbn [r_data]. intros [= <-].
    cbn [ad_admin ad_totalUsuarios ad_locales].
    split; [|split; [reflexivity | split; [reflexivity | split]]].
    + intros Ha. rewrite Ha in G. cbn in G.
      destruct (String.eqb_spec (req_userId req) adminId); [assumption | discriminate].
    + rewrite map_map. cbn [localDetalle ld_local]. apply map_id.
    + intros ld Hin. apply in_map_iff in Hin. destruct Hin as (l & <- & _).
      cbn [localDetalle ld_usuariosActivos ld_totalUsuarios ld_ultimosUsuarios
           ld_porcentajeActivos ld_local].
      split; [apply filter_length_le|]. split; [apply firstn_le_length|].
      split; [apply descendente_firstn, sortCreatedDesc_sorted|].
      split; [intros ->; reflexivity|].
      intros u Hu. apply In_firstn in Hu.
      apply (Permutation_in _ (sortCreatedDesc_perm _)) in Hu.
      apply filter_In in Hu. destruct Hu as [Hu Hm].
      rewrite matches_filtroUsuariosDe in Hm. apply andb_prop in Hm.
      destruct Hm as [Hr Hl]. split; [exact Hu|].
      split; [now apply Role_eqb_eq | now apply inList_In].
Qed.

End Stats.


Lemma getAdminDetailStats_spec_witness :
  r_status (getAdminDetailStats sinAcceso restaTreinta porcentajeEntero
                                db_lleno reqAna "beto") = 403
  /\ exists det,
       r_data (getAdminDetailStats sinAcceso restaTreinta porcentajeEntero
                                   db_stats reqBeto "beto") = Some det
       /\ adminDe "beto" db_stats = Some (ad_admin det)
       /\ ad_totalUsuarios det = suma (map ld_totalUsuarios (ad_locales det)).
Proof.
  assert (Hne : req_userId reqAna <> "beto") by discriminate.
  split.
  - exact (proj1 (getAdminDetailStats_spec sinAcceso restaTreinta porcentajeEntero
                    db_lleno reqAna "beto") eq_refl Hne).
  - eexists. split; [reflexivity|].
    destruct (proj2 (getAdminDetailStats_spec sinAcceso restaTreinta porcentajeEntero
                       db_stats reqBeto "beto") _ eq_refl) as (_ & H2 & H3 & _).
    split; [exact H2 | exact H3].
Defined.

(** ** The counts on the rows of a listing *)

Lemma leer_asignar k k' v m :
  leer k' (asignar k v m) = if k =? k' then Some v else leer k' m.
Proof.
  induction m as [|[k0 v0] rest IH]; cbn.
  - reflexivity.
  - destruct (String.eqb_spec k0 k) as [->|Hne]; cbn.
    + destruct (k =? k'); reflexivity.
    + destruct (String.eqb_spec k0 k') as [->|Hne'].
      * apply String.eqb_neq in Hne. rewrite String.eqb_sym in Hne. now rewrite Hne.
      * exact IH.
Qed.

Lemma In_unicos x xs : In x (unicos xs) <-> In x xs.
Proof.
  induction xs as [|y rest IH]; cbn; [tauto|].
  rewrite filter_In, IH. destruct (String.eqb_spec x y) as [->|Hne]; cbn.
  - tauto.
  - split; [tauto|]. intros [Hy|Hin]; [congruence | right; split; auto].
Qed.

Section Conteos.

Variable f : string -> nat.

Lemma conteosExactos_asignar k m :
  conteosExactos f m -> conteosExactos f (asignar k (f k) m).
Proof.
  intros Hm k' v. rewrite leer_asignar.
  destruct (String.eqb_spec k k') as [->|_]; [now intros [= <-] | apply Hm].
Qed.

Lemma primer_bucle ids m :
  conteosExactos f m ->
  conteosExactos f (fold_left (fun m id => asignar id (f id) m) ids m)
  /\ forall k, In k ids \/ leer k m <> None ->
       leer k (fold_left (fun m id => asignar id (f id) m) ids m) <> None.
Proof.
  revert m. induction ids as [|id rest IH]; intros m Hm; cbn.
  - split; [exact Hm | intros k [[]|H]; exact H].
  - destruct (IH _ (conteosExactos_asignar id m Hm)) as [H1 H2]. split; [exact H1|].
    intros k Hk. apply H2. rewrite leer_asignar.
    destruct (String.eqb_spec id k) as [->|Hne]; [right; discriminate|].
    destruct Hk as [[->|Hk]|Hk]; [contradiction | now left | now right].
Qed.

Lemma segundo_bucle ids m :
  conteosExactos f m ->
  conteosExactos f (fold_left (fun m id => if falta id m then asignar id (f id) m else m) ids m)
  /\ forall k, leer k m <> None ->
       leer k (fold_left (fun m id => if falta id m then asignar id (f id) m else m)
                         ids m) <> None.
Proof.
  revert m. induction ids as [|id rest IH]; intros m Hm; cbn.
  - split; [exact Hm | auto].
  - destruct (falta id m).
    + destruct (IH _ (conteosExactos_asignar id m Hm)) as [H1 H2]. split; [exact H1|].
      intros k Hk. apply H2. rewrite leer_asignar.
      destruct (id =? k); [discriminate | exact Hk].
    + now apply IH.
Qed.

End Conteos.

(** X23.  The count a row of a listing carries is exact: for an actor that is an
    administrator or a super administrator, the row of an administrator
    with locales carries the sum, over those of his locales that exist, of
    the number of active users of the locale, whatever the other rows of
    the page and the locales of the actor put in the table; the other rows
    carry none. *)
Theorem usuariosEnLocal_exact db req users user :
  req_userRole req <> usuario ->
  In user users ->
  (role user = admin -> populate db (locales user) <> [] ->
     usuariosEnLocal db (localUserCounts db req users) user
     = Some (suma (map (fun l => countDocuments (filtroUsuariosActivosDe (local_id l)) db)
                       (populate db (locales user)))))
  /\ (role user <> admin \/ populate db (locales user) = [] ->
        usuariosEnLocal db (localUserCounts db req users) user = None).
Proof.
  intros Ha Hin. split.
  - intros Hr Hp. unfold usuariosEnLocal. rewrite Hr. cbn [Role_eqb andb].
    destruct (populate db (locales user)) as [|l0 ls0] eqn:Ep; [contradiction|].
    cbn [length Nat.eqb negb]. f_equal. f_equal. apply map_ext_in. intros l Hl.
    set (f := fun k => countDocuments (filtroUsuariosActivosDe k) db).
    set (ids := unicos (flat_map (fun user => map local_id (populate db (locales user)))
                  (filter (fun user =>
                             negb (Nat.eqb (length (populate db (locales user))) 0)
                             && Role_eqb (role user) admin) users))).
    assert (Hid : In (local_id l) ids).
    { unfold ids. apply In_unicos, in_flat_map. exists user. split.
      - apply filter_In. split; [exact Hin|]. rewrite Ep, Hr. reflexivity.
      - rewrite Ep. now apply in_map. }
    assert (H0 : forall k v, leer k [] = Some v -> v = f k) by discriminate.
    destruct (primer_bucle f ids [] H0) as [C1 D1].
    specialize (D1 (local_id l) (or_introl Hid)).
    assert (Hfin : exists m, localUserCounts db req users = m
                             /\ (forall k v, leer k m = Some v -> v = f k)
                             /\ leer (local_id l) m <> None).
    { unfold localUserCounts. fold ids. fold f.
      change (fun m localId => asignar localId
                (countDocuments (filtroUsuariosActivosDe localId) db) m)
        with (fun m id => asignar id (f id) m).
      change (fun m adminLocal =>
                if falta adminLocal m
                then asignar adminLocal
                       (countDocuments (filtroUsuariosActivosDe adminLocal) db) m
                else m)
        with (fun m id => if falta id m then asignar id (f id) m else m).
      destruct (req_userRole req); [contradiction | |].
      + cbn [Role_eqb andb].
        destruct (noVacio (req_user_locales req)).
        * destruct (segundo_bucle f (opt (req_user_locales req) []) _ C1) as [C2 D2].
          eexists. split; [reflexivity|]. split; [exact C2 | now apply D2].
        * eexists. split; [reflexivity|]. split; [exact C1 | exact D1].
      + cbn [Role_eqb andb]. eexists. split; [reflexivity|]. split; [exact C1 | exact D1]. }
    destruct Hfin as (m & -> & Cm & Dm).
    destruct (leer (local_id l) m) as [v|] eqn:E; [|contradiction].
    cbn [opt]. now apply Cm.
  - intros [Hr|Hp]; unfold usuariosEnLocal.
    + apply Role_eqb_neq in Hr. now rewrite Hr.
    + rewrite Hp. cbn. now rewrite andb_false_r.
Qed.

Lemma usuariosEnLocal_exact_witness :
  usuariosEnLocal db_stats
    (localUserCounts db_stats reqBeto
       (usersDe (fst (getAllUsers regex_eq db_stats reqBeto sinConsulta)))) beto
  = Some 3.
Proof.
  assert (Ha : req_userRole reqBeto <> usuario) by discriminate.
  assert (Hin : In beto (usersDe (fst (getAllUsers regex_eq db_stats reqBeto sinConsulta))))
    by (vm_compute; tauto).
  assert (Hp : populate db_stats (locales beto) <> []) by discriminate.
  destruct (usuariosEnLocal_exact db_stats reqBeto _ beto Ha Hin) as [H _].
  rewrite (H eq_refl Hp). reflexivity.
Defined.
